(** * MetaBlooms static audit: the boot capability probe and the bundle auditor

    A shallow embedding of [boot_capability_probe.py] and
    [metablooms_audit.py].  Python exceptions are values of an error monad,
    the extracted bundle is a tree of directories and files, and the
    library calls the code relies on ([ast.parse], [json.load],
    [re.search], [ast.unparse], text decoding) are fields of a [Lib]
    record the checks are parametrised by. *)

From Stdlib Require Import String Ascii List ZArith QArith Bool Lia.
From stdpp Require Import gmap strings list sorting pretty.
Import ListNotations.
Open Scope string_scope.
Open Scope list_scope.
Set Warnings "-register-all".

(** ** Python values, exceptions and strings *)

Module Py.

(** The exception classes the audited code can meet.  [SyntaxError] and
    [JSONDecodeError] carry [str(e)], which the checks interpolate. *)
Inductive exn :=
| SyntaxError (msg : string)
| JSONDecodeError (msg : string)
| UnicodeDecodeError
| IsADirectoryError
| NotADirectoryError
| FileExistsError
| FileNotFoundError
| AttributeError (msg : string)
| TypeError (msg : string)
| BadZipFile
| OtherError (name : string).

Inductive result (A : Type) :=
| Returns (a : A)
| Raises (e : exn).
Arguments Returns {A} a.
Arguments Raises {A} e.

Definition bind {A B} (m : result A) (k : A -> result B) : result B :=
  match m with
  | Returns a => k a
  | Raises e => Raises e
  end.

(** [try: body except: handler] with a bare [except]. *)
Definition try_except {A} (body : result A) (handler : A) : A :=
  match body with
  | Returns a => a
  | Raises _ => handler
  end.

Definition returned {A} (m : result A) : Prop := exists a, m = Returns a.

(** *** [str] primitives

    A text ([str]) is modelled by the string of its UTF-8 bytes, so an
    ASCII character is one byte and every other character is a lead byte
    followed by continuation bytes.  Searching an ASCII keyword and
    comparing two texts give on the bytes what they give on the
    characters. *)

Definition is_ascii_char (c : ascii) : bool := (nat_of_ascii c <? 128)%nat.

(** [s.isascii()] *)
Fixpoint is_ascii (s : string) : bool :=
  match s with
  | EmptyString => true
  | String c r => is_ascii_char c && is_ascii r
  end.

(** A continuation byte of a multi-byte character: [10xxxxxx]. *)
Definition is_continuation (c : ascii) : bool :=
  let n := nat_of_ascii c in (128 <=? n)%nat && (n <? 192)%nat.

(** [len(s)]: the number of characters, one for each byte that is not a
    continuation byte. *)
Fixpoint str_len (s : string) : nat :=
  match s with
  | EmptyString => 0
  | String c r => if is_continuation c then str_len r else S (str_len r)
  end.

Definition is_ascii_upper (c : ascii) : bool :=
  let n := nat_of_ascii c in (65 <=? n)%nat && (n <=? 90)%nat.

Definition is_ascii_lower (c : ascii) : bool :=
  let n := nat_of_ascii c in (97 <=? n)%nat && (n <=? 122)%nat.

Definition lower_char (c : ascii) : ascii :=
  if is_ascii_upper c then ascii_of_nat (nat_of_ascii c + 32) else c.

(** [s.lower()], as far as a search for an ASCII keyword without [i] and
    [k] can tell: the ASCII capitals are mapped to their small letters
    and every other byte is kept.  (Outside ASCII, [str.lower] yields an
    ASCII letter only for U+0130, which gives [i], and for the Kelvin
    sign U+212A, which gives [k]; the keywords searched in lower-cased
    text are [delta], [gate], [ledger] and [csrg].) *)
Fixpoint lower (s : string) : string :=
  match s with
  | EmptyString => EmptyString
  | String c r => String (lower_char c) (lower r)
  end.

Fixpoint has_upper (s : string) : bool :=
  match s with
  | EmptyString => false
  | String c r => is_ascii_upper c || has_upper r
  end.

Fixpoint has_lower (s : string) : bool :=
  match s with
  | EmptyString => false
  | String c r => is_ascii_lower c || has_lower r
  end.

(** [s.isupper()] for an ASCII text: at least one cased character and no
    lower-case one.  For a text with other characters the answer depends
    on the Unicode character database, see [Lib]. *)
Definition isupper (s : string) : bool := has_upper s && negb (has_lower s).

Fixpoint startswith (p s : string) : bool :=
  match p, s with
  | EmptyString, _ => true
  | String a p', String b s' => if ascii_dec a b then startswith p' s' else false
  | String _ _, EmptyString => false
  end.

(** [needle in hay] *)
Fixpoint contains (needle hay : string) : bool :=
  startswith needle hay ||
  match hay with
  | EmptyString => false
  | String _ r => contains needle r
  end.

Definition dquote : string := String (ascii_of_nat 34) EmptyString.

(** [s.split(sep)] for a one-character separator. *)
Fixpoint split_go (sep : ascii) (cur : string) (s : string) : list string :=
  match s with
  | EmptyString => [String.rev cur]
  | String c r =>
      if ascii_dec c sep then String.rev cur :: split_go sep EmptyString r
      else split_go sep (String c cur) r
  end.

Definition split (sep : ascii) (s : string) : list string :=
  split_go sep EmptyString s.

(** [sep.join(parts)] *)
Fixpoint join (sep : string) (parts : list string) : string :=
  match parts with
  | [] => EmptyString
  | [p] => p
  | p :: rest => p +:+ sep +:+ join sep rest
  end.

(** [fnmatch] for patterns whose only metacharacter is the star, as in
    the three glob patterns of the auditor. *)
Fixpoint fnmatch (pat name : string) : bool :=
  match pat with
  | EmptyString => match name with EmptyString => true | _ => false end
  | String p pat' =>
      if ascii_dec p "*"%char then
        (fix star (n : string) : bool :=
           fnmatch pat' n ||
           match n with
           | EmptyString => false
           | String _ n' => star n'
           end) name
      else
        match name with
        | String c name' => if ascii_dec p c then fnmatch pat' name' else false
        | EmptyString => false
        end
  end.

End Py.
Export Py.

(** The statements of a method body are sequenced with stdpp's monad
    notation [x ← m; k]; an exception stops the sequence. *)
#[global] Instance result_ret : MRet result := @Returns.
#[global] Instance result_bind : MBind result := fun A B k m => Py.bind m k.

(** ** Syntax trees ([ast]) *)

Module Ast.

(** The value of a float literal: a finite float is a rational number,
    or the negative zero; a literal over the range of the floats is an
    infinity.  No literal is a NaN. *)
Inductive float_value :=
| FFinite (q : Q)
| FNegZero
| FInf (negative : bool).

(** The value of an [ast.Constant]: [CImag y] is the imaginary literal
    [yj], [CBytes] a bytes literal. *)
Inductive constant :=
| CStr (s : string)
| CInt (n : Z)
| CBool (b : bool)
| CNone
| CFloat (x : float_value)
| CImag (y : float_value)
| CBytes (b : string)
| CEllipsis.

(** The node kinds the extractors discriminate, and [Other] for every
    remaining kind with its child nodes in field order.  The [arguments]
    node of a function definition is split into the names of
    [args.args] and the child nodes below it. *)
Inductive node :=
| Module (body : list node)
| FunctionDef (name : string) (params : list string) (arguments : list node)
    (body : list node) (trailer : list node) (lineno : nat)
| Assign (targets : list node) (value : node) (lineno : nat)
| Import (names : list string)
| ImportFrom (module : option string) (names : list string)
| Call (func : node) (args : list node) (keywords : list node) (lineno : nat)
| Name (id : string)
| Attribute (value : node) (attr : string)
| Constant (value : constant)
| JoinedStr (values : list node)
| Other (children : list node).

(** [ast.iter_child_nodes]: alias nodes, expression contexts and operators
    are leaves that no extractor inspects and are left out. *)
Definition iter_child_nodes (n : node) : list node :=
  match n with
  | Module body => body
  | FunctionDef _ _ arguments body trailer _ => Other arguments :: body ++ trailer
  | Assign targets value _ => targets ++ [value]
  | Import _ => []
  | ImportFrom _ _ => []
  | Call func args keywords _ => func :: args ++ keywords
  | Name _ => []
  | Attribute value _ => [value]
  | Constant _ => []
  | JoinedStr values => values
  | Other children => children
  end.

(** Number of nodes [ast.walk] yields for a tree. *)
Fixpoint size (n : node) : nat :=
  let sizes := fix sizes (l : list node) : nat :=
    match l with
    | [] => 0
    | x :: r => size x + sizes r
    end in
  match n with
  | Module body => S (sizes body)
  | FunctionDef _ _ arguments body trailer _ =>
      S (S (sizes arguments) + sizes body + sizes trailer)
  | Assign targets value _ => S (sizes targets + size value)
  | Import _ => 1
  | ImportFrom _ _ => 1
  | Call func args keywords _ => S (size func + sizes args + sizes keywords)
  | Name _ => 1
  | Attribute value _ => S (size value)
  | Constant _ => 1
  | JoinedStr values => S (sizes values)
  | Other children => S (sizes children)
  end.

Definition sizes : list node -> nat :=
  fix sizes (l : list node) : nat :=
    match l with
    | [] => 0
    | x :: r => size x + sizes r
    end.

(** The loop of [ast.walk]: pop the left end of the queue, push the
    node's children on the right, yield the node. *)
Fixpoint walk_queue (fuel : nat) (todo : list node) : list node :=
  match fuel with
  | 0 => []
  | S fuel' =>
      match todo with
      | [] => []
      | n :: rest => n :: walk_queue fuel' (rest ++ iter_child_nodes n)
      end
  end.

(** [ast.walk(node)] *)
Definition walk (n : node) : list node := walk_queue (size n) [n].

(** [n] is [t] or occurs below it. *)
Inductive subnode : node -> node -> Prop :=
| subnode_refl n : subnode n n
| subnode_child n c t : c ∈ iter_child_nodes t -> subnode n c -> subnode n t.

End Ast.
Export Ast.

(** ** JSON documents and the library interface *)

Inductive json :=
| JNull
| JBool (b : bool)
| JInt (n : Z)
| JFloat (repr : string)
| JStr (s : string)
| JArr (items : list json)
| JObj (members : list (string * json)).

(** The library functions the two programs call.  They are not part of
    the repository; the checks are stated for every behaviour of them.
    - [decode]: the text of a file's bytes, as [Path.read_text] and a
      text-mode [open] decode them;
    - [ast_parse]: [ast.parse], which raises [SyntaxError] on malformed
      source;
    - [json_loads]: [json.load] on the decoded text, which raises
      [JSONDecodeError] on a malformed document;
    - [re_search_group1 pattern s]: [re.search(pattern, s)] and, when it
      matches, [group(1)];
    - [has_unparse], [unparse], [repr_node]: [hasattr(ast, 'unparse')],
      [ast.unparse] and [repr] of a node;
    - [set_iter l]: the order in which [set(l)] is iterated;
    - [unicode_isupper s]: [s.isupper()] for a text with a character
      outside ASCII, which the Unicode character database decides. *)
Record Lib := {
  decode : string -> result string;
  ast_parse : string -> result node;
  json_loads : string -> result json;
  re_search_group1 : string -> string -> option string;
  has_unparse : bool;
  unparse : node -> result string;
  repr_node : node -> string;
  set_iter : list string -> list string;
  unicode_isupper : string -> bool
}.

(** A set holds each element once, in some order. *)
Definition set_iter_ok (f : list string -> list string) : Prop :=
  forall l, NoDup (f l) /\ (forall x, x ∈ f l <-> x ∈ l).

Definition with_set_iter (L : Lib) (f : list string -> list string) : Lib :=
  {| decode := decode L; ast_parse := ast_parse L; json_loads := json_loads L;
     re_search_group1 := re_search_group1 L; has_unparse := has_unparse L;
     unparse := unparse L; repr_node := repr_node L; set_iter := f;
     unicode_isupper := unicode_isupper L |}.

(** [sorted] on strings. *)
Definition sorted (l : list string) : list string := merge_sort String.le l.

(** ** The capability extractor ([boot_capability_probe.py]) *)

Module Probe.

(** The object a [BootCapabilityExtractor] is: [tree] is [None] after a
    syntax error, and [error] is set only then. *)
Record extractor := {
  source : string;
  tree : option node;
  error : option string
}.

(** An entry of [file_reads]: the two dict shapes the method appends. *)
Inductive file_read :=
| ReadVariable (operation variable : string) (line : nat)
| ReadArgument (operation argument : string) (line : nat).

Record function_def := {
  fd_name : string;
  fd_params : list string;
  fd_line : nat;
  has_fail_closed : bool
}.

Record external_call := {
  ec_function : string;
  ec_line : nat
}.

#[global] Instance external_call_eq_dec : EqDecision external_call.
Proof. solve_decision. Defined.

(** What [extract_all] returns: the seven-key dict, or the one-key
    [{"error": ...}] dict. *)
Record surface := {
  file_reads : list file_read;
  imports : list string;
  path_constants : gmap string string;
  function_definitions : list function_def;
  external_calls : list external_call;
  string_literals : list string;
  fail_exit_codes : list (constant * constant)
}.

Inductive capabilities :=
| ErrorSurface (msg : string)
| Surface (s : surface).

(** A real number as Python compares it: a rational or an infinity. *)
Inductive real :=
| Finite (q : Q)
| Infinity (negative : bool).

Definition real_eqb (x y : real) : bool :=
  match x, y with
  | Finite p, Finite q => Qeq_bool p q
  | Infinity s, Infinity t => Bool.eqb s t
  | _, _ => false
  end.

Definition real_of (x : float_value) : real :=
  match x with
  | FFinite q => Finite q
  | FNegZero => Finite 0
  | FInf negative => Infinity negative
  end.

(** The real and imaginary part of a numeric constant: [True] is 1 and
    [False] is 0. *)
Definition number_of (c : constant) : option (real * real) :=
  match c with
  | CInt n => Some (Finite (inject_Z n), Finite 0)
  | CBool b => Some (Finite (if b then 1 else 0), Finite 0)
  | CFloat x => Some (real_of x, Finite 0)
  | CImag y => Some (Finite 0, real_of y)
  | _ => None
  end.

(** Equality of dict keys.  Numbers are compared by value whatever their
    type, so that [1], [1.0] and [True] are one key, as are [0], [-0.0],
    [0j] and [False]; equal numbers have equal hashes.  A text, a bytes
    literal, [None] and [Ellipsis] equal only their like. *)
Definition key_eqb (a b : constant) : bool :=
  match number_of a, number_of b with
  | Some (x, y), Some (x', y') => real_eqb x x' && real_eqb y y'
  | None, None =>
      match a, b with
      | CStr s, CStr s' => bool_decide (s = s')
      | CBytes s, CBytes s' => bool_decide (s = s')
      | CNone, CNone => true
      | CEllipsis, CEllipsis => true
      | _, _ => false
      end
  | _, _ => false
  end.

(** [d[k] = v] on an insertion-ordered dict: an equal key keeps its place
    and takes the new value. *)
Fixpoint dict_set (k v : constant) (d : list (constant * constant)) : list (constant * constant) :=
  match d with
  | [] => [(k, v)]
  | (k', v') :: r => if key_eqb k' k then (k', v) :: r else (k', v') :: dict_set k v r
  end.

Section Methods.
Variable L : Lib.

(** [__init__] *)
Definition BootCapabilityExtractor (boot_source : string) : result extractor :=
  match ast_parse L boot_source with
  | Returns t => Returns {| source := boot_source; tree := Some t; error := None |}
  | Raises (SyntaxError msg) =>
      Returns {| source := boot_source; tree := None; error := Some msg |}
  | Raises e => Raises e
  end.

Definition file_reads_at (n : node) : result (list file_read) :=
  let attribute_read :=
    match n with
    | Call (Attribute (Name id) attr) _ _ line =>
        if bool_decide (attr ∈ ["read_text"; "read_bytes"; "open"])
        then [ReadVariable attr id line] else []
    | _ => []
    end in
  match n with
  | Call (Name id) (arg :: _) _ line =>
      if bool_decide (id = "open") then
        argument ← (if has_unparse L then unparse L arg else Returns "unparseable");
        Returns (attribute_read ++ [ReadArgument "open" argument line])
      else Returns attribute_read
  | _ => Returns attribute_read
  end.

Fixpoint collect {A} (f : node -> result (list A)) (nodes : list node) : result (list A) :=
  match nodes with
  | [] => Returns []
  | n :: rest => here ← f n; later ← collect f rest; Returns (here ++ later)
  end.

Definition extract_file_reads (t : node) : result (list file_read) :=
  collect file_reads_at (walk t).

Definition imports_at (n : node) : list string :=
  match n with
  | Import names => names
  | ImportFrom (Some m) _ => if bool_decide (m = "") then [] else [m]
  | _ => []
  end.

Definition extract_imports (t : node) : list string :=
  sorted (set_iter L (flat_map imports_at (walk t))).

(** [target.id.isupper()]: computed for an ASCII name, the library's
    answer for a name with other characters. *)
Definition id_isupper (id : string) : bool :=
  if is_ascii id then isupper id else unicode_isupper L id.

(** The condition of line 93, with Python's precedence: [and] binds
    tighter than [or]. *)
Definition path_like (id : string) : bool :=
  (id_isupper id && contains "PATH" id) || contains "DIR" id.

Definition unparse_value (value : node) : string :=
  try_except (if has_unparse L then unparse L value else Returns (repr_node L value))
             "<unparseable>".

Definition path_constants_at (paths : gmap string string) (n : node) : gmap string string :=
  match n with
  | Assign targets value _ =>
      foldl (fun acc target =>
               match target with
               | Name id => if path_like id then <[id := unparse_value value]> acc else acc
               | _ => acc
               end) paths targets
  | _ => paths
  end.

Definition extract_path_constants (t : node) : gmap string string :=
  foldl path_constants_at ∅ (walk t).

Definition is_die_call (n : node) : bool :=
  match n with
  | Call (Name id) _ _ _ => bool_decide (id = "_die")
  | _ => false
  end.

Definition function_defs_at (n : node) : list function_def :=
  match n with
  | FunctionDef name params _ _ _ line =>
      [{| fd_name := name; fd_params := params; fd_line := line;
          has_fail_closed := existsb is_die_call (walk n) |}]
  | _ => []
  end.

Definition extract_function_defs (t : node) : list function_def :=
  flat_map function_defs_at (walk t).

Definition stdlib : list string :=
  ["print"; "open"; "len"; "sorted"; "list"; "dict"; "set"; "str"; "int"; "float";
   "isinstance"; "hasattr"; "getattr"].

Definition external_at (defined : list string) (n : node) : list external_call :=
  match n with
  | Call (Name func_name) _ _ line =>
      if bool_decide (func_name ∉ defined) && bool_decide (func_name ∉ stdlib)
      then [{| ec_function := func_name; ec_line := line |}] else []
  | _ => []
  end.

(** The deduplication loop: the first occurrence of a key is kept. *)
Fixpoint unique_calls (seen : list external_call) (calls : list external_call) : list external_call :=
  match calls with
  | [] => []
  | c :: rest =>
      if bool_decide (c ∈ seen) then unique_calls seen rest
      else c :: unique_calls (c :: seen) rest
  end.

Definition extract_external_calls (t : node) : list external_call :=
  let defined := map fd_name (extract_function_defs t) in
  unique_calls [] (flat_map (external_at defined) (walk t)).

Definition string_literals_at (n : node) : list string :=
  match n with
  | Constant (CStr s) => [s]
  | _ => []
  end.

Definition extract_string_literals (t : node) : list string :=
  sorted (set_iter L (flat_map string_literals_at (walk t))).

Definition exit_codes_at (exits : list (constant * constant)) (n : node) : list (constant * constant) :=
  match n with
  | Call (Name id) (Constant code :: second :: _) _ _ =>
      if bool_decide (id = "_die") then
        let msg :=
          match second with
          | Constant m => m
          | JoinedStr _ => CStr "<f-string>"
          | _ => CStr "<dynamic>"
          end in
        dict_set code msg exits
      else exits
  | _ => exits
  end.

Definition extract_exit_codes (t : node) : list (constant * constant) :=
  foldl exit_codes_at [] (walk t).

Definition extract_all (self : extractor) : result capabilities :=
  match tree self with
  | None => Returns (ErrorSurface (default "Unknown parse error" (error self)))
  | Some t =>
      reads ← extract_file_reads t;
      Returns (Surface {|
        file_reads := reads;
        imports := extract_imports t;
        path_constants := extract_path_constants t;
        function_definitions := extract_function_defs t;
        external_calls := extract_external_calls t;
        string_literals := extract_string_literals t;
        fail_exit_codes := extract_exit_codes t |})
  end.

End Methods.

End Probe.

(** ** The bundle auditor ([metablooms_audit.py]) *)

Module Audit.

(** *** The archive and the extracted tree *)

(** A member of the zip archive: its name, and what reading it gives (an
    exception for a damaged or encrypted member). *)
Record ZipInfo := {
  filename : string;
  payload : result string
}.

(** What [zipfile.ZipFile(zip_path, 'r')] gives: the members, or the
    exception for a file that is not a readable archive. *)
Definition bundle := result (list ZipInfo).

(** The extraction directory: entries in listing order. *)
Inductive fsnode :=
| File (data : string)
| Dir (entries : list (string * fsnode)).

Abbreviation directory := (list (string * fsnode)).

Fixpoint lookup (name : string) (d : directory) : option fsnode :=
  match d with
  | [] => None
  | (n, x) :: r => if bool_decide (n = name) then Some x else lookup name r
  end.

(** Write an entry: an existing name keeps its place. *)
Fixpoint put (name : string) (x : fsnode) (d : directory) : directory :=
  match d with
  | [] => [(name, x)]
  | (n, y) :: r => if bool_decide (n = name) then (n, x) :: r else (n, y) :: put name x r
  end.

(** [path.exists()] for a child of the extraction directory. *)
Definition exists_ (name : string) (d : directory) : bool :=
  match lookup name d with Some _ => true | None => false end.

(** The path [zipfile] extracts a member to, relative to the target
    directory: empty, [.] and [..] components are dropped. *)
Definition invalid_path_parts : list string := [""; "."; ".."].

Definition arcname (member : ZipInfo) : list string :=
  filter (fun x => x ∉ invalid_path_parts) (split "/" (filename member)).

Fixpoint endswith_slash (s : string) : bool :=
  match s with
  | EmptyString => false
  | String c EmptyString => bool_decide (c = "/"%char)
  | String _ r => endswith_slash r
  end.

Definition is_dir (member : ZipInfo) : bool := endswith_slash (filename member).

(** [ZipFile._extract_member]: create the upper directories, then make
    the directory or write the file.  The failures of the file system
    itself (a name over its limit, a full disk) are left out: what is
    stated about an extraction is stated for one that returns. *)
Fixpoint extract_at (path : list string) (member : ZipInfo) (d : directory) : result directory :=
  match path with
  | [] => if is_dir member then Returns d else Raises IsADirectoryError
  | name :: rest =>
      match rest with
      | [] =>
          if is_dir member then
            match lookup name d with
            | Some (Dir _) => Returns d
            | Some (File _) => Raises FileExistsError
            | None => Returns (d ++ [(name, Dir [])])
            end
          else
            data ← payload member;
            match lookup name d with
            | Some (Dir _) => Raises IsADirectoryError
            | _ => Returns (put name (File data) d)
            end
      | _ :: _ =>
          match lookup name d with
          | Some (File _) => Raises NotADirectoryError
          | Some (Dir sub) => sub' ← extract_at rest member sub; Returns (put name (Dir sub') d)
          | None => sub' ← extract_at rest member []; Returns (d ++ [(name, Dir sub')])
          end
      end
  end.

Definition extract_member (member : ZipInfo) (d : directory) : result directory :=
  extract_at (arcname member) member d.

(** [zf.namelist()] *)
Definition namelist (zf : list ZipInfo) : list string := map filename zf.

(** [zf.getinfo(name)]: of the members with one name, the archive's name
    table keeps the last. *)
Fixpoint getinfo (zf : list ZipInfo) (name : string) : option ZipInfo :=
  match zf with
  | [] => None
  | m :: rest =>
      match getinfo rest name with
      | Some m' => Some m'
      | None => if bool_decide (filename m = name) then Some m else None
      end
  end.

(** The loop of [extractall]: each name of the name list, in archive
    order, is looked up and extracted. *)
Fixpoint extract_members (zf : list ZipInfo) (members : list string) (d : directory)
    : result directory :=
  match members with
  | [] => Returns d
  | name :: rest =>
      match getinfo zf name with
      | Some member => d' ← extract_member member d; extract_members zf rest d'
      | None => Raises (OtherError "KeyError")
      end
  end.

(** [zf.extractall(extract_dir)] into the fresh temporary directory. *)
Definition extractall (zip_path : bundle) : result directory :=
  zf ← zip_path; extract_members zf (namelist zf) [].

(** Whether a relative path leaves the directory it starts from. *)
Fixpoint climbs_out (depth : nat) (parts : list string) : bool :=
  match parts with
  | [] => false
  | p :: r =>
      if bool_decide (p = "..") then
        match depth with
        | 0 => true
        | S depth' => climbs_out depth' r
        end
      else if bool_decide (p = "") || bool_decide (p = ".") then climbs_out depth r
      else climbs_out (S depth) r
  end.

(** A member name that, taken literally, names a place outside the
    extraction directory. *)
Definition path_traversal (member : ZipInfo) : bool :=
  startswith "/" (filename member) || climbs_out 0 (split "/" (filename member)).

(** [Path.read_text()] *)
Definition read_text (L : Lib) (x : option fsnode) : result string :=
  match x with
  | None => Raises FileNotFoundError
  | Some (Dir _) => Raises IsADirectoryError
  | Some (File data) => decode L data
  end.

(** [dir.glob(pattern)] for a one-component pattern: nothing for a path
    that is not a directory. *)
Definition glob (pattern : string) (x : option fsnode) : directory :=
  match x with
  | Some (Dir entries) => filter (fun e => fnmatch pattern e.1) entries
  | _ => []
  end.

(** [dir.glob("**/" + pattern)]: the directory itself, then each
    sub-directory in turn. *)
Fixpoint rglob (pattern : string) (x : fsnode) : directory :=
  match x with
  | File _ => []
  | Dir entries =>
      filter (fun e => fnmatch pattern e.1) entries ++
      (fix below (es : directory) : directory :=
         match es with
         | [] => []
         | (_, sub) :: r => rglob pattern sub ++ below r
         end) entries
  end.

(** *** Findings and the report *)

Inductive value :=
| VStr (s : string)
| VInt (n : nat)
| VList (l : list string)
| VJson (j : json).

(** A finding is a dict from field names to values. *)
Definition Finding := list (string * value).

Record AuditReport := {
  verified_implementations : list Finding;
  present_but_unwired : list Finding;
  missing : list Finding;
  spec_conflicts : list Finding;
  unverifiable : list Finding
}.

(** [AuditReport()] *)
Definition empty_report : AuditReport :=
  {| verified_implementations := []; present_but_unwired := []; missing := [];
     spec_conflicts := []; unverifiable := [] |}.

Definition append_verified (f : Finding) (r : AuditReport) : AuditReport :=
  {| verified_implementations := verified_implementations r ++ [f];
     present_but_unwired := present_but_unwired r; missing := missing r;
     spec_conflicts := spec_conflicts r; unverifiable := unverifiable r |}.

Definition append_unwired (f : Finding) (r : AuditReport) : AuditReport :=
  {| verified_implementations := verified_implementations r;
     present_but_unwired := present_but_unwired r ++ [f]; missing := missing r;
     spec_conflicts := spec_conflicts r; unverifiable := unverifiable r |}.

Definition append_missing (f : Finding) (r : AuditReport) : AuditReport :=
  {| verified_implementations := verified_implementations r;
     present_but_unwired := present_but_unwired r; missing := missing r ++ [f];
     spec_conflicts := spec_conflicts r; unverifiable := unverifiable r |}.

Definition append_unverifiable (f : Finding) (r : AuditReport) : AuditReport :=
  {| verified_implementations := verified_implementations r;
     present_but_unwired := present_but_unwired r; missing := missing r;
     spec_conflicts := spec_conflicts r; unverifiable := unverifiable r ++ [f] |}.

(** *** [BootAnalyzer] *)

Record BootAnalyzer := {
  source : string;
  tree : option node;
  parse_error : option string
}.

Definition new_BootAnalyzer (L : Lib) (boot_path : option fsnode) : result BootAnalyzer :=
  src ← read_text L boot_path;
  match ast_parse L src with
  | Returns t => Returns {| source := src; tree := Some t; parse_error := None |}
  | Raises (SyntaxError msg) => Returns {| source := src; tree := None; parse_error := Some msg |}
  | Raises e => Raises e
  end.

Definition extract_imports (self : BootAnalyzer) : list string :=
  match tree self with
  | None => []
  | Some t => flat_map Probe.imports_at (walk t)
  end.

Definition loads_file (self : BootAnalyzer) (name : string) : bool :=
  contains name (source self).

(** [calls_function]: whether some call has the bare name as its callee. *)
Definition calls_function (self : BootAnalyzer) (func_name : string) : bool :=
  match tree self with
  | None => false
  | Some t =>
      existsb (fun n => match n with
                        | Call (Name id) _ _ _ => bool_decide (id = func_name)
                        | _ => false
                        end) (walk t)
  end.

(** *** The checks of [MetaBloomsAuditor]

    Each check reads [self.extract_dir] and appends to [self.report]; the
    report is passed in and handed back, and an exception leaves the
    check without a report. *)

Section Checks.
Variable L : Lib.
Variable extract_dir : directory.

Definition check_boot_structure (report : AuditReport) : result AuditReport :=
  let boot_file := lookup "BOOT_METABLOOMS.py" extract_dir in
  if negb (exists_ "BOOT_METABLOOMS.py" extract_dir) then
    Returns (append_missing
      [("component", VStr "BOOT_METABLOOMS.py"); ("reason", VStr "File not found in bundle")] report)
  else if negb (exists_ "RUN_METABLOOMS.py" extract_dir) then
    Returns (append_missing
      [("component", VStr "RUN_METABLOOMS.py"); ("reason", VStr "File not found in bundle")] report)
  else
    match (src ← read_text L boot_file; ast_parse L src) with
    | Returns _ =>
        Returns (append_verified
          [("component", VStr "BOOT_METABLOOMS.py");
           ("detail", VStr "File exists and is valid Python");
           ("path", VStr "BOOT_METABLOOMS.py")] report)
    | Raises (SyntaxError e) =>
        Returns (append_missing
          [("component", VStr "BOOT_METABLOOMS.py");
           ("reason", VStr ("Syntax error: " +:+ e))] report)
    | Raises e => Raises e
    end.

Definition check_delta_enforcement (report : AuditReport) : result AuditReport :=
  if negb (exists_ "BOOT_METABLOOMS.py" extract_dir) then Returns report
  else
    analyzer ← new_BootAnalyzer L (lookup "BOOT_METABLOOMS.py" extract_dir);
    let loads_latest := loads_file analyzer "latest.json" in
    let loads_manifests := loads_file analyzer "manifests" in
    let report :=
      if negb (loads_latest || loads_manifests) then
        append_missing
          [("component", VStr "Delta manifest loading");
           ("reason", VStr "No reference to 'latest.json' or 'manifests' in BOOT_METABLOOMS.py");
           ("evidence", VStr "Static source analysis: 0 occurrences")] report
      else report in
    let has_delta_hash :=
      contains "delta" (lower (source analyzer)) && contains "sha256" (source analyzer) in
    Returns
      (if negb has_delta_hash then
         append_missing
           [("component", VStr "Delta SHA256 verification");
            ("reason", VStr "No evidence of delta hash verification in boot");
            ("evidence", VStr "Source contains doctrine hash verification only")] report
       else report).

Definition check_gate_wiring (report : AuditReport) : result AuditReport :=
  let gate_files := glob "*gate*.py" (Some (Dir extract_dir)) in
  match gate_files with
  | [] =>
      Returns (append_missing
        [("component", VStr "Gate infrastructure"); ("reason", VStr "No gate files found")] report)
  | _ :: _ =>
      if negb (exists_ "BOOT_METABLOOMS.py" extract_dir) then Returns report
      else
        analyzer ← new_BootAnalyzer L (lookup "BOOT_METABLOOMS.py" extract_dir);
        let imports := extract_imports analyzer in
        let gate_imports := filter (fun imp => contains "gate" (lower imp)) imports in
        match gate_imports with
        | [] =>
            Returns (append_unwired
              [("component", VStr "Gate files");
               ("count", VInt (length gate_files));
               ("files", VList (map fst (take 10 gate_files)));
               ("reason", VStr "Gate files exist but are not imported by BOOT_METABLOOMS.py");
               ("evidence", VStr ("Found " +:+ pretty (length gate_files)
                                    +:+ " gate files, 0 gate imports in boot"))] report)
        | _ :: _ =>
            Returns (append_verified
              [("component", VStr "Gate imports"); ("imports", VList gate_imports)] report)
        end
  end.

(** The loop over [py_files]: a file that cannot be read is skipped, the
    first file with validation code ends the loop. *)
Fixpoint validates_schema (py_files : directory) : bool :=
  match py_files with
  | [] => false
  | (_, py_file) :: rest =>
      match read_text L (Some py_file) with
      | Returns source =>
          if contains "jsonschema" source || contains "validate(" source then true
          else validates_schema rest
      | Raises _ => validates_schema rest
      end
  end.

Definition check_schema_usage (report : AuditReport) : result AuditReport :=
  if negb (exists_ "schemas" extract_dir) then
    Returns (append_missing
      [("component", VStr "Schema directory"); ("reason", VStr "schemas/ directory not found")] report)
  else
    let schema_files := glob "*.json" (lookup "schemas" extract_dir) in
    let py_files := glob "*.py" (Some (Dir extract_dir)) in
    match schema_files with
    | _ :: _ =>
        if negb (validates_schema py_files) then
          Returns (append_unwired
            [("component", VStr "JSON schemas");
             ("count", VInt (length schema_files));
             ("files", VList (map fst schema_files));
             ("reason", VStr "Schema files exist but no validation code found");
             ("evidence", VStr (pretty (length schema_files) +:+ " schemas, 0 jsonschema imports"))]
            report)
        else Returns report
    | [] => Returns report
    end.

(** The raw pattern literal of line 274; [dquote] is the double-quote
    character. *)
Definition ledger_path_pattern : string :=
  "LEDGER_PATH\s*=\s*.+?[" +:+ dquote +:+ "\'](.+?)[" +:+ dquote +:+ "\']".

Definition check_ledger_integration (report : AuditReport) : result AuditReport :=
  if negb (exists_ "BOOT_METABLOOMS.py" extract_dir) then Returns report
  else
    source ← read_text L (lookup "BOOT_METABLOOMS.py" extract_dir);
    let has_ledger_write :=
      contains "ledger" (lower source) && (contains "open(" source || contains ".write(" source) in
    let has_append_mode := contains (dquote +:+ "a" +:+ dquote) source || contains "'a'" source in
    if has_ledger_write && has_append_mode then
      let ledger_path :=
        match re_search_group1 L ledger_path_pattern source with
        | Some group1 => group1
        | None => "governance/epistemic_ledger.ndjson"
        end in
      Returns (append_verified
        [("component", VStr "Ledger integration");
         ("detail", VStr "Boot writes to ledger in append mode");
         ("path", VStr ledger_path);
         ("evidence", VStr "Source contains ledger open in append mode")] report)
    else
      Returns (append_missing
        [("component", VStr "Ledger integration");
         ("reason", VStr "No evidence of ledger writes in boot")] report).

(** [with open(path) as f: json.load(f)] *)
Definition json_load (x : option fsnode) : result json :=
  text ← read_text L x; json_loads L text.

(** [data.keys()] *)
Definition keys (data : json) : result (list string) :=
  match data with
  | JObj members => Returns (map fst members)
  | _ => Raises (AttributeError "object has no attribute 'keys'")
  end.

Fixpoint assoc (k : string) (members : list (string * json)) : option json :=
  match members with
  | [] => None
  | (k', v) :: r => if bool_decide (k' = k) then Some v else assoc k r
  end.

(** [data.get(key, default)] *)
Definition get (data : json) (key : string) (dflt : json) : result json :=
  match data with
  | JObj members => Returns (default dflt (assoc key members))
  | _ => Raises (AttributeError "object has no attribute 'get'")
  end.

(** [len(x)] *)
Definition len (x : json) : result nat :=
  match x with
  | JStr s => Returns (str_len s)
  | JArr items => Returns (length items)
  | JObj members => Returns (length members)
  | _ => Raises (TypeError "object has no len()")
  end.

Definition st_size (x : option fsnode) : nat :=
  match x with
  | Some (File data) => String.length data
  | _ => 0
  end.

Definition check_index_usage (report : AuditReport) : result AuditReport :=
  let index_file := lookup "RUNTIME_INDEX.json" extract_dir in
  if negb (exists_ "RUNTIME_INDEX.json" extract_dir) then
    Returns (append_missing
      [("component", VStr "RUNTIME_INDEX.json"); ("reason", VStr "File not found in bundle")] report)
  else
    match (index_data ← json_load index_file;
           top_level_keys ← keys index_data;
           Returns (append_unwired
             [("component", VStr "RUNTIME_INDEX.json");
              ("size_bytes", VInt (st_size index_file));
              ("top_level_keys", VList top_level_keys);
              ("reason", VStr "Index exists but is not referenced by BOOT_METABLOOMS.py");
              ("evidence", VStr "File exists, not loaded by boot")] report)) with
    | Raises (JSONDecodeError e) =>
        Returns (append_missing
          [("component", VStr "RUNTIME_INDEX.json"); ("reason", VStr ("Invalid JSON: " +:+ e))] report)
    | outcome => outcome
    end.

(** The loop over [py_files]: the names of the readable files that
    mention the keyword. *)
Fixpoint csrg_files (py_files : directory) : list string :=
  match py_files with
  | [] => []
  | (name, py_file) :: rest =>
      match read_text L (Some py_file) with
      | Returns source =>
          if contains "csrg" (lower source) then name :: csrg_files rest else csrg_files rest
      | Raises _ => csrg_files rest
      end
  end.

Definition check_csrg_presence (report : AuditReport) : result AuditReport :=
  let py_files := rglob "*.py" (Dir extract_dir) in
  match csrg_files py_files with
  | [] =>
      Returns (append_missing
        [("component", VStr "CSRG gate");
         ("reason", VStr "No files contain 'csrg' or 'CSRG'");
         ("evidence", VStr ("Searched " +:+ pretty (length py_files) +:+ " Python files, 0 matches"))]
        report)
  | (_ :: _) as files =>
      Returns (append_unverifiable
        [("component", VStr "CSRG gate");
         ("reason", VStr "Files mention CSRG but wiring unclear without execution");
         ("files", VList files)] report)
  end.

Definition check_manifest_loading (report : AuditReport) : result AuditReport :=
  let manifest_file := lookup "boot_manifest.json" extract_dir in
  if negb (exists_ "boot_manifest.json" extract_dir) then
    Returns (append_missing
      [("component", VStr "boot_manifest.json"); ("reason", VStr "File not found in bundle root")]
      report)
  else
    match (manifest_data ← json_load manifest_file;
           preflight ← get manifest_data "preflight" (JArr []);
           if exists_ "BOOT_METABLOOMS.py" extract_dir then
             analyzer ← new_BootAnalyzer L (lookup "BOOT_METABLOOMS.py" extract_dir);
             let loads_manifest := loads_file analyzer "boot_manifest.json" in
             if negb loads_manifest then
               preflight_count ← len preflight;
               Returns (append_unwired
                 [("component", VStr "boot_manifest.json");
                  ("preflight_count", VInt preflight_count);
                  ("preflight_gates", VJson preflight);
                  ("reason", VStr "Manifest exists with preflight gates, but BOOT_METABLOOMS.py never loads it");
                  ("evidence", VStr "Source analysis: 0 references to 'boot_manifest'")] report)
             else
               Returns (append_verified
                 [("component", VStr "boot_manifest.json loading");
                  ("detail", VStr "Boot references manifest file")] report)
           else Returns report) with
    | Raises (JSONDecodeError e) =>
        Returns (append_missing
          [("component", VStr "boot_manifest.json"); ("reason", VStr ("Invalid JSON: " +:+ e))] report)
    | outcome => outcome
    end.

(** The eight calls of [run], in order. *)
Definition run_checks (report : AuditReport) : result AuditReport :=
  report ← check_boot_structure report;
  report ← check_delta_enforcement report;
  report ← check_gate_wiring report;
  report ← check_schema_usage report;
  report ← check_ledger_integration report;
  report ← check_index_usage report;
  report ← check_csrg_presence report;
  check_manifest_loading report.

End Checks.

(** The auditor object: [__init__] stores the path and a fresh report. *)
Record MetaBloomsAuditor := {
  zip_path : bundle;
  report : AuditReport
}.

Definition new_MetaBloomsAuditor (zip_path : bundle) : MetaBloomsAuditor :=
  {| zip_path := zip_path; report := empty_report |}.

(** [run]: extract the bundle into the temporary directory, run the
    checks, return the report. *)
Definition run (L : Lib) (self : MetaBloomsAuditor) : result AuditReport :=
  extract_dir ← extractall (zip_path self);
  run_checks L extract_dir (report self).

(** [audit_bundle]: the report as a dict of five lists. *)
Definition audit_bundle (L : Lib) (zip_path : bundle) : result (list (string * list Finding)) :=
  report ← run L (new_MetaBloomsAuditor zip_path);
  Returns [("verified_implementations", verified_implementations report);
           ("present_but_unwired", present_but_unwired report);
           ("missing", missing report);
           ("spec_conflicts", spec_conflicts report);
           ("unverifiable_with_given_tools", unverifiable report)].

End Audit.

(** [analyze_boot_file] of [boot_capability_probe.py]: read the file,
    build the extractor, extract everything. *)
Definition analyze_boot_file (L : Lib) (boot_path : option Audit.fsnode) : result Probe.capabilities :=
  source ← Audit.read_text L boot_path;
  extractor ← Probe.BootCapabilityExtractor L source;
  Probe.extract_all L extractor.

(** ** Library instances for the examples

    Concrete behaviours of the library functions at the inputs the
    examples use: the [ascii] codec, and [ast.parse], [json.load] and
    [re.search] tabulated at finitely many texts. *)

Module Fixtures.

Fixpoint all_ascii (s : string) : bool :=
  match s with
  | EmptyString => true
  | String c r => (nat_of_ascii c <? 128)%nat && all_ascii r
  end.

(** [bytes.decode('ascii')] *)
Definition ascii_codec (data : string) : result string :=
  if all_ascii data then Returns data else Raises UnicodeDecodeError.

Fixpoint table {A} (k : string) (tbl : list (string * A)) : option A :=
  match tbl with
  | [] => None
  | (k', v) :: r => if bool_decide (k' = k) then Some v else table k r
  end.

(** [ast.unparse] on names and on integer constants. *)
Definition unparse_atoms (n : node) : result string :=
  match n with
  | Name id => Returns id
  | Constant (CInt z) => Returns (pretty z)
  | _ => Raises (OtherError "unparse: not tabulated")
  end.

Definition table_lib (py : list (string * result node)) (js : list (string * result json))
    (re : list (string * string)) : Lib :=
  {| decode := ascii_codec;
     ast_parse := fun src => default (Raises (OtherError "ast.parse: not tabulated")) (table src py);
     json_loads := fun text => default (Raises (OtherError "json.load: not tabulated")) (table text js);
     re_search_group1 := fun _ src => table src re;
     has_unparse := true;
     unparse := unparse_atoms;
     repr_node := fun _ => "<ast.AST object>";
     set_iter := remove_dups;
     unicode_isupper := fun _ => false |}.

(** The empty source parses to an empty module; [[]] and [{}] are the
    empty JSON array and object. *)
Definition basic_lib : Lib :=
  table_lib [("", Returns (Module []))]
            [("[]", Returns (JArr [])); ("{}", Returns (JObj []))]
            [].

End Fixtures.

(** * Properties *)

(** ** Strings *)

Example lower_ex : lower "The LEDGER is CsRg_7" = "the ledger is csrg_7".
Proof. reflexivity. Qed.

Example isupper_ex :
  isupper "LEDGER_PATH" = true /\ isupper "tmpDIR" = false /\ isupper "_1" = false.
Proof. repeat split. Qed.

Example contains_ex :
  contains "open(" "f = open(p, 'a')" = true /\ contains ".write(" "write(x)" = false.
Proof. split; reflexivity. Qed.

Example split_ex : split "/" "../a//b/" = [".."; "a"; ""; "b"; ""].
Proof. reflexivity. Qed.

Example fnmatch_ex :
  fnmatch "*gate*.py" "my_gate_x.py" = true /\ fnmatch "*gate*.py" "gate.pyc" = false /\
  fnmatch "*.py" ".py" = true /\ fnmatch "*gate*.py" "gate.py" = true.
Proof. repeat split. Qed.

Lemma append_cons c (a b : string) : String c a +:+ b = String c (a +:+ b).
Proof. reflexivity. Qed.

Lemma startswith_spec p s : startswith p s = true <-> exists post, s = p +:+ post.
Proof.
  revert s. induction p as [|a p IH]; intros s; simpl.
  - split; [intros _; by exists s | done].
  - destruct s as [|b s].
    + split; [done | intros [post H]; discriminate].
    + destruct (ascii_dec a b) as [->|Hne].
      * rewrite IH. split; intros [post H]; exists post;
          rewrite append_cons in *; congruence.
      * split; [done | intros [post H]; rewrite append_cons in H; congruence].
Qed.

(** [needle in hay] holds exactly when [hay] is some text, the needle,
    some text. *)
Lemma contains_spec needle hay :
  contains needle hay = true <-> exists pre post, hay = pre +:+ needle +:+ post.
Proof.
  induction hay as [|c hay IH]; simpl.
  - rewrite orb_false_r, startswith_spec. split.
    + intros [post H]. by exists "", post.
    + intros [pre [post H]]. destruct pre; [by exists post | discriminate].
  - rewrite orb_true_iff, startswith_spec, IH. split.
    + intros [[post H]|[pre [post H]]].
      * by exists "", post.
      * exists (String c pre), post. rewrite append_cons. by f_equal.
    + intros [pre [post H]]. destruct pre as [|c' pre].
      * left. by exists post.
      * right. exists pre, post. rewrite append_cons in H. congruence.
Qed.

Lemma string_app_assoc (a b c : string) : (a +:+ b) +:+ c = a +:+ (b +:+ c).
Proof. induction a as [|x a IH]; [done|]. rewrite !append_cons. by f_equal. Qed.

(** A text containing [a +:+ b] contains [b]. *)
Lemma contains_suffix a b s : contains (a +:+ b) s = true -> contains b s = true.
Proof.
  rewrite !contains_spec. intros [pre [post H]].
  exists (pre +:+ a), post. by rewrite H, !string_app_assoc.
Qed.

(** ** Syntax trees *)

Section WalkFacts.

Lemma sizes_app l1 l2 : sizes (l1 ++ l2) = sizes l1 + sizes l2.
Proof. induction l1 as [|x l1 IH]; simpl; [done | rewrite IH; lia]. Qed.

Lemma size_children n : size n = S (sizes (iter_child_nodes n)).
Proof.
  destruct n; simpl; fold sizes; rewrite ?sizes_app; simpl; lia.
Qed.

Lemma size_pos n : 0 < size n.
Proof. rewrite size_children. lia. Qed.

Lemma subnode_inv n t :
  subnode n t <-> n = t \/ exists c, c ∈ iter_child_nodes t /\ subnode n c.
Proof.
  split.
  - destruct 1 as [|n c t Hc Hs]; [by left | right; eauto].
  - intros [->|[c [Hc Hs]]]; [constructor | by econstructor].
Qed.

Lemma subnode_trans a b c : subnode a b -> subnode b c -> subnode a c.
Proof.
  intros Hab Hbc. induction Hbc as [|b c t Hc Hs IH]; [done|].
  econstructor; [exact Hc | by apply IH].
Qed.

(** With fuel for every node below the queue, the loop yields exactly the
    nodes that occur below some queued node. *)
Lemma walk_queue_spec fuel : forall todo,
  sizes todo <= fuel ->
  forall n, n ∈ walk_queue fuel todo <-> exists q, q ∈ todo /\ subnode n q.
Proof.
  induction fuel as [|fuel IH]; intros todo Hfuel n.
  - destruct todo as [|q rest].
    + simpl. split; [by intros ?%elem_of_nil | by intros [q [?%elem_of_nil _]]].
    + simpl in Hfuel. pose proof (size_pos q). lia.
  - destruct todo as [|q rest]; simpl.
    + split; [by intros ?%elem_of_nil | by intros [q [?%elem_of_nil _]]].
    + simpl in Hfuel. rewrite size_children in Hfuel.
      rewrite elem_of_cons, IH by (rewrite sizes_app; lia).
      split.
      * intros [->|[q' [Hq' Hs]]].
        -- exists q. split; [left | constructor].
        -- apply elem_of_app in Hq' as [Hq'|Hq'].
           ++ exists q'. split; [by right | done].
           ++ exists q. split; [left | by econstructor].
      * intros [q' [Hq' Hs]]. apply elem_of_cons in Hq' as [->|Hq'].
        -- apply subnode_inv in Hs as [->|[c [Hc Hs]]]; [by left|].
           right. exists c. split; [apply elem_of_app; by right | done].
        -- right. exists q'. split; [apply elem_of_app; by left | done].
Qed.

(** [ast.walk] terminates with every node of the tree, and nothing else. *)
Lemma walk_subnode t n : n ∈ walk t <-> subnode n t.
Proof.
  unfold walk. rewrite walk_queue_spec by (simpl; lia). split.
  - by intros [q [->%list_elem_of_singleton Hs]].
  - intros Hs. exists t. split; [by apply list_elem_of_singleton | done].
Qed.

End WalkFacts.

(** ** The capability extractor *)

Section ProbeFacts.
Import Probe.

(** An assignment node that line 93 accepts for the name [id]. *)
Definition records (L : Lib) (n : node) (id : string) : Prop :=
  exists targets value line,
    n = Assign targets value line /\ Name id ∈ targets /\ path_like L id = true.

Lemma path_constants_targets L value (targets : list node) (m : gmap string string) id :
  is_Some (foldl (fun acc target =>
             match target with
             | Name id => if path_like L id then <[id := unparse_value L value]> acc else acc
             | _ => acc
             end) m targets !! id)
  <-> is_Some (m !! id) \/ (Name id ∈ targets /\ path_like L id = true).
Proof.
  revert m. induction targets as [|t targets IH]; intros m; simpl.
  - split; [by left | intros [?|[?%elem_of_nil _]]; done].
  - rewrite IH, elem_of_cons. destruct t as [| | | | | |id'| | | |];
      try (split; [intros [?|[? ?]]; [by left | right; split; [by right | done]]
                  | intros [?|[[?|?] ?]]; [by left | done | by right]]).
    destruct (path_like L id') eqn:Hp.
    + destruct (decide (id' = id)) as [->|Hne].
      * rewrite lookup_insert_eq. split.
        -- intros _. right. split; [by left | done].
        -- intros _. left. by eexists.
      * rewrite lookup_insert_ne by done. split.
        -- intros [?|[? ?]]; [by left | right; split; [by right | done]].
        -- intros [?|[[?|?] ?]]; [by left | congruence | by right].
    + split.
      * intros [?|[? ?]]; [by left | right; split; [by right | done]].
      * intros [?|[[?|?] ?]]; [by left | | by right].
        assert (id' = id) by congruence. congruence.
Qed.

Lemma path_constants_at_spec L (m : gmap string string) n id :
  is_Some (path_constants_at L m n !! id) <-> is_Some (m !! id) \/ records L n id.
Proof.
  destruct n as [| |targets value line| | | | | | | |];
    try (simpl; split; [by left | intros [?|(? & ? & ? & ? & _)]; [done | discriminate]]).
  unfold path_constants_at. rewrite path_constants_targets. split.
  - intros [?|[? ?]]; [by left | right; by exists targets, value, line].
  - intros [?|(ts & v & l & Heq & ? & ?)]; [by left | right]. by simplify_eq.
Qed.

Lemma path_constants_fold L nodes : forall (m : gmap string string) id,
  is_Some (foldl (path_constants_at L) m nodes !! id)
  <-> is_Some (m !! id) \/ exists n, n ∈ nodes /\ records L n id.
Proof.
  induction nodes as [|n nodes IH]; intros m id; simpl.
  - split; [by left | intros [?|[n [?%elem_of_nil _]]]; done].
  - rewrite IH, path_constants_at_spec. split.
    + intros [[?|?]|[n' [? ?]]]; [by left | right; exists n | right; exists n'];
        (split; [by constructor | done]).
    + intros [?|[n' [Hin ?]]]; [by left; left|].
      apply elem_of_cons in Hin as [->|?]; [by left; right | right; eauto].
Qed.

(** What [extract_path_constants] records: the names with an assignment,
    anywhere in the tree, that line 93 accepts. *)
Lemma extract_path_constants_spec L t id :
  is_Some (extract_path_constants L t !! id)
  <-> exists n, subnode n t /\ records L n id.
Proof.
  unfold extract_path_constants. rewrite path_constants_fold, lookup_empty. split.
  - intros [[? ?]|[n [Hn ?]]]; [done|]. exists n. by rewrite <- walk_subnode.
  - intros [n [Hn ?]]. right. exists n. by rewrite walk_subnode.
Qed.

(** The module of the one-line source [tmpDIR = 1]. *)
Definition tmpdir_module : node :=
  Module [Assign [Name "tmpDIR"] (Constant (CInt 1)) 1].

(** C7 (code bug): the assignment [tmpDIR = 1], whose target is not
    upper-case, is recorded in [path_constants]: on line 93 [and] binds
    tighter than [or], so a name containing [DIR] is accepted whatever its
    case. *)
Theorem path_constants_records_mixed_case :
  forall L,
    isupper "tmpDIR" = false /\
    extract_path_constants L tmpdir_module !! "tmpDIR"
      = Some (unparse_value L (Constant (CInt 1))).
Proof. intros L. split; reflexivity. Qed.

(** Sorting makes the iteration order of a set irrelevant. *)
Lemma sorted_set_iter f1 f2 l :
  set_iter_ok f1 -> set_iter_ok f2 -> sorted (f1 l) = sorted (f2 l).
Proof.
  intros H1 H2. destruct (H1 l) as [Hnd1 Hin1], (H2 l) as [Hnd2 Hin2].
  unfold sorted. apply (StronglySorted_unique String.le).
  - apply StronglySorted_merge_sort; apply _.
  - apply StronglySorted_merge_sort; apply _.
  - rewrite !merge_sort_Permutation. apply NoDup_Permutation; [done..|].
    intros x. by rewrite Hin1, Hin2.
Qed.

(** C9: two runs of [extract_all] on the same extractor give the same
    result (the same surface, the same error surface for an absent tree,
    or the same exception), whatever order each run iterates its sets
    in: no method assigns to the extractor, and every set is sorted
    before it is returned. *)
Theorem extract_all_deterministic :
  forall L order1 order2 self,
    set_iter_ok order1 -> set_iter_ok order2 ->
    extract_all (with_set_iter L order1) self = extract_all (with_set_iter L order2) self.
Proof.
  intros L order1 order2 [src [t|] err] H1 H2; [|reflexivity].
  unfold extract_all; simpl.
  change (extract_file_reads (with_set_iter L order1) t)
    with (extract_file_reads (with_set_iter L order2) t).
  destruct (extract_file_reads (with_set_iter L order2) t) as [reads|e]; [|reflexivity].
  simpl. do 2 f_equal.
  unfold extract_imports, extract_string_literals; simpl.
  rewrite (sorted_set_iter order1 order2 _ H1 H2).
  rewrite (sorted_set_iter order1 order2 (flat_map string_literals_at (walk t)) H1 H2).
  reflexivity.
Qed.

End ProbeFacts.

Lemma remove_dups_ok : set_iter_ok remove_dups.
Proof. intros l. split; [apply NoDup_remove_dups | intros x; apply elem_of_remove_dups]. Qed.

Lemma reverse_remove_dups_ok : set_iter_ok (fun l => reverse (remove_dups l)).
Proof.
  intros l. split.
  - rewrite reverse_Permutation. apply NoDup_remove_dups.
  - intros x. rewrite elem_of_reverse. apply elem_of_remove_dups.
Qed.

(** An extractor for a module with a repeated import and two string
    constants. *)
Definition demo_extractor : Probe.extractor :=
  {| Probe.source := "import os, json; from os import path; x = ['b', 'a']";
     Probe.tree := Some (Module [Import ["os"; "json"]; ImportFrom (Some "os") ["path"];
                                 Assign [Name "x"] (Other [Constant (CStr "b"); Constant (CStr "a")]) 1]);
     Probe.error := None |}.

Lemma extract_all_deterministic_witness :
  set_iter_ok remove_dups /\ set_iter_ok (fun l => reverse (remove_dups l)) /\
  Probe.extract_all (with_set_iter Fixtures.basic_lib remove_dups) demo_extractor
  = Probe.extract_all (with_set_iter Fixtures.basic_lib (fun l => reverse (remove_dups l)))
      demo_extractor.
Proof.
  split; [exact remove_dups_ok|]. split; [exact reverse_remove_dups_ok|].
  apply extract_all_deterministic; [exact remove_dups_ok | exact reverse_remove_dups_ok].
Defined.

Example demo_imports :
  Probe.extract_imports (with_set_iter Fixtures.basic_lib (fun l => reverse (remove_dups l)))
    (Module [Import ["os"; "json"]; ImportFrom (Some "os") ["path"]]) = ["json"; "os"].
Proof. vm_compute. reflexivity. Qed.

(** ** The auditor: what a check may append *)

Section Footprints.
Import Audit.

Inductive bucket := Verified | Unwired | Missing | Unverifiable.

#[global] Instance bucket_eq_dec : EqDecision bucket.
Proof. solve_decision. Defined.

Definition append_to (b : bucket) : Finding -> AuditReport -> AuditReport :=
  match b with
  | Verified => append_verified
  | Unwired => append_unwired
  | Missing => append_missing
  | Unverifiable => append_unverifiable
  end.

(** [f["component"]] and the other fields of a finding. *)
Fixpoint field (k : string) (f : Finding) : option value :=
  match f with
  | [] => None
  | (k', v) :: r => if bool_decide (k' = k) then Some v else field k r
  end.

Definition all_findings (r : AuditReport) : list Finding :=
  verified_implementations r ++ present_but_unwired r ++ missing r ++
  spec_conflicts r ++ unverifiable r.

(** The finding's component is [c] and it goes to bucket [b], for some
    [(b, c)] of the list. *)
Definition within (allowed : list (bucket * string)) (b : bucket) (f : Finding) : Prop :=
  exists c, field "component" f = Some (VStr c) /\ (b, c) ∈ allowed.

(** [r'] is [r] followed by appends, each of them allowed by [P]; the
    [spec_conflicts] bucket has no append. *)
Inductive appended (P : bucket -> Finding -> Prop) (r : AuditReport) : AuditReport -> Prop :=
| appended_none : appended P r r
| appended_one r' b f : appended P r r' -> P b f -> appended P r (append_to b f r').

Lemma appended_trans P r1 r2 r3 : appended P r1 r2 -> appended P r2 r3 -> appended P r1 r3.
Proof. intros H12 H23. induction H23; [done | by constructor]. Qed.

Lemma appended_mono (P Q : bucket -> Finding -> Prop) r r' :
  (forall b f, P b f -> Q b f) -> appended P r r' -> appended Q r r'.
Proof. intros HPQ H. induction H; constructor; auto. Qed.

Lemma within_mono l1 l2 b f : l1 ⊆ l2 -> within l1 b f -> within l2 b f.
Proof. intros Hsub (c & ? & ?). exists c. split; [done | by apply Hsub]. Qed.

Lemma appended_spec_conflicts P r r' :
  appended P r r' -> spec_conflicts r' = spec_conflicts r.
Proof. induction 1 as [|r' b f _ IH _]; [done | by destruct b]. Qed.

Lemma all_findings_append b f r x :
  x ∈ all_findings (append_to b f r) <-> x ∈ all_findings r \/ x = f.
Proof.
  unfold all_findings. destruct b; simpl;
    rewrite !elem_of_app, ?list_elem_of_singleton; tauto.
Qed.

Lemma appended_Forall (P : bucket -> Finding -> Prop) (Q : Finding -> Prop) r r' :
  (forall b f, P b f -> Q f) ->
  appended P r r' -> Forall Q (all_findings r) -> Forall Q (all_findings r').
Proof.
  intros HPQ H Hr. induction H as [|r' b f _ IH HP]; [done|].
  apply Forall_forall. intros x [Hx| ->]%all_findings_append.
  - by apply (proj1 (Forall_forall _ _) IH).
  - by eapply HPQ.
Qed.

Lemma appended_verified P r r' :
  appended P r r' -> verified_implementations r `prefix_of` verified_implementations r'.
Proof.
  induction 1 as [|r' b f _ IH _]; [done|].
  destruct b; simpl; [by apply prefix_app_r | done..].
Qed.

End Footprints.

(** ** The auditor: the footprint of each check *)

Section CheckFootprints.
Import Audit.

Lemma appended_to P r r' b f : appended P r r' -> P b f -> appended P r (append_to b f r').
Proof. apply appended_one. Qed.

Lemma within_here allowed b c f :
  field "component" f = Some (VStr c) -> bool_decide ((b, c) ∈ allowed) = true ->
  within allowed b f.
Proof. intros Hf Hin. exists c. split; [done | by apply bool_decide_eq_true in Hin]. Qed.

(** Split a check into its branches; each branch ends in appends. *)
Ltac branches :=
  unfold mbind, result_bind, Py.bind in *;
  repeat first [ progress simplify_eq/= | case_match ].

Ltac footprint :=
  repeat first
    [ apply appended_none
    | apply (appended_to _ _ _ Verified)
    | apply (appended_to _ _ _ Unwired)
    | apply (appended_to _ _ _ Missing)
    | apply (appended_to _ _ _ Unverifiable)
    | eapply within_here; [reflexivity | vm_compute; reflexivity] ].

Definition boot_structure_footprint : list (bucket * string) :=
  [(Missing, "BOOT_METABLOOMS.py"); (Missing, "RUN_METABLOOMS.py"); (Verified, "BOOT_METABLOOMS.py")].

Lemma check_boot_structure_appends L d r r' :
  check_boot_structure L d r = Returns r' -> appended (within boot_structure_footprint) r r'.
Proof. unfold check_boot_structure. intros H. branches; footprint. Qed.

Definition delta_footprint : list (bucket * string) :=
  [(Missing, "Delta manifest loading"); (Missing, "Delta SHA256 verification")].

Lemma check_delta_enforcement_appends L d r r' :
  check_delta_enforcement L d r = Returns r' -> appended (within delta_footprint) r r'.
Proof. unfold check_delta_enforcement. intros H. branches; footprint. Qed.

Definition gate_footprint : list (bucket * string) :=
  [(Missing, "Gate infrastructure"); (Unwired, "Gate files"); (Verified, "Gate imports")].

Lemma check_gate_wiring_appends L d r r' :
  check_gate_wiring L d r = Returns r' -> appended (within gate_footprint) r r'.
Proof. unfold check_gate_wiring. intros H. branches; footprint. Qed.

Definition schema_footprint : list (bucket * string) :=
  [(Missing, "Schema directory"); (Unwired, "JSON schemas")].

Lemma check_schema_usage_appends L d r r' :
  check_schema_usage L d r = Returns r' -> appended (within schema_footprint) r r'.
Proof. unfold check_schema_usage. intros H. branches; footprint. Qed.

Definition ledger_footprint : list (bucket * string) :=
  [(Verified, "Ledger integration"); (Missing, "Ledger integration")].

Lemma check_ledger_integration_appends L d r r' :
  check_ledger_integration L d r = Returns r' -> appended (within ledger_footprint) r r'.
Proof. unfold check_ledger_integration. intros H. branches; footprint. Qed.

Definition index_footprint : list (bucket * string) :=
  [(Missing, "RUNTIME_INDEX.json"); (Unwired, "RUNTIME_INDEX.json")].

Lemma check_index_usage_appends L d r r' :
  check_index_usage L d r = Returns r' -> appended (within index_footprint) r r'.
Proof. unfold check_index_usage, json_load, keys. intros H. branches; footprint. Qed.

Definition csrg_footprint : list (bucket * string) :=
  [(Missing, "CSRG gate"); (Unverifiable, "CSRG gate")].

Lemma check_csrg_presence_appends L d r r' :
  check_csrg_presence L d r = Returns r' -> appended (within csrg_footprint) r r'.
Proof. unfold check_csrg_presence. intros H. branches; footprint. Qed.

Definition manifest_footprint : list (bucket * string) :=
  [(Missing, "boot_manifest.json"); (Unwired, "boot_manifest.json");
   (Verified, "boot_manifest.json loading")].

Lemma check_manifest_loading_appends L d r r' :
  check_manifest_loading L d r = Returns r' -> appended (within manifest_footprint) r r'.
Proof.
  unfold check_manifest_loading, json_load, get, len. intros H. branches; footprint.
Qed.

End CheckFootprints.

(** ** The auditor: the report *)

Section ReportFacts.
Import Audit.

Lemma bind_returns {A B} (m : result A) (k : A -> result B) b :
  (m ≫= k) = Returns b <-> exists a, m = Returns a /\ k a = Returns b.
Proof.
  unfold mbind, result_bind, Py.bind. destruct m as [a|e]; split.
  - intros H. by exists a.
  - by intros (a' & [= ->] & H).
  - done.
  - by intros (a' & [=] & _).
Qed.

Lemma bind_raises {A B} (m : result A) (k : A -> result B) e :
  (m ≫= k) = Raises e <-> m = Raises e \/ exists a, m = Returns a /\ k a = Raises e.
Proof.
  unfold mbind, result_bind, Py.bind. destruct m as [a|e']; split.
  - intros H. right. by exists a.
  - intros [[=]|(a' & [= ->] & H)]. done.
  - intros [= ->]. by left.
  - intros [[= ->]|(a' & [=] & _)]. done.
Qed.

Definition run_footprint : list (bucket * string) :=
  boot_structure_footprint ++ delta_footprint ++ gate_footprint ++ schema_footprint ++
  ledger_footprint ++ index_footprint ++ csrg_footprint ++ manifest_footprint.

(** The checks after [check_boot_structure]. *)
Definition later_footprint : list (bucket * string) :=
  delta_footprint ++ gate_footprint ++ schema_footprint ++
  ledger_footprint ++ index_footprint ++ csrg_footprint ++ manifest_footprint.

Lemma later_checks_append L d r1 r' :
  (report ← check_delta_enforcement L d r1;
   report ← check_gate_wiring L d report;
   report ← check_schema_usage L d report;
   report ← check_ledger_integration L d report;
   report ← check_index_usage L d report;
   report ← check_csrg_presence L d report;
   check_manifest_loading L d report) = Returns r' ->
  appended (within later_footprint) r1 r'.
Proof.
  intros H.
  apply bind_returns in H as (r2 & H2%check_delta_enforcement_appends & H).
  apply bind_returns in H as (r3 & H3%check_gate_wiring_appends & H).
  apply bind_returns in H as (r4 & H4%check_schema_usage_appends & H).
  apply bind_returns in H as (r5 & H5%check_ledger_integration_appends & H).
  apply bind_returns in H as (r6 & H6%check_index_usage_appends & H).
  apply bind_returns in H as (r7 & H7%check_csrg_presence_appends & H).
  apply check_manifest_loading_appends in H.
  assert (Hm : forall l r r', l ⊆ later_footprint ->
            appended (within l) r r' -> appended (within later_footprint) r r').
  { intros l ? ? Hl. apply appended_mono. intros b f. by apply within_mono. }
  repeat (eapply appended_trans;
            [eapply Hm; [|eassumption]; intros x Hx;
             unfold later_footprint; rewrite ?elem_of_app; tauto|]).
  apply appended_none.
Qed.

Lemma run_checks_append L d r r' :
  run_checks L d r = Returns r' -> appended (within run_footprint) r r'.
Proof.
  unfold run_checks. intros H.
  apply bind_returns in H as (r1 & H1%check_boot_structure_appends & H%later_checks_append).
  eapply appended_trans; (eapply appended_mono; [|eassumption]);
    intros b f; apply within_mono; intros x Hx;
    unfold run_footprint; fold later_footprint; rewrite elem_of_app; tauto.
Qed.

(** C5: the dict [audit_bundle] returns has exactly the five keys, in
    this order, each mapped to a list of findings, and the list under
    [spec_conflicts] is empty. *)
Theorem audit_bundle_five_buckets :
  forall L zip_path d,
    audit_bundle L zip_path = Returns d ->
    exists verified unwired missing unverifiable : list Finding,
      d = [("verified_implementations", verified);
           ("present_but_unwired", unwired);
           ("missing", missing);
           ("spec_conflicts", []);
           ("unverifiable_with_given_tools", unverifiable)].
Proof.
  intros L zip_path d H. unfold audit_bundle in H.
  apply bind_returns in H as (report & Hrun & [= <-]).
  unfold run in Hrun. apply bind_returns in Hrun as (dir & _ & Hchecks).
  apply run_checks_append, appended_spec_conflicts in Hchecks.
  simpl in Hchecks. rewrite Hchecks. by eexists _, _, _, _.
Qed.

(** A bundle with nothing but an empty boot file and an empty run file. *)
Definition plain_bundle : bundle :=
  Returns [{| filename := "BOOT_METABLOOMS.py"; payload := Returns "" |};
           {| filename := "RUN_METABLOOMS.py"; payload := Returns "" |}].

Definition plain_report : list (string * list Finding) :=
  [("verified_implementations",
     [[("component", VStr "BOOT_METABLOOMS.py");
       ("detail", VStr "File exists and is valid Python");
       ("path", VStr "BOOT_METABLOOMS.py")]]);
   ("present_but_unwired", []);
   ("missing",
     [[("component", VStr "Delta manifest loading");
       ("reason", VStr "No reference to 'latest.json' or 'manifests' in BOOT_METABLOOMS.py");
       ("evidence", VStr "Static source analysis: 0 occurrences")];
      [("component", VStr "Delta SHA256 verification");
       ("reason", VStr "No evidence of delta hash verification in boot");
       ("evidence", VStr "Source contains doctrine hash verification only")];
      [("component", VStr "Gate infrastructure"); ("reason", VStr "No gate files found")];
      [("component", VStr "Schema directory"); ("reason", VStr "schemas/ directory not found")];
      [("component", VStr "Ledger integration");
       ("reason", VStr "No evidence of ledger writes in boot")];
      [("component", VStr "RUNTIME_INDEX.json"); ("reason", VStr "File not found in bundle")];
      [("component", VStr "CSRG gate");
       ("reason", VStr "No files contain 'csrg' or 'CSRG'");
       ("evidence", VStr "Searched 2 Python files, 0 matches")];
      [("component", VStr "boot_manifest.json"); ("reason", VStr "File not found in bundle root")]]);
   ("spec_conflicts", []);
   ("unverifiable_with_given_tools", [])].

Lemma plain_bundle_audit : audit_bundle Fixtures.basic_lib plain_bundle = Returns plain_report.
Proof. vm_compute. reflexivity. Qed.

Lemma audit_bundle_five_buckets_witness :
  audit_bundle Fixtures.basic_lib plain_bundle = Returns plain_report /\
  exists verified unwired missing unverifiable : list Finding,
    plain_report = [("verified_implementations", verified);
                    ("present_but_unwired", unwired);
                    ("missing", missing);
                    ("spec_conflicts", []);
                    ("unverifiable_with_given_tools", unverifiable)].
Proof.
  split; [exact plain_bundle_audit|].
  exact (audit_bundle_five_buckets Fixtures.basic_lib plain_bundle plain_report plain_bundle_audit).
Defined.

End ReportFacts.

(** ** The auditor: the checks one by one *)

Section CheckFacts.
Import Audit.

Lemma exists_lookup name d : exists_ name d = true <-> is_Some (lookup name d).
Proof. unfold exists_. destruct (lookup name d); split; by try (intros [? ?]). Qed.

Lemma read_text_exists L name d src :
  read_text L (lookup name d) = Returns src -> exists_ name d = true.
Proof. unfold exists_. by destruct (lookup name d). Qed.

Lemma lookup_put_ne name k x d : name <> k -> lookup k (put name x d) = lookup k d.
Proof.
  intros Hne. induction d as [|[n y] d IH]; simpl.
  - by rewrite bool_decide_eq_false_2.
  - destruct (bool_decide (n = name)) eqn:Hn; simpl.
    + apply bool_decide_eq_true in Hn as ->. by rewrite !bool_decide_eq_false_2.
    + by rewrite IH.
Qed.

(** *** The CSRG keyword check *)

(** A readable file whose lower-cased text contains the keyword. *)
Definition mentions_csrg (L : Lib) (e : string * fsnode) : bool :=
  match read_text L (Some e.2) with
  | Returns source => contains "csrg" (lower source)
  | Raises _ => false
  end.

Lemma csrg_files_filter L py_files :
  csrg_files L py_files = map fst (filter (fun e => mentions_csrg L e) py_files).
Proof.
  induction py_files as [|[name x] rest IH]; [done|].
  destruct (mentions_csrg L (name, x)) eqn:Hm.
  - rewrite filter_cons_True by (by apply Is_true_true_2).
    unfold mentions_csrg in Hm. cbn [csrg_files snd map fst] in *.
    destruct (read_text L (Some x)) as [src|e]; [|done]. by rewrite Hm, IH.
  - rewrite filter_cons_False by (by apply Is_true_false_2).
    unfold mentions_csrg in Hm. cbn [csrg_files snd] in *.
    destruct (read_text L (Some x)) as [src|e]; [|done]. by rewrite Hm.
Qed.

(** *** The ledger check *)

Definition mentions_ledger (source : string) : bool := contains "ledger" (lower source).
Definition has_write_pattern (source : string) : bool :=
  contains "open(" source || contains ".write(" source.
Definition has_append_literal (source : string) : bool :=
  contains (dquote +:+ "a" +:+ dquote) source || contains "'a'" source.

Definition ledger_verified (L : Lib) (source : string) : Finding :=
  [("component", VStr "Ledger integration");
   ("detail", VStr "Boot writes to ledger in append mode");
   ("path", VStr (default "governance/epistemic_ledger.ndjson"
                    (re_search_group1 L ledger_path_pattern source)));
   ("evidence", VStr "Source contains ledger open in append mode")].

Definition ledger_missing : Finding :=
  [("component", VStr "Ledger integration");
   ("reason", VStr "No evidence of ledger writes in boot")].

Lemma check_ledger_integration_eq L d r source :
  read_text L (lookup "BOOT_METABLOOMS.py" d) = Returns source ->
  check_ledger_integration L d r =
    Returns (if mentions_ledger source && has_write_pattern source && has_append_literal source
             then append_verified (ledger_verified L source) r
             else append_missing ledger_missing r).
Proof.
  intros Hread. unfold check_ledger_integration.
  rewrite (read_text_exists _ _ _ _ Hread), Hread. simpl.
  unfold mentions_ledger, has_write_pattern, has_append_literal, ledger_verified.
  destruct (_ && _ && _); [|done].
  by destruct (re_search_group1 L ledger_path_pattern source).
Qed.

End CheckFacts.

(** ** The auditor: the boot file and the checks that need it *)

Section BootFacts.
Import Audit.

Definition boot_not_found : Finding :=
  [("component", VStr "BOOT_METABLOOMS.py"); ("reason", VStr "File not found in bundle")].

Definition run_not_found : Finding :=
  [("component", VStr "RUN_METABLOOMS.py"); ("reason", VStr "File not found in bundle")].

Definition gate_infrastructure_missing : Finding :=
  [("component", VStr "Gate infrastructure"); ("reason", VStr "No gate files found")].

(** A finding that names the boot file as its component. *)
Definition about_boot (f : Finding) : Prop :=
  field "component" f = Some (VStr "BOOT_METABLOOMS.py").

Lemma later_footprint_not_boot b f : within later_footprint b f -> ~ about_boot f.
Proof.
  intros (c & Hc & Hin) Hboot. unfold about_boot in Hboot.
  rewrite Hc in Hboot. injection Hboot as ->.
  assert (Hno : bool_decide ((b, "BOOT_METABLOOMS.py") ∈ later_footprint) = false)
    by (destruct b; vm_compute; reflexivity).
  by apply bool_decide_eq_false in Hno.
Qed.

(** C10: with the boot file present and [RUN_METABLOOMS.py] absent, the
    boot-structure check appends the missing finding for
    [RUN_METABLOOMS.py] and nothing else, whatever parsing the boot file
    would give; and no finding of the report [run] returns has the boot
    file as its component. *)
Theorem boot_not_judged_without_run :
  forall L archive d r,
    extractall archive = Returns d ->
    exists_ "BOOT_METABLOOMS.py" d = true ->
    exists_ "RUN_METABLOOMS.py" d = false ->
    check_boot_structure L d r = Returns (append_missing run_not_found r) /\
    (forall report,
       run L (new_MetaBloomsAuditor archive) = Returns report ->
       Forall (fun f => ~ about_boot f) (all_findings report)).
Proof.
  intros L archive d r Hd Hboot Hrun.
  assert (Hcheck : forall r0, check_boot_structure L d r0 = Returns (append_missing run_not_found r0)).
  { intros r0. unfold check_boot_structure. by rewrite Hboot, Hrun. }
  split; [apply Hcheck|].
  intros report H. unfold run in H. cbn [Audit.zip_path Audit.report new_MetaBloomsAuditor] in H.
  rewrite Hd in H. cbn [mbind result_bind Py.bind] in H.
  unfold run_checks in H. rewrite Hcheck in H.
  apply (later_checks_append L d (append_missing run_not_found empty_report)) in H.
  eapply appended_Forall; [apply later_footprint_not_boot | exact H |].
  unfold all_findings, about_boot. simpl. by repeat constructor.
Qed.

(** A bundle with an empty boot file only. *)
Definition boot_only_bundle : bundle :=
  Returns [{| filename := "BOOT_METABLOOMS.py"; payload := Returns "" |}].

Lemma boot_not_judged_without_run_witness :
  extractall boot_only_bundle = Returns [("BOOT_METABLOOMS.py", File "")] /\
  check_boot_structure Fixtures.basic_lib [("BOOT_METABLOOMS.py", File "")] empty_report
    = Returns (append_missing run_not_found empty_report) /\
  (forall report,
     run Fixtures.basic_lib (new_MetaBloomsAuditor boot_only_bundle) = Returns report ->
     Forall (fun f => ~ about_boot f) (all_findings report)).
Proof.
  split; [reflexivity|].
  apply (boot_not_judged_without_run Fixtures.basic_lib boot_only_bundle
           [("BOOT_METABLOOMS.py", File "")] empty_report); reflexivity.
Defined.

Example boot_only_run_returns :
  returned (run Fixtures.basic_lib (new_MetaBloomsAuditor boot_only_bundle)).
Proof. eexists. vm_compute. reflexivity. Qed.

(** C2 (as the code has it): without a boot file, the boot-structure
    check appends the one missing finding for [BOOT_METABLOOMS.py]; the
    delta and ledger checks return the report as it was; the gate check
    appends its own missing finding only when there is no gate file, and
    nothing otherwise; the manifest check appends nothing when the
    manifest loads as a JSON object. *)
Theorem missing_boot_short_circuits :
  forall L d r,
    exists_ "BOOT_METABLOOMS.py" d = false ->
    check_boot_structure L d r = Returns (append_missing boot_not_found r) /\
    check_delta_enforcement L d r = Returns r /\
    check_ledger_integration L d r = Returns r /\
    check_gate_wiring L d r =
      Returns (match glob "*gate*.py" (Some (Dir d)) with
               | [] => append_missing gate_infrastructure_missing r
               | _ :: _ => r
               end) /\
    (forall members,
       json_load L (lookup "boot_manifest.json" d) = Returns (JObj members) ->
       check_manifest_loading L d r = Returns r).
Proof.
  intros L d r Hboot. split_and!.
  - unfold check_boot_structure. by rewrite Hboot.
  - unfold check_delta_enforcement. by rewrite Hboot.
  - unfold check_ledger_integration. by rewrite Hboot.
  - unfold check_gate_wiring. rewrite Hboot. by destruct (glob _ _).
  - intros members Hload. unfold check_manifest_loading.
    assert (Hex : exists_ "boot_manifest.json" d = true).
    { unfold json_load in Hload. apply bind_returns in Hload as (text & Hread & _).
      by apply read_text_exists in Hread. }
    rewrite Hex, Hload, Hboot. reflexivity.
Qed.

(** A bundle without a boot file, with a gate file and a manifest. *)
Definition bootless : directory :=
  [("csrg_gate.py", File ""); ("boot_manifest.json", File "{}")].

Lemma missing_boot_short_circuits_witness :
  exists_ "BOOT_METABLOOMS.py" bootless = false /\
  check_boot_structure Fixtures.basic_lib bootless empty_report
    = Returns (append_missing boot_not_found empty_report) /\
  check_delta_enforcement Fixtures.basic_lib bootless empty_report = Returns empty_report /\
  check_ledger_integration Fixtures.basic_lib bootless empty_report = Returns empty_report /\
  check_gate_wiring Fixtures.basic_lib bootless empty_report
    = Returns (match glob "*gate*.py" (Some (Dir bootless)) with
               | [] => append_missing gate_infrastructure_missing empty_report
               | _ :: _ => empty_report
               end) /\
  (forall members,
     json_load Fixtures.basic_lib (lookup "boot_manifest.json" bootless) = Returns (JObj members) ->
     check_manifest_loading Fixtures.basic_lib bootless empty_report = Returns empty_report).
Proof.
  split; [reflexivity|].
  apply (missing_boot_short_circuits Fixtures.basic_lib bootless empty_report). reflexivity.
Defined.

(** C2, counterexample: in a bundle without a boot file (a gate file and
    a manifest are present), the delta, gate, ledger and manifest checks
    all return with an empty [missing] bucket. *)
Lemma dependent_checks_record_nothing :
  exists_ "BOOT_METABLOOMS.py" bootless = false /\
  check_delta_enforcement Fixtures.basic_lib bootless empty_report = Returns empty_report /\
  check_gate_wiring Fixtures.basic_lib bootless empty_report = Returns empty_report /\
  check_ledger_integration Fixtures.basic_lib bootless empty_report = Returns empty_report /\
  check_manifest_loading Fixtures.basic_lib bootless empty_report = Returns empty_report /\
  missing empty_report = [].
Proof. vm_compute. repeat split. Qed.

End BootFacts.

(** ** The auditor: the boot-structure check and the manifest *)

Section ManifestFacts.
Import Audit.

(** The text [{"entrypoint": "RUN_X.py"}]. *)
Definition entrypoint_manifest : string :=
  "{" +:+ dquote +:+ "entrypoint" +:+ dquote +:+ ": " +:+ dquote +:+ "RUN_X.py" +:+ dquote +:+ "}".

Definition manifest_lib : Lib :=
  Fixtures.table_lib [("", Returns (Module []))]
    [(entrypoint_manifest, Returns (JObj [("entrypoint", JStr "RUN_X.py")]))] [].

(** A bundle whose manifest declares the entry point [RUN_X.py], which it
    does not contain. *)
Definition declares_run_x : directory :=
  [("BOOT_METABLOOMS.py", File ""); ("RUN_METABLOOMS.py", File "");
   ("boot_manifest.json", File entrypoint_manifest)].

(** C8, counterexample: the manifest declares [RUN_X.py], the bundle has
    no such file, and the boot-structure check appends one verified
    finding and no missing finding. *)
Lemma declared_entrypoint_ignored :
  json_load manifest_lib (lookup "boot_manifest.json" declares_run_x)
    = Returns (JObj [("entrypoint", JStr "RUN_X.py")]) /\
  exists_ "RUN_X.py" declares_run_x = false /\
  check_boot_structure manifest_lib declares_run_x empty_report
    = Returns (append_verified
        [("component", VStr "BOOT_METABLOOMS.py");
         ("detail", VStr "File exists and is valid Python");
         ("path", VStr "BOOT_METABLOOMS.py")] empty_report) /\
  missing (append_verified
        [("component", VStr "BOOT_METABLOOMS.py");
         ("detail", VStr "File exists and is valid Python");
         ("path", VStr "BOOT_METABLOOMS.py")] empty_report) = [].
Proof. vm_compute. repeat split. Qed.

Definition syntax_error_finding (e : string) : Finding :=
  [("component", VStr "BOOT_METABLOOMS.py"); ("reason", VStr ("Syntax error: " +:+ e))].

Lemma missing_append_missing f r : missing (append_missing f r) = missing r ++ [f].
Proof. reflexivity. Qed.

(** C8 (as the code has it): the boot-structure check does not consult
    the manifest.  Writing any manifest into the bundle leaves its
    outcome unchanged, and a missing finding it appends is one of three:
    [BOOT_METABLOOMS.py] not found, [RUN_METABLOOMS.py] not found, or a
    syntax error in the boot file; none has an evidence field. *)
Theorem check_boot_structure_ignores_manifest :
  forall L d r manifest,
    check_boot_structure L (put "boot_manifest.json" manifest d) r = check_boot_structure L d r /\
    (forall r' f,
       check_boot_structure L d r = Returns r' -> f ∈ missing r' ->
       f ∈ missing r \/
       (field "evidence" f = None /\
        (f = boot_not_found \/ f = run_not_found \/ exists e, f = syntax_error_finding e))).
Proof.
  intros L d r manifest. split.
  - unfold check_boot_structure, exists_. by rewrite !lookup_put_ne.
  - intros r' f Hcheck Hf. unfold check_boot_structure in Hcheck.
    destruct (negb (exists_ "BOOT_METABLOOMS.py" d)).
    { injection Hcheck as <-. rewrite missing_append_missing in Hf.
      apply elem_of_app in Hf as [?| ->%list_elem_of_singleton]; [by left | right]. eauto. }
    destruct (negb (exists_ "RUN_METABLOOMS.py" d)).
    { injection Hcheck as <-. rewrite missing_append_missing in Hf.
      apply elem_of_app in Hf as [?| ->%list_elem_of_singleton]; [by left | right]. eauto. }
    destruct (_ ≫= _) as [t|[]]; simplify_eq; [by left|].
    rewrite missing_append_missing in Hf.
    apply elem_of_app in Hf as [?| ->%list_elem_of_singleton]; [by left | right].
    split; [done|]. right; right. by eexists.
Qed.

End ManifestFacts.

(** ** The auditor: extracting the archive *)

Section ExtractionFacts.
Import Audit.

Lemma arcname_parts member part :
  part ∈ arcname member -> part ∉ invalid_path_parts.
Proof. unfold arcname. by intros [? _]%list_elem_of_filter. Qed.

Lemma climbs_out_no_parent parts :
  ".." ∉ parts -> forall depth, climbs_out depth parts = false.
Proof.
  induction parts as [|p parts IH]; intros Hno depth; [done|].
  apply not_elem_of_cons in Hno as [Hp Hno]. simpl.
  rewrite (bool_decide_eq_false_2 (p = "..")) by done.
  destruct (_ || _); by apply IH.
Qed.

(** The path a member is extracted to never leaves the extraction
    directory. *)
Lemma arcname_stays_inside member : climbs_out 0 (arcname member) = false.
Proof.
  apply climbs_out_no_parent. intros Hin%arcname_parts.
  apply Hin. unfold invalid_path_parts. set_solver.
Qed.

(** The node at a path below the extraction directory. *)
Fixpoint lookup_path (path : list string) (d : directory) : option fsnode :=
  match path with
  | [] => None
  | name :: rest =>
      match rest with
      | [] => lookup name d
      | _ :: _ =>
          match lookup name d with
          | Some (Dir sub) => lookup_path rest sub
          | _ => None
          end
      end
  end.

Lemma lookup_path_below name name' rest d :
  lookup_path (name :: name' :: rest) d =
    match lookup name d with
    | Some (Dir sub) => lookup_path (name' :: rest) sub
    | _ => None
    end.
Proof. reflexivity. Qed.

Lemma lookup_put_eq name x d : lookup name (put name x d) = Some x.
Proof.
  induction d as [|[n y] d IH]; simpl.
  - by rewrite bool_decide_eq_true_2.
  - destruct (bool_decide (n = name)) eqn:Hn; simpl; by rewrite Hn.
Qed.

Lemma lookup_app_new name x d : lookup name d = None -> lookup name (d ++ [(name, x)]) = Some x.
Proof.
  induction d as [|[n y] d IH]; simpl.
  - by rewrite bool_decide_eq_true_2.
  - destruct (bool_decide (n = name)); [done | exact IH].
Qed.

Lemma lookup_app_old name n x y d :
  lookup name d = Some y -> lookup name (d ++ [(n, x)]) = Some y.
Proof.
  induction d as [|[n' y'] d IH]; simpl; [done|].
  destruct (bool_decide (n' = name)); [done | exact IH].
Qed.

(** A path is looked up through the entry of its first component. *)
Lemma lookup_path_head path d d' :
  (forall name rest, path = name :: rest -> lookup name d' = lookup name d) ->
  lookup_path path d' = lookup_path path d.
Proof.
  destruct path as [|name [|name' rest]]; intros H; [done| |].
  - simpl. by apply (H name []).
  - rewrite !lookup_path_below. by rewrite (H name (name' :: rest)).
Qed.

Lemma lookup_path_is_Some name rest d x :
  lookup_path (name :: rest) d = Some x -> is_Some (lookup name d).
Proof.
  destruct rest; [by eexists|]. rewrite lookup_path_below.
  destruct (lookup name d); [by eexists | done].
Qed.

Lemma extract_at_below name name' rest member d :
  extract_at (name :: name' :: rest) member d =
    match lookup name d with
    | Some (File _) => Raises NotADirectoryError
    | Some (Dir sub) =>
        sub' ← extract_at (name' :: rest) member sub; Returns (put name (Dir sub') d)
    | None =>
        sub' ← extract_at (name' :: rest) member []; Returns (d ++ [(name, Dir sub')])
    end.
Proof. reflexivity. Qed.

(** A file member that is extracted is found at the path it was
    extracted to, with its content. *)
Lemma extract_at_file path : forall member d d',
  is_dir member = false ->
  extract_at path member d = Returns d' ->
  exists data, payload member = Returns data /\ lookup_path path d' = Some (File data).
Proof.
  induction path as [|name rest IH]; intros member d d' Hdir H.
  - simpl in H. by rewrite Hdir in H.
  - destruct rest as [|name' rest].
    + simpl in H. rewrite Hdir in H.
      destruct (payload member) as [data|e]; cbn [mbind result_bind Py.bind] in H; [|done].
      exists data. split; [done|]. cbn [lookup_path].
      destruct (lookup name d) as [[]|]; simplify_eq; apply lookup_put_eq.
    + rewrite extract_at_below in H. rewrite lookup_path_below.
      destruct (lookup name d) as [[data|sub]|] eqn:Hl; [done| |].
      * apply bind_returns in H as (sub' & Hsub & [= <-]).
        destruct (IH member sub sub' Hdir Hsub) as (data & Hp & Hlook).
        exists data. split; [done|]. by rewrite lookup_put_eq.
      * apply bind_returns in H as (sub' & Hsub & [= <-]).
        destruct (IH member [] sub' Hdir Hsub) as (data & Hp & Hlook).
        exists data. split; [done|]. by rewrite lookup_app_new.
Qed.

(** A directory member that is extracted is a directory of the tree,
    unless no component of its name is left. *)
Lemma extract_at_dir path : forall member d d',
  is_dir member = true ->
  extract_at path member d = Returns d' ->
  path = [] \/ exists entries, lookup_path path d' = Some (Dir entries).
Proof.
  induction path as [|name rest IH]; intros member d d' Hdir H; [by left | right].
  destruct rest as [|name' rest].
  - simpl in H. rewrite Hdir in H. cbn [lookup_path].
    destruct (lookup name d) as [[data|sub]|] eqn:Hl; simplify_eq.
    + by exists sub.
    + exists []. by apply lookup_app_new.
  - rewrite extract_at_below in H. rewrite lookup_path_below.
    destruct (lookup name d) as [[data|sub]|] eqn:Hl; [done| |].
    + apply bind_returns in H as (sub' & Hsub & [= <-]).
      destruct (IH member sub sub' Hdir Hsub) as [?|Hlook]; [done|].
      by rewrite lookup_put_eq.
    + apply bind_returns in H as (sub' & Hsub & [= <-]).
      destruct (IH member [] sub' Hdir Hsub) as [?|Hlook]; [done|].
      by rewrite lookup_app_new.
Qed.

(** Both are files, or both are directories. *)
Definition same_kind (x y : fsnode) : Prop :=
  match x, y with
  | File _, File _ => True
  | Dir _, Dir _ => True
  | _, _ => False
  end.

Lemma same_kind_refl x : same_kind x x.
Proof. by destruct x. Qed.

Lemma same_kind_trans x y z : same_kind x y -> same_kind y z -> same_kind x z.
Proof. by destruct x, y, z. Qed.

(** Extracting a member removes nothing: what was a file stays a file
    and what was a directory stays a directory. *)
Lemma extract_at_keeps path : forall member d d',
  extract_at path member d = Returns d' ->
  forall p x, lookup_path p d = Some x ->
  exists x', lookup_path p d' = Some x' /\ same_kind x x'.
Proof.
  assert (Hsame : forall d d' p x,
            (forall name rest, p = name :: rest -> lookup name d' = lookup name d) ->
            lookup_path p d = Some x ->
            exists x', lookup_path p d' = Some x' /\ same_kind x x').
  { intros d d' p x Hhead Hp. exists x. split; [|apply same_kind_refl].
    by rewrite (lookup_path_head p d d'). }
  assert (Hold : forall d n y p x,
            lookup_path p d = Some x ->
            exists x', lookup_path p (d ++ [(n, y)]) = Some x' /\ same_kind x x').
  { intros d n y p x Hp. apply (Hsame d); [|done]. intros k rest ->.
    apply lookup_path_is_Some in Hp as [z Hz]. rewrite Hz. by apply lookup_app_old. }
  induction path as [|name rest IH]; intros member d d' H p x Hp.
  - simpl in H. destruct (is_dir member); simplify_eq. exists x. split; [done | apply same_kind_refl].
  - destruct rest as [|name' rest].
    + simpl in H. destruct (is_dir member).
      * destruct (lookup name d) as [[data|sub]|] eqn:Hl; simplify_eq.
        -- exists x. split; [done | apply same_kind_refl].
        -- by apply Hold.
      * destruct (payload member) as [data|e]; cbn [mbind result_bind Py.bind] in H; [|done].
        assert (Hd' : d' = put name (File data) d)
          by (destruct (lookup name d) as [[]|]; by simplify_eq).
        assert (Hno : forall sub, lookup name d <> Some (Dir sub))
          by (intros sub Hsub; by rewrite Hsub in H).
        subst d'. destruct p as [|k p']; [done|].
        destruct (decide (k = name)) as [->|Hne].
        -- destruct p' as [|k' p'].
           ++ simpl in Hp. exists (File data). split; [apply lookup_put_eq|].
              destruct x as [|sub]; [done | by apply Hno in Hp].
           ++ rewrite lookup_path_below in Hp.
              destruct (lookup name d) as [[|sub]|] eqn:Hl; try done; by destruct (Hno sub).
        -- apply (Hsame d); [|done]. intros ? ? [= <- <-]. by apply lookup_put_ne.
    + rewrite extract_at_below in H.
      destruct (lookup name d) as [[data|sub]|] eqn:Hl; [done| |].
      * apply bind_returns in H as (sub' & Hsub & [= <-]).
        destruct p as [|k p']; [done|].
        destruct (decide (k = name)) as [->|Hne].
        -- destruct p' as [|k' p'].
           ++ simpl in Hp. rewrite Hl in Hp. injection Hp as <-.
              exists (Dir sub'). split; [apply lookup_put_eq | done].
           ++ rewrite lookup_path_below in Hp. rewrite Hl in Hp.
              rewrite lookup_path_below, lookup_put_eq. by eapply IH.
        -- apply (Hsame d); [|done]. intros ? ? [= <- <-]. by apply lookup_put_ne.
      * apply bind_returns in H as (sub' & Hsub & [= <-]). by apply Hold.
Qed.

Lemma getinfo_Some zf name member :
  getinfo zf name = Some member -> member ∈ zf /\ filename member = name.
Proof.
  induction zf as [|m zf IH]; simpl; [done|].
  destruct (getinfo zf name) as [m'|].
  - intros [= ->]. destruct IH as [? ?]; [done|]. split; [by right | done].
  - case_bool_decide; [|done]. intros [= ->]. split; [by left | done].
Qed.

Lemma getinfo_last zf member : getinfo (zf ++ [member]) (filename member) = Some member.
Proof.
  induction zf as [|m zf IH]; simpl.
  - by rewrite bool_decide_eq_true_2.
  - by rewrite IH.
Qed.

(** The sanitised path and the kind of a member are those of its name. *)
Lemma arcname_filename m m' : filename m = filename m' -> arcname m = arcname m'.
Proof. unfold arcname. by intros ->. Qed.

Lemma is_dir_filename m m' : filename m = filename m' -> is_dir m = is_dir m'.
Proof. unfold is_dir. by intros ->. Qed.

Lemma extract_members_keeps zf members : forall d d',
  extract_members zf members d = Returns d' ->
  forall p x, lookup_path p d = Some x ->
  exists x', lookup_path p d' = Some x' /\ same_kind x x'.
Proof.
  induction members as [|name members IH]; intros d d' H p x Hp; simpl in H.
  - simplify_eq. exists x. split; [done | apply same_kind_refl].
  - destruct (getinfo zf name) as [m|]; [|done].
    apply bind_returns in H as (d1 & H1 & H).
    destruct (extract_at_keeps _ _ _ _ H1 p x Hp) as (x1 & Hp1 & Hk1).
    destruct (IH d1 d' H p x1 Hp1) as (x' & Hp' & Hk').
    exists x'. split; [done | by eapply same_kind_trans].
Qed.

(** When extraction returns, every name of the name list has been
    extracted: a file name is a file of the tree, a directory name a
    directory. *)
Lemma extract_members_extracted zf members : forall d d' name,
  name ∈ members ->
  extract_members zf members d = Returns d' ->
  exists member,
    getinfo zf name = Some member /\
    (is_dir member = false -> exists data, lookup_path (arcname member) d' = Some (File data)) /\
    (is_dir member = true ->
     arcname member = [] \/ exists entries, lookup_path (arcname member) d' = Some (Dir entries)).
Proof.
  induction members as [|name' members IH]; intros d d' name Hin H; [by apply elem_of_nil in Hin|].
  simpl in H. destruct (getinfo zf name') as [m|] eqn:Hm; [|done].
  apply bind_returns in H as (d1 & H1 & H).
  destruct (decide (name ∈ members)) as [Hlater|Hnot]; [by eapply IH|].
  apply elem_of_cons in Hin as [->|?]; [|done].
  exists m. split; [done|]. unfold extract_member in H1. split; intros Hdir.
  - destruct (extract_at_file _ _ _ _ Hdir H1) as (data & _ & Hp).
    destruct (extract_members_keeps _ _ _ _ H _ _ Hp) as ([data'|] & Hp' & Hk); [|done].
    by exists data'.
  - destruct (extract_at_dir _ _ _ _ Hdir H1) as [?|[entries Hp]]; [by left | right].
    destruct (extract_members_keeps _ _ _ _ H _ _ Hp) as ([|entries'] & Hp' & Hk); [done|].
    by exists entries'.
Qed.

(** A member named as if it lay two levels above the extraction
    directory. *)
Definition traversal_member : ZipInfo :=
  {| filename := "../../RUN_METABLOOMS.py"; payload := Returns "" |}.

(** C3, counterexample: the archive holds a member whose name leaves the
    extraction directory; extraction does not fail, the member is
    written inside the directory, and the audit returns a report. *)
Lemma traversal_member_is_extracted :
  path_traversal traversal_member = true /\
  extractall (Returns [traversal_member]) = Returns [("RUN_METABLOOMS.py", File "")] /\
  returned (run Fixtures.basic_lib (new_MetaBloomsAuditor (Returns [traversal_member]))).
Proof. split; [reflexivity|]. split; [reflexivity|]. eexists. vm_compute. reflexivity. Qed.

(** C3 (as the code has it): a member whose name would leave the
    extraction directory is not rejected.  Whatever else the archive
    holds, the empty, [.] and [..] components of the name are dropped
    and the remaining path stays inside the extraction directory; when
    the extraction returns, a file member is a file of the extracted
    tree at that path and a directory member a directory (unless no
    component is left), and the checks run on the extracted tree. *)
Theorem traversal_member_is_sanitized :
  forall L members member d,
    member ∈ members ->
    path_traversal member = true ->
    extractall (Returns members) = Returns d ->
    (forall part, part ∈ arcname member -> part ∉ invalid_path_parts) /\
    climbs_out 0 (arcname member) = false /\
    (is_dir member = false ->
     exists data, lookup_path (arcname member) d = Some (File data)) /\
    (is_dir member = true ->
     arcname member = [] \/ exists entries, lookup_path (arcname member) d = Some (Dir entries)) /\
    run L (new_MetaBloomsAuditor (Returns members)) = run_checks L d empty_report.
Proof.
  intros L members member d Hin _ Hx.
  split; [apply arcname_parts|]. split; [apply arcname_stays_inside|].
  assert (Hname : filename member ∈ namelist members)
    by (unfold namelist; apply list_elem_of_fmap; eauto).
  pose proof Hx as H. unfold extractall in H. cbn [mbind result_bind Py.bind] in H.
  destruct (extract_members_extracted _ _ _ _ _ Hname H) as (m & Hm & Hfile & Hdir).
  apply getinfo_Some in Hm as [_ Hm].
  rewrite (arcname_filename m member Hm), (is_dir_filename m member Hm) in Hfile, Hdir.
  split; [exact Hfile|]. split; [exact Hdir|].
  unfold run. cbn [Audit.zip_path Audit.report new_MetaBloomsAuditor]. by rewrite Hx.
Qed.

(** An archive in which a member with a climbing name comes between two
    ordinary members. *)
Definition traversal_bundle : list ZipInfo :=
  [{| filename := "BOOT_METABLOOMS.py"; payload := Returns "" |};
   traversal_member;
   {| filename := "lib/"; payload := Returns "" |}].

Lemma traversal_member_is_sanitized_witness :
  traversal_member ∈ traversal_bundle /\
  path_traversal traversal_member = true /\
  extractall (Returns traversal_bundle)
    = Returns [("BOOT_METABLOOMS.py", File ""); ("RUN_METABLOOMS.py", File ""); ("lib", Dir [])] /\
  climbs_out 0 (arcname traversal_member) = false /\
  (exists data,
     lookup_path (arcname traversal_member)
       [("BOOT_METABLOOMS.py", File ""); ("RUN_METABLOOMS.py", File ""); ("lib", Dir [])]
     = Some (File data)).
Proof.
  assert (Hin : traversal_member ∈ traversal_bundle) by (right; left).
  split; [exact Hin|]. split; [reflexivity|]. split; [reflexivity|].
  pose proof (traversal_member_is_sanitized Fixtures.basic_lib traversal_bundle traversal_member
                [("BOOT_METABLOOMS.py", File ""); ("RUN_METABLOOMS.py", File ""); ("lib", Dir [])]
                Hin eq_refl eq_refl) as (_ & Hstay & Hfile & _).
  split; [exact Hstay|]. apply Hfile. reflexivity.
Defined.

End ExtractionFacts.

(** ** The auditor: when [run] returns *)

Section RunFacts.
Import Audit.

(** The boot file is absent, or it is a readable text that [ast.parse]
    accepts or rejects with a [SyntaxError]. *)
Definition boot_ok (L : Lib) (d : directory) : Prop :=
  exists_ "BOOT_METABLOOMS.py" d = false \/
  exists src, read_text L (lookup "BOOT_METABLOOMS.py" d) = Returns src /\
    (returned (ast_parse L src) \/ exists msg, ast_parse L src = Raises (SyntaxError msg)).

(** The index is absent, or it loads as a JSON object, or loading it
    raises [JSONDecodeError]. *)
Definition index_ok (L : Lib) (d : directory) : Prop :=
  exists_ "RUNTIME_INDEX.json" d = false \/
  (exists msg, json_load L (lookup "RUNTIME_INDEX.json" d) = Raises (JSONDecodeError msg)) \/
  (exists members, json_load L (lookup "RUNTIME_INDEX.json" d) = Returns (JObj members)).

(** The manifest is absent, or loading it raises [JSONDecodeError], or it
    loads as a JSON object; in the last case its [preflight] value has a
    length, unless the boot file is absent or mentions the manifest. *)
Definition manifest_ok (L : Lib) (d : directory) : Prop :=
  exists_ "boot_manifest.json" d = false \/
  (exists msg, json_load L (lookup "boot_manifest.json" d) = Raises (JSONDecodeError msg)) \/
  (exists members,
     json_load L (lookup "boot_manifest.json" d) = Returns (JObj members) /\
     (exists_ "BOOT_METABLOOMS.py" d = false \/
      (exists src, read_text L (lookup "BOOT_METABLOOMS.py" d) = Returns src /\
         contains "boot_manifest.json" src = true) \/
      returned (len (default (JArr []) (assoc "preflight" members))))).

Lemma new_BootAnalyzer_returns L x :
  returned (new_BootAnalyzer L x) <->
  exists src, read_text L x = Returns src /\
    (returned (ast_parse L src) \/ exists msg, ast_parse L src = Raises (SyntaxError msg)).
Proof.
  unfold new_BootAnalyzer, returned. split.
  - intros [a H]. apply bind_returns in H as (src & Hread & H). exists src. split; [done|].
    destruct (ast_parse L src) as [t|[]]; simplify_eq; eauto.
  - intros (src & Hread & [[t Hp]|[msg Hp]]); rewrite Hread; simpl; rewrite Hp; eauto.
Qed.

Lemma new_BootAnalyzer_source L x a :
  new_BootAnalyzer L x = Returns a -> read_text L x = Returns (source a).
Proof.
  unfold new_BootAnalyzer. intros H. apply bind_returns in H as (src & Hread & H).
  rewrite Hread. destruct (ast_parse L src) as [t|[]]; by simplify_eq.
Qed.

Lemma boot_ok_analyzer L d :
  boot_ok L d <->
  exists_ "BOOT_METABLOOMS.py" d = false \/
  returned (new_BootAnalyzer L (lookup "BOOT_METABLOOMS.py" d)).
Proof. unfold boot_ok. by rewrite new_BootAnalyzer_returns. Qed.

Ltac split_check := unfold mbind, result_bind, Py.bind; repeat case_match; simplify_eq; eauto.

Lemma check_boot_structure_returns L d r :
  boot_ok L d -> returned (check_boot_structure L d r).
Proof.
  unfold check_boot_structure, returned.
  intros [Hno|(src & Hread & [[t Hp]|[msg Hp]])].
  - rewrite Hno. simpl. eauto.
  - destruct (negb _); [eauto|]. destruct (negb _); [eauto|].
    rewrite Hread. simpl. rewrite Hp. eauto.
  - destruct (negb _); [eauto|]. destruct (negb _); [eauto|].
    rewrite Hread. simpl. rewrite Hp. eauto.
Qed.

Lemma check_delta_enforcement_returns L d r :
  returned (check_delta_enforcement L d r) <-> boot_ok L d.
Proof.
  rewrite boot_ok_analyzer. unfold check_delta_enforcement, returned.
  destruct (exists_ "BOOT_METABLOOMS.py" d); simpl.
  - destruct (new_BootAnalyzer L _) as [a|e]; simpl.
    + split; [right|]; eauto.
    + split; [by intros [? ?] | by intros [?|[? ?]]].
  - split; [by left | eauto].
Qed.

Lemma check_gate_wiring_returns L d r :
  boot_ok L d -> returned (check_gate_wiring L d r).
Proof.
  rewrite boot_ok_analyzer. unfold check_gate_wiring, returned.
  intros [Hno|[a Ha]]; destruct (glob _ _); eauto.
  - by rewrite Hno; eauto.
  - destruct (negb _); [eauto|]. rewrite Ha. simpl. destruct (filter _ _); eauto.
Qed.

Lemma check_schema_usage_returns L d r : returned (check_schema_usage L d r).
Proof. unfold check_schema_usage, returned. split_check. Qed.

Lemma check_ledger_integration_returns L d r :
  boot_ok L d -> returned (check_ledger_integration L d r).
Proof.
  unfold check_ledger_integration, returned.
  intros [Hno|(src & Hread & _)].
  - rewrite Hno. simpl. eauto.
  - destruct (negb _); [eauto|]. rewrite Hread. simpl. destruct (_ && _); eauto.
Qed.

Lemma check_index_usage_returns L d r :
  returned (check_index_usage L d r) <-> index_ok L d.
Proof.
  unfold check_index_usage, index_ok, returned.
  destruct (exists_ "RUNTIME_INDEX.json" d); simpl; [|split; eauto].
  destruct (json_load L _) as [[]|[]]; simpl;
    (split; [intros [r' H]; simplify_eq; eauto | intros [?|[[? ?]|[? ?]]]; simplify_eq; eauto]).
Qed.

Lemma check_csrg_presence_returns L d r : returned (check_csrg_presence L d r).
Proof. unfold check_csrg_presence, returned. split_check. Qed.

Lemma check_manifest_loading_returns L d r :
  boot_ok L d -> returned (check_manifest_loading L d r) <-> manifest_ok L d.
Proof.
  rewrite boot_ok_analyzer. intros Hboot.
  unfold check_manifest_loading, manifest_ok, returned.
  destruct (exists_ "boot_manifest.json" d); simpl; [|split; eauto].
  destruct (json_load L _) as [j|e]; simpl.
  2:{ destruct e; simpl;
        (split; [intros [r' H]; simplify_eq; eauto
                | intros [?|[[? ?]|(? & ? & _)]]; simplify_eq; eauto]). }
  destruct j as [| | | | | |members]; simpl;
    try by (split; [intros [r' H]; simplify_eq | intros [?|[[? ?]|(? & ? & _)]]; simplify_eq]).
  destruct Hboot as [Hno|[a Ha]].
  - rewrite Hno. split; [intros _ | eauto]. right; right. exists members. eauto.
  - destruct (exists_ "BOOT_METABLOOMS.py" d) eqn:Hex.
    2:{ split; [intros _ | eauto]. right; right. exists members. eauto. }
    rewrite Ha. simpl. pose proof (new_BootAnalyzer_source _ _ _ Ha) as Hsrc.
    unfold loads_file. destruct (contains "boot_manifest.json" (source a)) eqn:Hloads; simpl.
    + split; [intros _ | eauto]. right; right. exists members. split; [done|].
      right; left. eauto.
    + destruct (len _) as [n|e] eqn:Hlen; simpl.
      * split; [intros _ | eauto]. right; right. exists members. split; [done|].
        right; right. by exists n.
      * assert (exists msg, e = TypeError msg) as [msg ->]
          by (unfold len in Hlen; repeat case_match; simplify_eq; eauto).
        split; [by intros [? ?]|].
        intros [?|[[? ?]|(ms & [= <-] & [?|[(src & Hread & Hc)|[n Hn]]])]]; [done..| |].
        -- rewrite Hsrc in Hread. simplify_eq. congruence.
        -- congruence.
Qed.

(** C1 (as the code has it): once the bundle is extracted, [run] returns
    a report exactly when the boot file, the index and the manifest are
    such that no check raises; there is no handler around the checks, so
    an exception that [run] raises is the exception one of the checks
    raised, and no finding records it. *)
Theorem run_returns_iff :
  forall L archive d,
    extractall archive = Returns d ->
    (returned (run L (new_MetaBloomsAuditor archive))
       <-> boot_ok L d /\ index_ok L d /\ manifest_ok L d) /\
    (forall e, run L (new_MetaBloomsAuditor archive) = Raises e ->
       exists r, Raises e ∈ [check_boot_structure L d r; check_delta_enforcement L d r;
                             check_gate_wiring L d r; check_schema_usage L d r;
                             check_ledger_integration L d r; check_index_usage L d r;
                             check_csrg_presence L d r; check_manifest_loading L d r]).
Proof.
  intros L archive d Hd.
  assert (Hrun : run L (new_MetaBloomsAuditor archive) = run_checks L d empty_report).
  { unfold run. cbn [Audit.zip_path Audit.report new_MetaBloomsAuditor]. by rewrite Hd. }
  rewrite Hrun. unfold run_checks. split; [split|].
  - intros [r8 H].
    apply bind_returns in H as (r1 & H1 & H). apply bind_returns in H as (r2 & H2 & H).
    apply bind_returns in H as (r3 & H3 & H). apply bind_returns in H as (r4 & H4 & H).
    apply bind_returns in H as (r5 & H5 & H). apply bind_returns in H as (r6 & H6 & H).
    apply bind_returns in H as (r7 & H7 & H).
    assert (Hboot : boot_ok L d) by (apply (check_delta_enforcement_returns L d r1); by exists r2).
    split; [done|]. split.
    + apply (check_index_usage_returns L d r5). by exists r6.
    + apply (check_manifest_loading_returns L d r7 Hboot). by exists r8.
  - intros (Hboot & Hindex & Hmanifest).
    destruct (check_boot_structure_returns L d empty_report Hboot) as [r1 ->]. simpl.
    destruct (proj2 (check_delta_enforcement_returns L d r1) Hboot) as [r2 ->]. simpl.
    destruct (check_gate_wiring_returns L d r2 Hboot) as [r3 ->]. simpl.
    destruct (check_schema_usage_returns L d r3) as [r4 ->]. simpl.
    destruct (check_ledger_integration_returns L d r4 Hboot) as [r5 ->]. simpl.
    destruct (proj2 (check_index_usage_returns L d r5) Hindex) as [r6 ->]. simpl.
    destruct (check_csrg_presence_returns L d r6) as [r7 ->]. simpl.
    apply (check_manifest_loading_returns L d r7 Hboot), Hmanifest.
  - intros e H.
    repeat (apply bind_raises in H as [H|(? & _ & H)];
            [eexists; rewrite <- H; repeat first [by left | right]|]).
    eexists. rewrite <- H. repeat first [by left | right].
Qed.

Lemma run_returns_iff_witness :
  extractall plain_bundle
    = Returns [("BOOT_METABLOOMS.py", File ""); ("RUN_METABLOOMS.py", File "")] /\
  (returned (run Fixtures.basic_lib (new_MetaBloomsAuditor plain_bundle))
     <-> boot_ok Fixtures.basic_lib [("BOOT_METABLOOMS.py", File ""); ("RUN_METABLOOMS.py", File "")] /\
         index_ok Fixtures.basic_lib [("BOOT_METABLOOMS.py", File ""); ("RUN_METABLOOMS.py", File "")] /\
         manifest_ok Fixtures.basic_lib [("BOOT_METABLOOMS.py", File ""); ("RUN_METABLOOMS.py", File "")]).
Proof.
  split; [reflexivity|].
  exact (proj1 (run_returns_iff Fixtures.basic_lib plain_bundle
                  [("BOOT_METABLOOMS.py", File ""); ("RUN_METABLOOMS.py", File "")] eq_refl)).
Defined.

(** A bundle whose only file is an index holding the JSON array [[]]. *)
Definition array_index_bundle : bundle :=
  Returns [{| filename := "RUNTIME_INDEX.json"; payload := Returns "[]" |}].

(** C1, counterexample: the bundle extracts, [check_index_usage] calls
    [keys] on a list, and the [AttributeError] leaves [run]: no report is
    returned and no finding names the failing check. *)
Lemma check_failure_escapes_run :
  extractall array_index_bundle = Returns [("RUNTIME_INDEX.json", File "[]")] /\
  run Fixtures.basic_lib (new_MetaBloomsAuditor array_index_bundle)
    = Raises (AttributeError "object has no attribute 'keys'").
Proof. split; vm_compute; reflexivity. Qed.

(** The same for every library that decodes the two bytes and reads them
    as the empty array. *)
Lemma array_index_escapes L :
  decode L "[]" = Returns "[]" -> json_loads L "[]" = Returns (JArr []) ->
  run L (new_MetaBloomsAuditor array_index_bundle)
    = Raises (AttributeError "object has no attribute 'keys'").
Proof.
  intros Hdecode Hjson. unfold run, run_checks, check_index_usage, json_load. simpl.
  by rewrite Hdecode; simpl; rewrite Hjson.
Qed.

Example plain_bundle_conditions :
  boot_ok Fixtures.basic_lib [("BOOT_METABLOOMS.py", File ""); ("RUN_METABLOOMS.py", File "")] /\
  index_ok Fixtures.basic_lib [("BOOT_METABLOOMS.py", File ""); ("RUN_METABLOOMS.py", File "")] /\
  manifest_ok Fixtures.basic_lib [("BOOT_METABLOOMS.py", File ""); ("RUN_METABLOOMS.py", File "")].
Proof.
  split_and!; [right | by left | by left].
  exists "". split; [reflexivity|]. left. by eexists.
Qed.

End RunFacts.

(** * Further properties of the capability extractor *)

Section ProbeMore.
Import Probe.

Lemma elem_of_flat_map {A B} (f : A -> list B) (l : list A) (y : B) :
  y ∈ flat_map f l <-> exists x, x ∈ l /\ y ∈ f x.
Proof.
  rewrite list_elem_of_In, in_flat_map.
  split; intros (x & Hx & Hy); exists x; by rewrite ?list_elem_of_In in *.
Qed.

(** What a traversal collects: the items of the nodes of the tree. *)
Lemma elem_of_flat_map_walk {B} (f : node -> list B) t (y : B) :
  y ∈ flat_map f (walk t) <-> exists n, subnode n t /\ y ∈ f n.
Proof.
  rewrite elem_of_flat_map. split; intros (n & Hn & Hy); exists n; by rewrite ?walk_subnode in *.
Qed.

(** An assignment, somewhere in [t], that line 93 accepts for [id] and
    whose value unparses to [s]. *)
Definition assigned (L : Lib) (t : node) (id s : string) : Prop :=
  exists targets value line,
    subnode (Assign targets value line) t /\ Name id ∈ targets /\
    path_like L id = true /\ s = unparse_value L value.

Lemma path_constants_targets_value L t value line targets0 (targets : list node)
    (m : gmap string string) :
  subnode (Assign targets0 value line) t ->
  (forall x, x ∈ targets -> x ∈ targets0) ->
  (forall id s, m !! id = Some s -> assigned L t id s) ->
  forall id s,
    foldl (fun acc target =>
             match target with
             | Name id => if path_like L id then <[id := unparse_value L value]> acc else acc
             | _ => acc
             end) m targets !! id = Some s ->
    assigned L t id s.
Proof.
  intros Hsub. revert m. induction targets as [|x targets IH]; intros m Hin Hm id s; simpl.
  - apply Hm.
  - apply IH.
    + intros y Hy. apply Hin. by right.
    + destruct x as [| | | | | |id'| | | |]; try exact Hm.
      destruct (path_like L id') eqn:Hp; [|exact Hm].
      intros id0 s0. destruct (decide (id' = id0)) as [<-|Hne].
      * rewrite lookup_insert_eq. intros [= <-].
        exists targets0, value, line. split_and!; [done | apply Hin; by left | done..].
      * rewrite lookup_insert_ne by done. apply Hm.
Qed.

Lemma path_constants_fold_value L t nodes : forall (m : gmap string string),
  (forall n, n ∈ nodes -> subnode n t) ->
  (forall id s, m !! id = Some s -> assigned L t id s) ->
  forall id s, foldl (path_constants_at L) m nodes !! id = Some s -> assigned L t id s.
Proof.
  induction nodes as [|n nodes IH]; intros m Hnodes Hm; simpl; [exact Hm|].
  apply IH.
  - intros n' Hn'. apply Hnodes. by right.
  - destruct n as [| |targets value line| | | | | | | |]; try exact Hm.
    simpl. eapply path_constants_targets_value; [apply Hnodes; by left | done | exact Hm].
Qed.

(** X1: a name is a key of [path_constants] exactly when some
    assignment of the tree, at any depth, has it as a bare-name target
    that line 93 accepts: an upper-case name that contains [PATH], or
    any name that contains [DIR].  The value stored under a key is the
    unparsed right-hand side of such an assignment, or
    ["<unparseable>"] when unparsing it raised. *)
Theorem path_constants_lookup :
  forall L t id,
    (is_Some (extract_path_constants L t !! id) <->
       exists targets value line,
         subnode (Assign targets value line) t /\ Name id ∈ targets /\
         (id_isupper L id && contains "PATH" id) || contains "DIR" id = true) /\
    (forall s, extract_path_constants L t !! id = Some s ->
       exists targets value line,
         subnode (Assign targets value line) t /\ Name id ∈ targets /\
         (id_isupper L id && contains "PATH" id) || contains "DIR" id = true /\
         s = match (if has_unparse L then unparse L value else Returns (repr_node L value)) with
             | Returns text => text
             | Raises _ => "<unparseable>"
             end).
Proof.
  intros L t id. split.
  - unfold extract_path_constants. rewrite path_constants_fold, lookup_empty. split.
    + intros [[? ?]|(n & Hn & targets & value & line & -> & ? & ?)]; [done|].
      exists targets, value, line. by rewrite <- walk_subnode.
    + intros (targets & value & line & Hs & ? & ?). right.
      exists (Assign targets value line). split; [by rewrite walk_subnode|].
      by exists targets, value, line.
  - intros s Hs.
    apply (path_constants_fold_value L t (walk t) ∅) in Hs.
    + exact Hs.
    + intros n. by rewrite walk_subnode.
    + intros ? ?. by rewrite lookup_empty.
Qed.

(** The name of a small a with grave accent followed by [PATH] is not
    upper-case, and is not recorded. *)
Example path_constant_small_letter :
  let id := String (ascii_of_nat 195) (String (ascii_of_nat 160) "PATH") in
  is_ascii id = false /\
  extract_path_constants Fixtures.basic_lib (Module [Assign [Name id] (Name "p") 1]) = ∅.
Proof. split; reflexivity. Qed.

Example path_constant_unparseable :
  extract_path_constants Fixtures.basic_lib
    (Module [Assign [Name "LOG_DIR"] (Other []) 1; Assign [Name "x"; Name "DB_PATH"] (Name "p") 2])
  = {[ "LOG_DIR" := "<unparseable>"; "DB_PATH" := "p" ]}.
Proof. vm_compute. reflexivity. Qed.

(** The module names of the import statements of [t]. *)
Definition imported (t : node) (m : string) : Prop :=
  exists n, subnode n t /\
    ((exists names, n = Import names /\ m ∈ names) \/
     (exists names, n = ImportFrom (Some m) names /\ m <> "")).

Lemma imports_at_spec n m :
  m ∈ imports_at n <->
  (exists names, n = Import names /\ m ∈ names) \/
  (exists names, n = ImportFrom (Some m) names /\ m <> "").
Proof.
  destruct n as [| | |names|[m'|] names| | | | | |]; simpl;
    try (split; [by intros ?%elem_of_nil | by intros [(? & ? & _)|(? & ? & _)]]).
  - split; [intros ?; left; eauto | intros [(? & [= <-] & ?)|(? & ? & _)]; done].
  - case_bool_decide as Hm.
    + split; [by intros ?%elem_of_nil|]. intros [(? & ? & _)|(? & [= <-] & ?)]; done.
    + rewrite list_elem_of_singleton. split.
      * intros ->. right. eauto.
      * by intros [(? & ? & _)|(? & [= <-] & ?)].
Qed.

Lemma sorted_set_spec f l :
  set_iter_ok f ->
  StronglySorted String.le (sorted (f l)) /\ NoDup (sorted (f l)) /\
  forall x, x ∈ sorted (f l) <-> x ∈ l.
Proof.
  intros Hok. destruct (Hok l) as [Hnd Hin]. unfold sorted. split_and!.
  - apply StronglySorted_merge_sort; apply _.
  - by rewrite merge_sort_Permutation.
  - intros x. by rewrite merge_sort_Permutation.
Qed.

(** X2: the [imports] of a surface are in ascending order, without
    duplicates, and are exactly the modules that an [import] names or a
    [from ... import] names as its non-empty module, anywhere in the
    tree. *)
Theorem extract_imports_sorted_set :
  forall L t,
    set_iter_ok (set_iter L) ->
    StronglySorted String.le (extract_imports L t) /\
    NoDup (extract_imports L t) /\
    (forall m, m ∈ extract_imports L t <-> imported t m).
Proof.
  intros L t Hok. unfold extract_imports.
  destruct (sorted_set_spec (set_iter L) (flat_map imports_at (walk t)) Hok) as (Hs & Hnd & Hin).
  split_and!; [done..|]. intros m. rewrite Hin, elem_of_flat_map_walk. unfold imported.
  split; intros (n & Hn & H); exists n; by rewrite ?imports_at_spec in *.
Qed.

Lemma extract_imports_sorted_set_witness :
  set_iter_ok (set_iter Fixtures.basic_lib) /\
  StronglySorted String.le
    (extract_imports Fixtures.basic_lib
       (Module [Import ["os"; "json"]; ImportFrom (Some "os") ["path"]; ImportFrom None ["x"]])).
Proof.
  split; [exact remove_dups_ok|].
  apply (extract_imports_sorted_set Fixtures.basic_lib
           (Module [Import ["os"; "json"]; ImportFrom (Some "os") ["path"]; ImportFrom None ["x"]])
           remove_dups_ok).
Defined.

(** X3: the [string_literals] of a surface are in ascending order,
    without duplicates, and are exactly the values of the string
    constants of the tree. *)
Theorem extract_string_literals_sorted_set :
  forall L t,
    set_iter_ok (set_iter L) ->
    StronglySorted String.le (extract_string_literals L t) /\
    NoDup (extract_string_literals L t) /\
    (forall s, s ∈ extract_string_literals L t <-> subnode (Constant (CStr s)) t).
Proof.
  intros L t Hok. unfold extract_string_literals.
  destruct (sorted_set_spec (set_iter L) (flat_map string_literals_at (walk t)) Hok)
    as (Hs & Hnd & Hin).
  split_and!; [done..|]. intros s. rewrite Hin, elem_of_flat_map_walk. split.
  - intros (n & Hn & H). destruct n as [| | | | | | | |[]| |]; simpl in H;
      try by apply elem_of_nil in H.
    by apply list_elem_of_singleton in H as ->.
  - intros H. exists (Constant (CStr s)). split; [done|]. simpl. by left.
Qed.

Lemma extract_string_literals_sorted_set_witness :
  set_iter_ok (set_iter Fixtures.basic_lib) /\
  NoDup (extract_string_literals Fixtures.basic_lib
           (Module [Assign [Name "x"] (Other [Constant (CStr "b"); Constant (CStr "a");
                                              Constant (CStr "b"); Constant (CInt 3)]) 1])).
Proof.
  split; [exact remove_dups_ok|].
  apply (extract_string_literals_sorted_set Fixtures.basic_lib
           (Module [Assign [Name "x"] (Other [Constant (CStr "b"); Constant (CStr "a");
                                              Constant (CStr "b"); Constant (CInt 3)]) 1])
           remove_dups_ok).
Defined.

End ProbeMore.

Section ProbeCalls.
Import Probe.

(** A call of the bare name [_die] at [n] or below it. *)
Definition calls_die_below (n : node) : Prop :=
  exists args keywords line, subnode (Call (Name "_die") args keywords line) n.

Lemma is_die_call_spec c :
  is_die_call c = true <-> exists args keywords line, c = Call (Name "_die") args keywords line.
Proof.
  destruct c as [| | | | |func args keywords line| | | | |]; simpl;
    try (split; [done | by intros (? & ? & ? & ?)]).
  destruct func; simpl; try (split; [done | by intros (? & ? & ? & ?)]).
  rewrite bool_decide_eq_true. split.
  - intros ->. eauto.
  - by intros (? & ? & ? & [= -> _ _ _]).
Qed.

Lemma existsb_die_call n :
  existsb is_die_call (walk n) = true <-> calls_die_below n.
Proof.
  rewrite existsb_exists. unfold calls_die_below. split.
  - intros (c & Hc%list_elem_of_In%walk_subnode & (a & k & l & ->)%is_die_call_spec). eauto.
  - intros (a & k & l & Hs). exists (Call (Name "_die") a k l).
    split; [by apply list_elem_of_In, walk_subnode | by apply is_die_call_spec; eauto].
Qed.

(** X4: [function_definitions] has one entry for each function
    definition of the tree, nested ones included, with its name, the
    names of its positional parameters and its line; the entry's
    fail-closed flag is set exactly when a call of the bare name [_die]
    occurs anywhere inside the definition. *)
Theorem extract_function_defs_spec :
  forall t fd,
    fd ∈ extract_function_defs t <->
    exists arguments body trailer,
      let n := FunctionDef (fd_name fd) (fd_params fd) arguments body trailer (fd_line fd) in
      subnode n t /\ (has_fail_closed fd = true <-> calls_die_below n).
Proof.
  intros t fd. unfold extract_function_defs. rewrite elem_of_flat_map_walk. split.
  - intros (n & Hn & Hfd).
    destruct n as [|name params arguments body trailer line| | | | | | | | |];
      cbn [function_defs_at] in Hfd; try by apply elem_of_nil in Hfd.
    apply list_elem_of_singleton in Hfd as ->.
    cbn [fd_name fd_params fd_line has_fail_closed].
    exists arguments, body, trailer. split; [done|]. apply existsb_die_call.
  - intros (arguments & body & trailer & Hn & Hflag).
    eexists. split; [exact Hn|]. cbn [function_defs_at]. apply list_elem_of_singleton.
    destruct fd as [name params line flag];
      cbn [fd_name fd_params fd_line has_fail_closed] in *. f_equal.
    rewrite <- existsb_die_call in Hflag.
    destruct flag, (existsb is_die_call _); try done.
    + symmetry. by apply Hflag.
    + by apply Hflag.
Qed.

Example nested_die_sets_flag :
  extract_function_defs
    (Module [FunctionDef "boot" ["root"] [] 
               [Other [Other [Call (Name "_die") [Constant (CInt 2); Constant (CStr "no")] [] 3]]]
               [] 1;
             FunctionDef "helper" [] [] [Call (Attribute (Name "sys") "exit") [] [] 6] [] 5])
  = [{| fd_name := "boot"; fd_params := ["root"]; fd_line := 1; has_fail_closed := true |};
     {| fd_name := "helper"; fd_params := []; fd_line := 5; has_fail_closed := false |}].
Proof. vm_compute. reflexivity. Qed.

Lemma unique_calls_spec calls : forall seen,
  NoDup (unique_calls seen calls) /\
  forall c, c ∈ unique_calls seen calls <-> c ∈ calls /\ c ∉ seen.
Proof.
  induction calls as [|x calls IH]; intros seen; simpl.
  - split; [constructor|]. intros c. split; [by intros ?%elem_of_nil | by intros [?%elem_of_nil _]].
  - case_bool_decide as Hx.
    + destruct (IH seen) as [Hnd Hin]. split; [done|]. intros c. rewrite Hin, elem_of_cons.
      split; [intros [? ?]; eauto|]. intros [[->|?] ?]; done.
    + destruct (IH (x :: seen)) as [Hnd Hin]. split.
      * constructor; [|done]. rewrite Hin. intros [_ Hno]. apply Hno. by left.
      * intros c. rewrite !elem_of_cons, Hin, not_elem_of_cons. split.
        -- intros [->|[? [? ?]]]; eauto.
        -- intros [[->|?] ?]; [by left|]. destruct (decide (c = x)) as [->|?]; [by left|].
           right. eauto.
Qed.

(** A function definition named [f] somewhere in [t]. *)
Definition defines (t : node) (f : string) : Prop :=
  exists params arguments body trailer line,
    subnode (FunctionDef f params arguments body trailer line) t.

Lemma defined_names t f : f ∈ map fd_name (extract_function_defs t) <-> defines t f.
Proof.
  rewrite list_elem_of_fmap. unfold extract_function_defs, defines. split.
  - intros (fd & -> & (n & Hn & Hfd)%elem_of_flat_map_walk).
    destruct n as [|name params arguments body trailer line| | | | | | | | |];
      cbn [function_defs_at] in Hfd; try by apply elem_of_nil in Hfd.
    apply list_elem_of_singleton in Hfd as ->. cbn [fd_name].
    by exists params, arguments, body, trailer, line.
  - intros (params & a & b & tr & line & Hn).
    eexists. split; [|apply elem_of_flat_map_walk; eexists; split; [exact Hn | by left]].
    reflexivity.
Qed.

(** X5: [external_calls] lists each pair of callee and line once, and a
    pair is listed exactly when the tree has a call, on that line, whose
    callee is a bare name that no function definition of the file has
    and that is not one of the thirteen built-ins. *)
Theorem extract_external_calls_spec :
  forall t,
    NoDup (extract_external_calls t) /\
    (forall c, c ∈ extract_external_calls t <->
       (exists args keywords, subnode (Call (Name (ec_function c)) args keywords (ec_line c)) t) /\
       ~ defines t (ec_function c) /\
       ec_function c ∉ stdlib).
Proof.
  intros t. unfold extract_external_calls.
  destruct (unique_calls_spec
              (flat_map (external_at (map fd_name (extract_function_defs t))) (walk t)) [])
    as [Hnd Hin].
  split; [done|]. intros c. rewrite Hin, elem_of_flat_map_walk, <- defined_names. split.
  - intros [(n & Hn & Hc) _].
    destruct n as [| | | | |func args keywords line| | | | |]; simpl in Hc;
      try by apply elem_of_nil in Hc.
    destruct func as [| | | | | |id| | | |]; simpl in Hc; try by apply elem_of_nil in Hc.
    destruct (bool_decide (id ∉ _)) eqn:Hd; simpl in Hc; [|by apply elem_of_nil in Hc].
    destruct (bool_decide (id ∉ stdlib)) eqn:Hs; simpl in Hc; [|by apply elem_of_nil in Hc].
    apply list_elem_of_singleton in Hc as ->. simpl.
    apply bool_decide_eq_true in Hd, Hs. split_and!; eauto.
  - intros ((args & keywords & Hn) & Hd & Hs). split; [|by intros ?%elem_of_nil].
    eexists. split; [exact Hn|]. simpl.
    rewrite !bool_decide_eq_true_2 by done. simpl. apply list_elem_of_singleton. by destruct c.
Qed.

Example external_calls_example :
  extract_external_calls
    (Module [FunctionDef "helper" [] [] [] [] 1;
             Call (Name "helper") [] [] 3; Call (Name "print") [] [] 4;
             Call (Name "load") [] [] 5; Call (Name "load") [Call (Name "load") [] [] 5] [] 5;
             Call (Attribute (Name "os") "getcwd") [] [] 6])
  = [{| ec_function := "load"; ec_line := 5 |}].
Proof. vm_compute. reflexivity. Qed.

End ProbeCalls.

Section ProbeExits.
Import Probe.

(** [d[k]] on the insertion-ordered dict, with Python's key equality. *)
Fixpoint dict_get (k : constant) (d : list (constant * constant)) : option constant :=
  match d with
  | [] => None
  | (k', v) :: r => if key_eqb k' k then Some v else dict_get k r
  end.

Lemma real_eqb_refl x : real_eqb x x = true.
Proof. destruct x; simpl; [apply Qeq_bool_refl | apply eqb_reflx]. Qed.

Lemma real_eqb_sym x y : real_eqb x y = real_eqb y x.
Proof.
  destruct x as [p|s], y as [q|t]; simpl; [apply Qeq_bool_comm | done | done | by destruct s, t].
Qed.

Lemma real_eqb_trans x y z : real_eqb x y = true -> real_eqb y z = true -> real_eqb x z = true.
Proof.
  destruct x as [p|s], y as [q|t], z as [r|u]; simpl; try done;
    [apply Qeq_bool_trans | by destruct s, t, u].
Qed.

(** Key equality is an equivalence. *)
Lemma key_eqb_refl k : key_eqb k k = true.
Proof.
  unfold key_eqb. destruct (number_of k) as [[x y]|] eqn:Hk.
  - by rewrite !real_eqb_refl.
  - destruct k; simpl in *; try done; by rewrite bool_decide_eq_true_2.
Qed.

Lemma key_eqb_sym a b : key_eqb a b = key_eqb b a.
Proof.
  unfold key_eqb.
  destruct (number_of a) as [[x y]|] eqn:Ha, (number_of b) as [[x' y']|] eqn:Hb; try done.
  - by rewrite (real_eqb_sym x x'), (real_eqb_sym y y').
  - destruct a, b; simpl in *; try done; apply bool_decide_ext; split; congruence.
Qed.

Lemma key_eqb_trans a b c : key_eqb a b = true -> key_eqb b c = true -> key_eqb a c = true.
Proof.
  unfold key_eqb.
  destruct (number_of a) as [[x y]|] eqn:Ha, (number_of b) as [[x' y']|] eqn:Hb,
    (number_of c) as [[x'' y'']|] eqn:Hc; try done.
  - intros [? ?]%andb_prop [? ?]%andb_prop. apply andb_true_intro.
    split; by eapply real_eqb_trans.
  - destruct a, b, c; simpl in *; try done; rewrite ?bool_decide_eq_true; congruence.
Qed.

Lemma dict_get_set_eq k v d : dict_get k (dict_set k v d) = Some v.
Proof.
  induction d as [|[k' v'] d IH]; simpl.
  - by rewrite key_eqb_refl.
  - destruct (key_eqb k' k) eqn:Hk; simpl; by rewrite Hk.
Qed.

Lemma dict_get_set_ne k k2 v2 d :
  key_eqb k2 k = false -> dict_get k (dict_set k2 v2 d) = dict_get k d.
Proof.
  intros Hne. induction d as [|[k' v'] d IH]; simpl.
  - by rewrite Hne.
  - destruct (key_eqb k' k2) eqn:Hk2; simpl.
    + destruct (key_eqb k' k) eqn:Hk; [|done].
      rewrite key_eqb_sym in Hk2. by rewrite (key_eqb_trans _ _ _ Hk2 Hk) in Hne.
    + by rewrite IH.
Qed.

(** No two keys of the dict are equal. *)
Fixpoint distinct_keys (d : list (constant * constant)) : Prop :=
  match d with
  | [] => True
  | (k, _) :: r => Forall (fun p => key_eqb k p.1 = false) r /\ distinct_keys r
  end.

Lemma dict_set_keys k v d p :
  p ∈ dict_set k v d -> p.1 = k \/ exists v', (p.1, v') ∈ d.
Proof.
  induction d as [|[k' v'] d IH]; simpl.
  - intros ->%list_elem_of_singleton. by left.
  - destruct (key_eqb k' k).
    + intros [->|?]%elem_of_cons; right; [exists v'; by left | exists p.2; right; by destruct p].
    + intros [->|[?|[v0 ?]]%IH]%elem_of_cons; [right; exists v'; by left | by left |].
      right. exists v0. by right.
Qed.

Lemma dict_set_distinct k v d : distinct_keys d -> distinct_keys (dict_set k v d).
Proof.
  induction d as [|[k' v'] d IH]; simpl; [done|]. intros [Hk' Hd].
  destruct (key_eqb k' k) eqn:Hk; simpl; [done|]. split; [|by apply IH].
  apply Forall_forall. intros p [->|[v0 Hp]]%dict_set_keys; [done|].
  by apply (proj1 (Forall_forall _ _) Hk' _ Hp).
Qed.

(** The call [_die(code, second, ...)] with a constant code. *)
Definition die_call (code : constant) (second : node) (n : node) : Prop :=
  exists rest keywords line, n = Call (Name "_die") (Constant code :: second :: rest) keywords line.

(** The message recorded for the second argument. *)
Definition message_of (second : node) : constant :=
  match second with
  | Constant m => m
  | JoinedStr _ => CStr "<f-string>"
  | _ => CStr "<dynamic>"
  end.

Lemma exit_codes_at_cases exits n :
  (exists code second, die_call code second n /\
     exit_codes_at exits n = dict_set code (message_of second) exits) \/
  ((forall code second, ~ die_call code second n) /\ exit_codes_at exits n = exits).
Proof.
  destruct n as [| | | | |func args keywords line| | | | |];
    try (right; split; [by intros ? ? (? & ? & ? & ?) | done]).
  destruct func as [| | | | | |id| | | |];
    try (right; split; [by intros ? ? (? & ? & ? & ?) | done]).
  destruct args as [|first args].
  { right. split; [by intros ? ? (? & ? & ? & ?) | done]. }
  destruct args as [|second rest].
  { right. split; [by intros ? ? (? & ? & ? & ?) | by destruct first]. }
  destruct first as [| | | | | | | |code| |];
    try (right; split; [by intros ? ? (? & ? & ? & ?) | done]).
  simpl. case_bool_decide as Hid.
  - subst id. left. exists code, second. split; [by exists rest, keywords, line | done].
  - right. split; [|done]. intros ? ? (? & ? & ? & [= ? _]). done.
Qed.

Lemma exit_codes_fold nodes : forall exits,
  distinct_keys exits ->
  distinct_keys (foldl exit_codes_at exits nodes) /\
  forall k v, (k, v) ∈ foldl exit_codes_at exits nodes ->
    (exists v', (k, v') ∈ exits) \/ exists second n, n ∈ nodes /\ die_call k second n.
Proof.
  induction nodes as [|n nodes IH]; intros exits Hd; simpl.
  - split; [done|]. intros k v ?. left. eauto.
  - destruct (exit_codes_at_cases exits n) as [(code & second & Hn & ->)|[Hn ->]].
    + destruct (IH (dict_set code (message_of second) exits)) as [Hdist Hin];
        [by apply dict_set_distinct|].
      split; [done|]. intros k v [[v' [Hk|[v0 ?]]%dict_set_keys]|(s & n' & ? & ?)]%Hin.
      * simpl in Hk. subst k. right. exists second, n. split; [by left | done].
      * left. eauto.
      * right. exists s, n'. split; [by right | done].
    + destruct (IH exits Hd) as [Hdist Hin]. split; [done|].
      intros k v [?|(s & n' & ? & ?)]%Hin; [by left|]. right. exists s, n'. split; [by right | done].
Qed.

(** X6: no two exit codes of [fail_exit_codes] are equal as dict keys
    ([1], [1.0] and [True] count as equal), and every code it holds is the
    constant first argument of a call of [_die] with at least two
    positional arguments somewhere in the tree. *)
Theorem extract_exit_codes_keys :
  forall t,
    distinct_keys (extract_exit_codes t) /\
    (forall code msg, (code, msg) ∈ extract_exit_codes t ->
       exists second rest keywords line,
         subnode (Call (Name "_die") (Constant code :: second :: rest) keywords line) t).
Proof.
  intros t. unfold extract_exit_codes.
  destruct (exit_codes_fold (walk t) []) as [Hd Hin]; [done|]. split; [done|].
  intros code msg [[? ?%elem_of_nil]|(second & n & Hn & rest & keywords & line & ->)]%Hin; [done|].
  exists second, rest, keywords, line. by apply walk_subnode.
Qed.

Lemma exit_codes_fold_skip k nodes : forall exits,
  (forall n code second, n ∈ nodes -> die_call code second n -> key_eqb code k = false) ->
  dict_get k (foldl exit_codes_at exits nodes) = dict_get k exits.
Proof.
  induction nodes as [|n nodes IH]; intros exits Hno; simpl; [done|].
  rewrite IH by (intros n' ? ? ?; apply Hno; by right).
  destruct (exit_codes_at_cases exits n) as [(code & second & Hn & ->)|[Hn ->]]; [|done].
  apply dict_get_set_ne. eapply Hno; [by left | exact Hn].
Qed.

(** X7: the message looked up under an exit code is the one of the last
    call, in traversal order, that gives an equal code: the literal
    second argument, ["<f-string>"] for an f-string, ["<dynamic>"] for
    anything else. *)
Theorem extract_exit_codes_last_wins :
  forall t before n after code second,
    walk t = before ++ n :: after ->
    die_call code second n ->
    (forall n' code' second', n' ∈ after -> die_call code' second' n' -> key_eqb code' code = false) ->
    dict_get code (extract_exit_codes t) = Some (message_of second).
Proof.
  intros t before n after code second Hwalk Hn Hafter. unfold extract_exit_codes.
  rewrite Hwalk, foldl_app. simpl.
  rewrite (exit_codes_fold_skip code after) by exact Hafter.
  destruct (exit_codes_at_cases (foldl exit_codes_at [] before) n)
    as [(code' & second' & (r' & k' & l' & Heq) & ->)|[Hno _]].
  - destruct Hn as (r & k & l & ->). injection Heq as <- <- _ _ _.
    apply dict_get_set_eq.
  - by destruct (Hno code second).
Qed.

(** [_die(1, "first")], [_die(1.0, f"...")] and [_die(2, msg)]. *)
Definition three_exits : node :=
  Module [Call (Name "_die") [Constant (CInt 1); Constant (CStr "first")] [] 1;
          Call (Name "_die") [Constant (CFloat (FFinite 1)); JoinedStr []] [] 2;
          Call (Name "_die") [Constant (CInt 2); Name "msg"] [] 3].

Lemma extract_exit_codes_last_wins_witness :
  dict_get (CFloat (FFinite 1)) (extract_exit_codes three_exits) = Some (CStr "<f-string>") /\
  extract_exit_codes three_exits = [(CInt 1, CStr "<f-string>"); (CInt 2, CStr "<dynamic>")].
Proof.
  split; [|reflexivity].
  apply (extract_exit_codes_last_wins three_exits
           [three_exits; Call (Name "_die") [Constant (CInt 1); Constant (CStr "first")] [] 1]
           (Call (Name "_die") [Constant (CFloat (FFinite 1)); JoinedStr []] [] 2)
           [Call (Name "_die") [Constant (CInt 2); Name "msg"] [] 3;
            Name "_die"; Constant (CInt 1); Constant (CStr "first");
            Name "_die"; Constant (CFloat (FFinite 1)); JoinedStr [];
            Name "_die"; Constant (CInt 2); Name "msg"]
           (CFloat (FFinite 1)) (JoinedStr [])).
  - reflexivity.
  - by exists [], [], 2.
  - intros n' code' second' Hin (r & k & l & ->).
    repeat (apply elem_of_cons in Hin as [Hin|Hin]; [by simplify_eq|]).
    by apply elem_of_nil in Hin.
Defined.

(** One key for [1], [1.0] and [True], and one for [0], [-0.0], [0j]
    and [False]; a text is no bytes literal. *)
Example key_eqb_numbers :
  key_eqb (CInt 1) (CFloat (FFinite 1)) = true /\
  key_eqb (CFloat (FFinite (2 # 2))) (CBool true) = true /\
  key_eqb (CInt 0) (CFloat FNegZero) = true /\
  key_eqb (CImag (FFinite 0)) (CBool false) = true /\
  key_eqb (CImag (FFinite 1)) (CInt 1) = false /\
  key_eqb (CFloat (FFinite (1 # 2))) (CInt 0) = false /\
  key_eqb (CFloat (FInf false)) (CFloat (FInf true)) = false /\
  key_eqb (CStr "a") (CBytes "a") = false.
Proof. repeat split. Qed.

(** [_die(1, "a")] followed by [_die(1.0, "b")]: one entry, with the
    first key and the last message. *)
Example exit_codes_float :
  extract_exit_codes
    (Module [Call (Name "_die") [Constant (CInt 1); Constant (CStr "a")] [] 1;
             Call (Name "_die") [Constant (CFloat (FFinite 1)); Constant (CStr "b")] [] 2])
  = [(CInt 1, CStr "b")].
Proof. reflexivity. Qed.

End ProbeExits.

Section ProbeReads.
Import Probe.

Lemma collect_raises {A} (f : node -> result (list A)) nodes :
  (exists e, collect f nodes = Raises e) <-> exists n e, n ∈ nodes /\ f n = Raises e.
Proof.
  induction nodes as [|n nodes IH]; simpl.
  - split; [by intros [? ?] | by intros (? & ? & ?%elem_of_nil & _)].
  - destruct (f n) as [here|e0] eqn:Hn; simpl.
    + destruct (collect f nodes) as [later|e1]; simpl.
      * split; [by intros [? ?]|]. intros (n' & e & [->|Hin]%elem_of_cons & He); [congruence|].
        destruct (proj2 IH) as [? ?]; [eauto | done].
      * split; [intros _ | eauto]. destruct (proj1 IH) as (n' & e & ? & ?); [eauto|].
        exists n', e. split; [by right | done].
    + split; [intros _ | eauto]. exists n, e0. split; [by left | done].
Qed.

Lemma collect_returns {A} (f : node -> result (list A)) nodes l :
  collect f nodes = Returns l ->
  forall x, x ∈ l <-> exists n here, n ∈ nodes /\ f n = Returns here /\ x ∈ here.
Proof.
  revert l. induction nodes as [|n nodes IH]; simpl; intros l.
  - intros [= <-] x. split; [by intros ?%elem_of_nil | by intros (? & ? & ?%elem_of_nil & _)].
  - destruct (f n) as [here|e0] eqn:Hn; simpl; [|done].
    destruct (collect f nodes) as [later|e1]; simpl; [|done]. intros [= <-] x.
    rewrite elem_of_app, (IH later eq_refl). split.
    + intros [?|(n' & h & ? & ? & ?)]; [exists n, here | exists n', h]; split_and!; try done;
        [by left | by right].
    + intros (n' & h & [->|?]%elem_of_cons & Hf & ?); [left; congruence | right; eauto].
Qed.

(** The text recorded for the first argument of a bare [open] call. *)
Definition argument_text (L : Lib) (arg : node) : result string :=
  if has_unparse L then unparse L arg else Returns "unparseable".

Lemma file_reads_at_raises L n e :
  file_reads_at L n = Raises e <->
  exists arg rest keywords line,
    n = Call (Name "open") (arg :: rest) keywords line /\ argument_text L arg = Raises e.
Proof.
  unfold argument_text.
  destruct n as [| | | | |func args keywords line| | | | |];
    try (split; [done | by intros (? & ? & ? & ? & ? & _)]).
  destruct func as [| | | | | |id|value attr| | |];
    try (split; [by destruct args | by intros (? & ? & ? & ? & ? & _)]).
  destruct args as [|arg rest]; [split; [done | by intros (? & ? & ? & ? & ? & _)]|].
  simpl. case_bool_decide as Hid.
  - subst id. destruct (if has_unparse L then _ else _) as [text|e'] eqn:Harg; simpl.
    + split; [done|]. intros (? & ? & ? & ? & [= <- _ _ _] & ?). congruence.
    + split; [intros [= ->]; by exists arg, rest, keywords, line|].
      intros (? & ? & ? & ? & [= <- _ _ _] & ?). congruence.
  - split; [done|]. by intros (? & ? & ? & ? & [= ? _ _ _] & _).
Qed.

(** X8: [extract_all] raises exactly when the tree holds a call of the
    bare name [open] with an argument whose unparsing raises; a syntax
    error, a missing tree, or any other content never makes it raise. *)
Theorem extract_all_raises_iff :
  forall L self,
    (exists e, extract_all L self = Raises e) <->
    (exists t arg rest keywords line e,
       tree self = Some t /\
       subnode (Call (Name "open") (arg :: rest) keywords line) t /\
       has_unparse L = true /\ unparse L arg = Raises e).
Proof.
  intros L self. unfold extract_all.
  destruct (tree self) as [t|]; [|split; [by intros [? ?] | by intros (? & ? & ? & ? & ? & ? & ? & _)]].
  assert (Hreads : (exists e, extract_file_reads L t = Raises e) <->
            exists arg rest keywords line e,
              subnode (Call (Name "open") (arg :: rest) keywords line) t /\
              has_unparse L = true /\ unparse L arg = Raises e).
  { unfold extract_file_reads. rewrite collect_raises. split.
    - intros (n & e & Hn%walk_subnode & (arg & rest & kw & line & -> & Harg)%file_reads_at_raises).
      unfold argument_text in Harg. destruct (has_unparse L) eqn:Hu; [|done].
      by exists arg, rest, kw, line, e.
    - intros (arg & rest & kw & line & e & Hn & Hu & Harg).
      exists (Call (Name "open") (arg :: rest) kw line), e. split; [by apply walk_subnode|].
      apply file_reads_at_raises. exists arg, rest, kw, line. split; [done|].
      unfold argument_text. by rewrite Hu. }
  destruct (extract_file_reads L t) as [reads|e0]; simpl.
  - split; [by intros [? ?]|].
    intros (t' & arg & rest & kw & line & e & [= <-] & H).
    destruct (proj2 Hreads) as [? ?]; [by exists arg, rest, kw, line, e | done].
  - split; [intros _ | eauto].
    destruct (proj1 Hreads) as (arg & rest & kw & line & e & H); [eauto|].
    by exists t, arg, rest, kw, line, e.
Qed.

Ltac other_shape :=
  first [ by intros [_ (? & ? & ?)]
        | by intros [_ (? & ? & ? & ? & _)]
        | intros [_ (? & ? & ? & [= ? ? ? ?] & _)]; congruence ].

Lemma file_reads_at_returns L n reads :
  file_reads_at L n = Returns reads ->
  (forall operation variable line,
     ReadVariable operation variable line ∈ reads <->
     operation ∈ ["read_text"; "read_bytes"; "open"] /\
     exists args keywords, n = Call (Attribute (Name variable) operation) args keywords line) /\
  (forall operation argument line,
     ReadArgument operation argument line ∈ reads <->
     operation = "open" /\
     exists arg rest keywords,
       n = Call (Name "open") (arg :: rest) keywords line /\
       argument_text L arg = Returns argument).
Proof.
  unfold argument_text.
  destruct n as [| | | | |func args keywords line| | | | |];
    try (intros [= <-]; split; intros ? ? ?;
         (split; [by intros ?%elem_of_nil | other_shape])).
  destruct func as [| | | | | |id|value attr| | |];
    try (destruct args; intros [= <-]; split; intros ? ? ?;
         (split; [by intros ?%elem_of_nil | other_shape])).
  - (* a bare name *)
    destruct args as [|arg rest]; simpl.
    { intros [= <-]. split; intros ? ? ?; (split; [by intros ?%elem_of_nil | other_shape]). }
    case_bool_decide as Hid.
    + subst id. destruct (if has_unparse L then _ else _) as [text|e'] eqn:Harg; simpl; [|done].
      intros [= <-]. split; intros op x l.
      * split; [by intros ?%list_elem_of_singleton | other_shape].
      * rewrite list_elem_of_singleton. split.
        -- intros [= -> -> ->]. split; [done|]. by exists arg, rest, keywords.
        -- intros [-> (? & ? & ? & [= <- _ _] & ?)]. congruence.
    + intros [= <-]. split; intros ? ? ?; (split; [by intros ?%elem_of_nil | other_shape]).
  - (* an attribute *)
    destruct value as [| | | | | |id| | | |];
      try (destruct args; intros [= <-]; split; intros ? ? ?;
           (split; [by intros ?%elem_of_nil | other_shape])).
    assert (Hret : file_reads_at L (Call (Attribute (Name id) attr) args keywords line)
              = Returns (if bool_decide (attr ∈ ["read_text"; "read_bytes"; "open"])
                         then [ReadVariable attr id line] else [])) by by destruct args.
    rewrite Hret. intros [= <-]. split; intros op x l.
    + case_bool_decide as Hattr.
      * rewrite list_elem_of_singleton. split.
        -- intros [= -> -> ->]. split; [done | by exists args, keywords].
        -- by intros [_ (? & ? & [= -> -> _ _ ->])].
      * split; [by intros ?%elem_of_nil|]. intros [? (? & ? & [= -> -> _ _ ->])]. done.
    + split; [|other_shape].
      case_bool_decide; [by intros ?%list_elem_of_singleton | by intros ?%elem_of_nil].
Qed.

(** X9: when [extract_file_reads] returns, it lists a variable read for
    exactly the calls [name.read_text(...)], [name.read_bytes(...)] and
    [name.open(...)] on a bare name, and an argument read for exactly
    the calls of the bare name [open] with at least one argument,
    holding the text of the first one; a method call on anything but a
    bare name, and [open()] without arguments, are not listed. *)
Theorem extract_file_reads_spec :
  forall L t reads,
    extract_file_reads L t = Returns reads ->
    (forall operation variable line,
       ReadVariable operation variable line ∈ reads <->
       operation ∈ ["read_text"; "read_bytes"; "open"] /\
       exists args keywords,
         subnode (Call (Attribute (Name variable) operation) args keywords line) t) /\
    (forall operation argument line,
       ReadArgument operation argument line ∈ reads <->
       operation = "open" /\
       exists arg rest keywords,
         subnode (Call (Name "open") (arg :: rest) keywords line) t /\
         (if has_unparse L then unparse L arg else Returns "unparseable") = Returns argument).
Proof.
  intros L t reads Hreads. unfold extract_file_reads in Hreads.
  pose proof (collect_returns _ _ _ Hreads) as Hin. split; intros op x line; rewrite Hin.
  - split.
    + intros (n & here & Hn%walk_subnode & Hf & Hx).
      apply (file_reads_at_returns L n here Hf) in Hx as [? (args & kw & ->)]. eauto.
    + intros [Hop (args & kw & Hn)].
      destruct (file_reads_at L (Call (Attribute (Name x) op) args kw line)) as [here|] eqn:Hf;
        [|by destruct args].
      eexists _, here. split_and!; [by apply walk_subnode | done|].
      apply (file_reads_at_returns L _ here Hf). eauto.
  - split.
    + intros (n & here & Hn%walk_subnode & Hf & Hx).
      apply (file_reads_at_returns L n here Hf) in Hx as [? (arg & rest & kw & -> & ?)].
      split; [done|]. by exists arg, rest, kw.
    + intros [-> (arg & rest & kw & Hn & Harg)].
      assert (Hf : file_reads_at L (Call (Name "open") (arg :: rest) kw line)
                = Returns [ReadArgument "open" x line]).
      { simpl. by rewrite Harg. }
      eexists _, _. split_and!; [by apply walk_subnode | exact Hf | by left].
Qed.

(** [cfg.read_text()], [self.p.read_text()], [open(path, "r")] and
    [open()]. *)
Definition some_reads : node :=
  Module [Call (Attribute (Name "cfg") "read_text") [] [] 1;
          Call (Attribute (Attribute (Name "self") "p") "read_text") [] [] 2;
          Call (Name "open") [Name "path"; Constant (CStr "r")] [] 3;
          Call (Name "open") [] [] 4].

Lemma extract_file_reads_spec_witness :
  extract_file_reads Fixtures.basic_lib some_reads
    = Returns [ReadVariable "read_text" "cfg" 1; ReadArgument "open" "path" 3] /\
  (ReadVariable "read_text" "self" 2 ∈ [ReadVariable "read_text" "cfg" 1; ReadArgument "open" "path" 3]
   <-> "read_text" ∈ ["read_text"; "read_bytes"; "open"] /\
       exists args keywords,
         subnode (Call (Attribute (Name "self") "read_text") args keywords 2) some_reads).
Proof.
  split; [reflexivity|].
  apply (extract_file_reads_spec Fixtures.basic_lib some_reads
           [ReadVariable "read_text" "cfg" 1; ReadArgument "open" "path" 3] eq_refl).
Defined.

(** X10: [analyze_boot_file] returns the one-key error surface exactly
    when the file's text is read and [ast.parse] rejects it with a
    [SyntaxError], and the surface then carries that error's message;
    the fallback text ["Unknown parse error"] is never used. *)
Theorem analyze_boot_file_error_surface :
  forall L boot_path msg,
    analyze_boot_file L boot_path = Returns (ErrorSurface msg) <->
    exists src, Audit.read_text L boot_path = Returns src /\
                ast_parse L src = Raises (SyntaxError msg).
Proof.
  intros L boot_path msg. unfold analyze_boot_file. rewrite bind_returns. split.
  - intros (src & Hread & H). exists src. split; [done|].
    apply bind_returns in H as (self & Hself & H). unfold BootCapabilityExtractor in Hself.
    destruct (ast_parse L src) as [t|[]]; simplify_eq; unfold extract_all in H; simpl in H.
    + destruct (extract_file_reads L t); simplify_eq.
    + by simplify_eq.
  - intros (src & Hread & Hparse). exists src. split; [done|].
    unfold BootCapabilityExtractor. by rewrite Hparse.
Qed.

End ProbeReads.

(** * Further properties of the auditor *)

Section AnalyzerMore.
Import Audit.

(** X11: [calls_function] answers true exactly when the boot file parsed
    and its tree holds, at any depth, a call whose callee is the bare
    name; a method call [obj.name(...)] does not count, and a boot file
    with a syntax error calls nothing. *)
Theorem calls_function_spec :
  forall self func_name,
    calls_function self func_name = true <->
    exists t args keywords line,
      tree self = Some t /\ subnode (Call (Name func_name) args keywords line) t.
Proof.
  intros self f. unfold calls_function. destruct (tree self) as [t|].
  2:{ split; [done | by intros (? & ? & ? & ? & ? & _)]. }
  rewrite existsb_exists. split.
  - intros (n & Hn%list_elem_of_In%walk_subnode & Hcall).
    destruct n as [| | | | |func args keywords line| | | | |]; try done.
    destruct func as [| | | | | |id| | | |]; try done.
    apply bool_decide_eq_true in Hcall as ->. by exists t, args, keywords, line.
  - intros (t' & args & keywords & line & [= <-] & Hn).
    exists (Call (Name f) args keywords line).
    split; [by apply list_elem_of_In, walk_subnode | by apply bool_decide_eq_true].
Qed.

(** X12: for a boot file that parsed, the [imports] of the capability
    surface are the import list of [BootAnalyzer.extract_imports] with
    duplicates removed and sorted. *)
Theorem probe_imports_of_analyzer :
  forall L self t,
    set_iter_ok (set_iter L) ->
    tree self = Some t ->
    Probe.extract_imports L t = sorted (remove_dups (extract_imports self)).
Proof.
  intros L self t Hok Ht. unfold Probe.extract_imports, extract_imports. rewrite Ht.
  apply sorted_set_iter; [done | exact remove_dups_ok].
Qed.

Lemma probe_imports_of_analyzer_witness :
  set_iter_ok (set_iter (with_set_iter Fixtures.basic_lib (fun l => reverse (remove_dups l)))) /\
  Probe.extract_imports (with_set_iter Fixtures.basic_lib (fun l => reverse (remove_dups l)))
    (Module [Import ["os"; "json"]; ImportFrom (Some "os") ["path"]])
  = sorted (remove_dups
      (extract_imports {| source := "import os, json; from os import path";
                          tree := Some (Module [Import ["os"; "json"]; ImportFrom (Some "os") ["path"]]);
                          parse_error := None |})).
Proof.
  split; [exact reverse_remove_dups_ok|].
  apply (probe_imports_of_analyzer
           (with_set_iter Fixtures.basic_lib (fun l => reverse (remove_dups l)))
           {| source := "import os, json; from os import path";
              tree := Some (Module [Import ["os"; "json"]; ImportFrom (Some "os") ["path"]]);
              parse_error := None |}
           (Module [Import ["os"; "json"]; ImportFrom (Some "os") ["path"]])
           reverse_remove_dups_ok eq_refl).
Defined.

End AnalyzerMore.

Section GateMore.
Import Audit.

Definition gate_files_unwired (gate_files : directory) : Finding :=
  [("component", VStr "Gate files");
   ("count", VInt (length gate_files));
   ("files", VList (map fst (take 10 gate_files)));
   ("reason", VStr "Gate files exist but are not imported by BOOT_METABLOOMS.py");
   ("evidence", VStr ("Found " +:+ pretty (length gate_files)
                        +:+ " gate files, 0 gate imports in boot"))].

Lemma check_gate_wiring_unwired L d r a :
  glob "*gate*.py" (Some (Dir d)) <> [] ->
  exists_ "BOOT_METABLOOMS.py" d = true ->
  new_BootAnalyzer L (lookup "BOOT_METABLOOMS.py" d) = Returns a ->
  filter (fun imp => contains "gate" (lower imp)) (extract_imports a) = [] ->
  check_gate_wiring L d r
    = Returns (append_unwired (gate_files_unwired (glob "*gate*.py" (Some (Dir d)))) r).
Proof.
  intros Hgate Hboot Ha Himp. unfold check_gate_wiring.
  destruct (glob "*gate*.py" (Some (Dir d))) as [|g gs] eqn:Hg; [done|].
  rewrite Hboot. cbn [negb]. rewrite Ha. cbn [mbind result_bind Py.bind].
  by rewrite Himp.
Qed.

(** X13: when gate files exist and the boot file imports no module
    whose name contains [gate], the unwired finding counts all the gate
    files but samples at most ten of their names: the first ten, in
    listing order. *)
Theorem gate_files_sample_capped :
  forall L d r a,
    glob "*gate*.py" (Some (Dir d)) <> [] ->
    exists_ "BOOT_METABLOOMS.py" d = true ->
    new_BootAnalyzer L (lookup "BOOT_METABLOOMS.py" d) = Returns a ->
    filter (fun imp => contains "gate" (lower imp)) (extract_imports a) = [] ->
    exists f sample,
      check_gate_wiring L d r = Returns (append_unwired f r) /\
      field "count" f = Some (VInt (length (glob "*gate*.py" (Some (Dir d))))) /\
      field "files" f = Some (VList sample) /\
      sample `prefix_of` map fst (glob "*gate*.py" (Some (Dir d))) /\
      length sample = min 10 (length (glob "*gate*.py" (Some (Dir d)))).
Proof.
  intros L d r a Hgate Hboot Ha Himp.
  exists (gate_files_unwired (glob "*gate*.py" (Some (Dir d)))),
         (map fst (take 10 (glob "*gate*.py" (Some (Dir d))))).
  split; [by apply (check_gate_wiring_unwired L d r a)|]. split_and!; try reflexivity.
  - rewrite <- (take_drop 10 (glob "*gate*.py" (Some (Dir d)))) at 2.
    rewrite map_app. by apply prefix_app_r.
  - by rewrite length_map, length_take.
Qed.

(** An empty boot file and eleven gate files. *)
Definition eleven_gates : directory :=
  ("BOOT_METABLOOMS.py", File "") ::
  map (fun n => ("gate_" +:+ pretty n +:+ ".py", File ""))
      [1; 2; 3; 4; 5; 6; 7; 8; 9; 10; 11]%nat.

Lemma gate_files_sample_capped_witness :
  exists f sample,
    check_gate_wiring Fixtures.basic_lib eleven_gates empty_report
      = Returns (append_unwired f empty_report) /\
    field "count" f = Some (VInt (length (glob "*gate*.py" (Some (Dir eleven_gates))))) /\
    field "files" f = Some (VList sample) /\
    sample `prefix_of` map fst (glob "*gate*.py" (Some (Dir eleven_gates))) /\
    length sample = min 10 (length (glob "*gate*.py" (Some (Dir eleven_gates)))).
Proof.
  apply (gate_files_sample_capped Fixtures.basic_lib eleven_gates empty_report
           {| source := ""; tree := Some (Module []); parse_error := None |}).
  - vm_compute. discriminate.
  - reflexivity.
  - reflexivity.
  - reflexivity.
Defined.

Example eleven_gates_count :
  length (glob "*gate*.py" (Some (Dir eleven_gates))) = 11.
Proof. vm_compute. reflexivity. Qed.

(** X14: when gate files exist and the boot file has a syntax error, the
    gate check does not report the parse failure: it finds no import
    and files the gate files as present but unwired. *)
Theorem gate_check_on_syntax_error :
  forall L d r src msg,
    glob "*gate*.py" (Some (Dir d)) <> [] ->
    read_text L (lookup "BOOT_METABLOOMS.py" d) = Returns src ->
    ast_parse L src = Raises (SyntaxError msg) ->
    check_gate_wiring L d r
      = Returns (append_unwired (gate_files_unwired (glob "*gate*.py" (Some (Dir d)))) r).
Proof.
  intros L d r src msg Hgate Hread Hparse.
  apply (check_gate_wiring_unwired L d r {| source := src; tree := None; parse_error := Some msg |}).
  - done.
  - by eapply read_text_exists.
  - unfold new_BootAnalyzer. rewrite Hread. cbn [mbind result_bind Py.bind]. by rewrite Hparse.
  - done.
Qed.

Definition broken_boot_lib : Lib :=
  Fixtures.table_lib [("def boot(:", Raises (SyntaxError "invalid syntax (<unknown>, line 1)"))] [] [].

Lemma gate_check_on_syntax_error_witness :
  check_gate_wiring broken_boot_lib
    [("BOOT_METABLOOMS.py", File "def boot(:"); ("csrg_gate.py", File "")] empty_report
  = Returns (append_unwired
      (gate_files_unwired
         (glob "*gate*.py"
            (Some (Dir [("BOOT_METABLOOMS.py", File "def boot(:"); ("csrg_gate.py", File "")]))))
      empty_report).
Proof.
  apply (gate_check_on_syntax_error broken_boot_lib
           [("BOOT_METABLOOMS.py", File "def boot(:"); ("csrg_gate.py", File "")] empty_report
           "def boot(:" "invalid syntax (<unknown>, line 1)").
  - vm_compute. discriminate.
  - reflexivity.
  - reflexivity.
Defined.

End GateMore.

Section IndexSchemaMore.
Import Audit.

(** X15: the index check looks at nothing but [RUNTIME_INDEX.json]:
    writing any other entry of the bundle root, the boot file included,
    leaves its outcome unchanged, so an index that the boot file does
    load is still filed as present but unwired. *)
Theorem check_index_usage_frame :
  forall L d r name x,
    name <> "RUNTIME_INDEX.json" ->
    check_index_usage L (put name x d) r = check_index_usage L d r.
Proof.
  intros L d r name x Hne. unfold check_index_usage, exists_. by rewrite !lookup_put_ne.
Qed.

Definition index_only : directory := [("RUNTIME_INDEX.json", File "{}")].

Lemma check_index_usage_frame_witness :
  check_index_usage Fixtures.basic_lib
    (put "BOOT_METABLOOMS.py" (File "json.load(open('RUNTIME_INDEX.json'))") index_only)
    empty_report
  = check_index_usage Fixtures.basic_lib index_only empty_report.
Proof.
  apply (check_index_usage_frame Fixtures.basic_lib index_only empty_report
           "BOOT_METABLOOMS.py" (File "json.load(open('RUNTIME_INDEX.json'))")).
  discriminate.
Defined.

Example index_loaded_by_boot_still_unwired :
  check_index_usage Fixtures.basic_lib
    (put "BOOT_METABLOOMS.py" (File "json.load(open('RUNTIME_INDEX.json'))") index_only)
    empty_report
  = Returns (append_unwired
      [("component", VStr "RUNTIME_INDEX.json");
       ("size_bytes", VInt 2);
       ("top_level_keys", VList []);
       ("reason", VStr "Index exists but is not referenced by BOOT_METABLOOMS.py");
       ("evidence", VStr "File exists, not loaded by boot")] empty_report).
Proof. vm_compute. reflexivity. Qed.

(** A Python file of the bundle root whose text can be read and mentions
    [jsonschema] or calls [validate(]. *)
Definition validating_file (L : Lib) (py_files : directory) : Prop :=
  exists name x src,
    (name, x) ∈ py_files /\ read_text L (Some x) = Returns src /\
    (contains "jsonschema" src = true \/ contains "validate(" src = true).

Lemma validates_schema_spec L py_files :
  validates_schema L py_files = true <-> validating_file L py_files.
Proof.
  unfold validating_file. induction py_files as [|[name x] rest IH].
  - split; [done | by intros (? & ? & ? & ?%elem_of_nil & _)].
  - cbn [validates_schema]. destruct (read_text L (Some x)) as [src|e] eqn:Hread.
    + destruct (contains "jsonschema" src || contains "validate(" src) eqn:Hc.
      * split; [intros _ | done]. exists name, x, src.
        split_and!; [by left | done | by apply orb_true_iff].
      * rewrite IH. apply orb_false_iff in Hc as [Hc1 Hc2]. split.
        -- intros (n & y & s & ? & ? & ?). exists n, y, s. split_and!; [by right | done..].
        -- intros (n & y & s & [[= -> ->]|?]%elem_of_cons & Hr & Hs).
           ++ rewrite Hread in Hr. injection Hr as <-. destruct Hs; congruence.
           ++ by exists n, y, s.
    + rewrite IH. split.
      * intros (n & y & s & ? & ? & ?). exists n, y, s. split_and!; [by right | done..].
      * intros (n & y & s & [[= -> ->]|?]%elem_of_cons & Hr & Hs); [congruence|].
        by exists n, y, s.
Qed.

Lemma append_unwired_changes f r : append_unwired f r <> r.
Proof.
  intros H. apply (f_equal (fun x => length (present_but_unwired x))) in H.
  simpl in H. rewrite length_app in H. simpl in H. lia.
Qed.

(** X16: with a [schemas] entry in the bundle, the schema check leaves
    the report as it was exactly when [schemas] holds no [*.json] file
    (also when it is not a directory) or some Python file of the bundle
    root can be read and mentions [jsonschema] or [validate(]; in every
    other case it appends one unwired finding, whose count is the number
    of schema files.  Python files in sub-directories are not searched. *)
Theorem check_schema_usage_silent_iff :
  forall L d r,
    exists_ "schemas" d = true ->
    (check_schema_usage L d r = Returns r <->
       glob "*.json" (lookup "schemas" d) = [] \/
       validating_file L (glob "*.py" (Some (Dir d)))) /\
    (check_schema_usage L d r <> Returns r ->
       exists f, check_schema_usage L d r = Returns (append_unwired f r) /\
                 field "count" f = Some (VInt (length (glob "*.json" (lookup "schemas" d))))).
Proof.
  intros L d r Hex. unfold check_schema_usage. rewrite Hex. cbn [negb].
  rewrite <- validates_schema_spec.
  destruct (glob "*.json" (lookup "schemas" d)) as [|s ss] eqn:Hs.
  - split; [split; [by left | done] | done].
  - destruct (validates_schema L (glob "*.py" (Some (Dir d)))); cbn [negb].
    + split; [split; [by right | done] | done].
    + split.
      * split; [intros [= H]; by apply append_unwired_changes in H | by intros [?|?]].
      * intros _. eexists. split; [reflexivity | reflexivity].
Qed.

(** Six schema files, and validation code only in a sub-directory. *)
Definition six_schemas : directory :=
  [("schemas", Dir (map (fun n => ("s" +:+ pretty n +:+ ".json", File "{}")) [1; 2; 3; 4; 5; 6]%nat));
   ("main.py", File "print('x')");
   ("tools", Dir [("check.py", File "import jsonschema")])].

Lemma check_schema_usage_silent_iff_witness :
  exists_ "schemas" six_schemas = true /\
  (check_schema_usage Fixtures.basic_lib six_schemas empty_report <> Returns empty_report ->
   exists f,
     check_schema_usage Fixtures.basic_lib six_schemas empty_report
       = Returns (append_unwired f empty_report) /\
     field "count" f = Some (VInt (length (glob "*.json" (lookup "schemas" six_schemas))))).
Proof.
  split; [reflexivity|].
  exact (proj2 (check_schema_usage_silent_iff Fixtures.basic_lib six_schemas empty_report eq_refl)).
Defined.

Example six_schemas_unwired :
  present_but_unwired <$>
    (match check_schema_usage Fixtures.basic_lib six_schemas empty_report with
     | Returns r => Some r | Raises _ => None end)
  = Some [[("component", VStr "JSON schemas");
           ("count", VInt 6);
           ("files", VList ["s1.json"; "s2.json"; "s3.json"; "s4.json"; "s5.json"; "s6.json"]);
           ("reason", VStr "Schema files exist but no validation code found");
           ("evidence", VStr "6 schemas, 0 jsonschema imports")]].
Proof. vm_compute. reflexivity. Qed.

End IndexSchemaMore.

Section RunMore.
Import Audit.

(** The findings of one bucket. *)
Definition bucket_of (b : bucket) (r : AuditReport) : list Finding :=
  match b with
  | Verified => verified_implementations r
  | Unwired => present_but_unwired r
  | Missing => missing r
  | Unverifiable => unverifiable r
  end.

Lemma bucket_of_append b b' f r x :
  x ∈ bucket_of b (append_to b' f r) -> x ∈ bucket_of b r \/ (b = b' /\ x = f).
Proof.
  destruct b, b'; simpl; rewrite ?elem_of_app, ?list_elem_of_singleton; tauto.
Qed.

Lemma appended_bucket (P : bucket -> Finding -> Prop) r r' b x :
  appended P r r' -> x ∈ bucket_of b r' -> x ∈ bucket_of b r \/ P b x.
Proof.
  induction 1 as [|r' b' f _ IH HP]; [by left|].
  intros [?|[-> ->]]%bucket_of_append; [by apply IH | by right].
Qed.

Lemma within_components allowed b f :
  within allowed b f ->
  exists c, field "component" f = Some (VStr c) /\
            c ∈ (filter (fun p => p.1 = b) allowed).*2.
Proof.
  intros (c & Hc & Hin). exists c. split; [done|].
  apply list_elem_of_fmap. exists (b, c). split; [done|].
  by apply list_elem_of_filter.
Qed.

(** X17: in a report that [run] returns, a verified finding is about the
    boot file, the gate imports, the ledger or the manifest loading; an
    unwired finding is about the gate files, the schemas, the index or
    the manifest; and the only unverifiable finding is the CSRG one.
    The schemas, the index and the CSRG keyword are never reported as
    verified. *)
Theorem run_report_components :
  forall L self report,
    Audit.report self = empty_report ->
    run L self = Returns report ->
    (forall f, f ∈ verified_implementations report ->
       exists c, field "component" f = Some (VStr c) /\
         c ∈ ["BOOT_METABLOOMS.py"; "Gate imports"; "Ledger integration";
              "boot_manifest.json loading"]) /\
    (forall f, f ∈ present_but_unwired report ->
       exists c, field "component" f = Some (VStr c) /\
         c ∈ ["Gate files"; "JSON schemas"; "RUNTIME_INDEX.json"; "boot_manifest.json"]) /\
    (forall f, f ∈ unverifiable report -> field "component" f = Some (VStr "CSRG gate")).
Proof.
  intros L self report Hempty Hrun. unfold run in Hrun.
  apply bind_returns in Hrun as (d & _ & Hchecks). rewrite Hempty in Hchecks.
  apply run_checks_append in Hchecks.
  assert (Hb : forall b f, f ∈ bucket_of b report ->
            exists c, field "component" f = Some (VStr c) /\
                      c ∈ (filter (fun p => p.1 = b) run_footprint).*2).
  { intros b f Hf. destruct (appended_bucket _ _ _ b f Hchecks Hf) as [Hin|Hw].
    - destruct b; by apply elem_of_nil in Hin.
    - by apply within_components. }
  split_and!.
  - intros f Hf. exact (Hb Verified f Hf).
  - intros f Hf. exact (Hb Unwired f Hf).
  - intros f Hf. destruct (Hb Unverifiable f Hf) as (c & Hc & Hin).
    vm_compute in Hin. apply list_elem_of_singleton in Hin. by subst c.
Qed.

(** The report of the bundle with an empty boot file and an empty run
    file. *)
Definition plain_run_report : AuditReport :=
  Eval vm_compute in
    match run Fixtures.basic_lib (new_MetaBloomsAuditor plain_bundle) with
    | Returns r => r
    | Raises _ => empty_report
    end.

Lemma plain_run : run Fixtures.basic_lib (new_MetaBloomsAuditor plain_bundle) = Returns plain_run_report.
Proof. vm_compute. reflexivity. Qed.

Lemma run_report_components_witness :
  Audit.report (new_MetaBloomsAuditor plain_bundle) = empty_report /\
  run Fixtures.basic_lib (new_MetaBloomsAuditor plain_bundle) = Returns plain_run_report /\
  (forall f, f ∈ verified_implementations plain_run_report ->
     exists c, field "component" f = Some (VStr c) /\
       c ∈ ["BOOT_METABLOOMS.py"; "Gate imports"; "Ledger integration";
            "boot_manifest.json loading"]).
Proof.
  split; [reflexivity|]. split; [exact plain_run|].
  exact (proj1 (run_report_components Fixtures.basic_lib (new_MetaBloomsAuditor plain_bundle)
                  plain_run_report eq_refl plain_run)).
Defined.

(** [added] after [r], bucket by bucket. *)
Definition merge_reports (r added : AuditReport) : AuditReport :=
  {| verified_implementations := verified_implementations r ++ verified_implementations added;
     present_but_unwired := present_but_unwired r ++ present_but_unwired added;
     missing := missing r ++ missing added;
     spec_conflicts := spec_conflicts r ++ spec_conflicts added;
     unverifiable := unverifiable r ++ unverifiable added |}.

Lemma merge_reports_empty r : merge_reports r empty_report = r.
Proof. destruct r. unfold merge_reports. simpl. by rewrite !app_nil_r. Qed.

Lemma merge_reports_append b f r a : merge_reports r (append_to b f a) = append_to b f (merge_reports r a).
Proof. destruct b; unfold merge_reports; simpl; by rewrite app_assoc. Qed.

Lemma merge_reports_assoc r a b : merge_reports (merge_reports r a) b = merge_reports r (merge_reports a b).
Proof. unfold merge_reports. simpl. by rewrite !app_assoc. Qed.

(** A check whose additions do not depend on the report it is given. *)
Definition framed (check : AuditReport -> result AuditReport) : Prop :=
  forall r, check r = match check empty_report with
                      | Returns added => Returns (merge_reports r added)
                      | Raises e => Raises e
                      end.

Lemma framed_bind c1 c2 : framed c1 -> framed c2 -> framed (fun r => c1 r ≫= c2).
Proof.
  intros H1 H2 r. cbn beta. rewrite (H1 r).
  destruct (c1 empty_report) as [a1|e1]; cbn [mbind result_bind Py.bind]; [|done].
  rewrite (H2 (merge_reports r a1)), (H2 a1).
  destruct (c2 empty_report) as [a2|e2]; [|done]. by rewrite merge_reports_assoc.
Qed.

Ltac frame_cases :=
  intros r; unfold mbind, result_bind, Py.bind;
  repeat case_match; simplify_eq; try done;
  rewrite ?(merge_reports_append Verified), ?(merge_reports_append Unwired), ?(merge_reports_append Missing),
          ?(merge_reports_append Unverifiable), ?merge_reports_empty; try done.

Lemma check_boot_structure_framed L d : framed (check_boot_structure L d).
Proof. unfold framed, check_boot_structure. frame_cases. Qed.

Lemma check_delta_enforcement_framed L d : framed (check_delta_enforcement L d).
Proof. unfold framed, check_delta_enforcement. frame_cases. Qed.

Lemma check_gate_wiring_framed L d : framed (check_gate_wiring L d).
Proof. unfold framed, check_gate_wiring. frame_cases. Qed.

Lemma check_schema_usage_framed L d : framed (check_schema_usage L d).
Proof. unfold framed, check_schema_usage. frame_cases. Qed.

Lemma check_ledger_integration_framed L d : framed (check_ledger_integration L d).
Proof. unfold framed, check_ledger_integration. frame_cases. Qed.

Ltac frame_leaf :=
  cbv beta iota;
  rewrite ?(merge_reports_append Verified), ?(merge_reports_append Unwired), ?(merge_reports_append Missing),
          ?(merge_reports_append Unverifiable), ?merge_reports_empty;
  reflexivity.

Ltac frame_raise e := destruct e; frame_leaf.

Lemma check_index_usage_framed L d : framed (check_index_usage L d).
Proof.
  intros r. unfold check_index_usage.
  destruct (negb (exists_ "RUNTIME_INDEX.json" d)); [frame_leaf|].
  destruct (json_load L (lookup "RUNTIME_INDEX.json" d)) as [index_data|e];
    cbn [mbind result_bind Py.bind]; [|frame_raise e].
  destruct (keys index_data) as [top_level_keys|e];
    cbn [mbind result_bind Py.bind]; [frame_leaf | frame_raise e].
Qed.

Lemma check_csrg_presence_framed L d : framed (check_csrg_presence L d).
Proof. unfold framed, check_csrg_presence. frame_cases. Qed.

Lemma check_manifest_loading_framed L d : framed (check_manifest_loading L d).
Proof.
  intros r. unfold check_manifest_loading.
  destruct (negb (exists_ "boot_manifest.json" d)); [frame_leaf|].
  destruct (json_load L (lookup "boot_manifest.json" d)) as [manifest_data|e];
    cbn [mbind result_bind Py.bind]; [|frame_raise e].
  destruct (get manifest_data "preflight" (JArr [])) as [preflight|e];
    cbn [mbind result_bind Py.bind]; [|frame_raise e].
  destruct (exists_ "BOOT_METABLOOMS.py" d); [|frame_leaf].
  destruct (new_BootAnalyzer L (lookup "BOOT_METABLOOMS.py" d)) as [analyzer|e];
    cbn [mbind result_bind Py.bind]; [|frame_raise e].
  destruct (negb (loads_file analyzer "boot_manifest.json")); [|frame_leaf].
  destruct (len preflight) as [preflight_count|e];
    cbn [mbind result_bind Py.bind]; [frame_leaf | frame_raise e].
Qed.

Lemma run_checks_framed L d : framed (run_checks L d).
Proof.
  unfold run_checks.
  repeat (apply framed_bind;
          [first [ apply check_boot_structure_framed | apply check_delta_enforcement_framed
                 | apply check_gate_wiring_framed | apply check_schema_usage_framed
                 | apply check_ledger_integration_framed | apply check_index_usage_framed
                 | apply check_csrg_presence_framed ]|]).
  apply check_manifest_loading_framed.
Qed.

(** X18: the findings the checks add do not depend on the findings
    already recorded.  Running an auditor whose report is not empty
    gives that report followed, bucket by bucket, by what a fresh
    auditor reports for the same bundle, and raises whenever the fresh
    auditor raises. *)
Theorem run_appends_fresh_report :
  forall L self,
    run L self =
      match run L (new_MetaBloomsAuditor (zip_path self)) with
      | Returns added => Returns (merge_reports (Audit.report self) added)
      | Raises e => Raises e
      end.
Proof.
  intros L self. unfold run. cbn [Audit.zip_path Audit.report new_MetaBloomsAuditor].
  destruct (extractall (zip_path self)) as [d|e]; cbn [mbind result_bind Py.bind]; [|done].
  apply run_checks_framed.
Qed.

Example second_run_repeats_findings :
  run Fixtures.basic_lib {| zip_path := plain_bundle; report := plain_run_report |}
  = Returns (merge_reports plain_run_report plain_run_report).
Proof. vm_compute. reflexivity. Qed.

End RunMore.

Section RunCount.
Import Audit.

Definition findings_count (r : AuditReport) : nat := length (all_findings r).

Lemma findings_count_merge r a : findings_count (merge_reports r a) = findings_count r + findings_count a.
Proof. unfold findings_count, all_findings, merge_reports. simpl. rewrite !length_app. lia. Qed.

Lemma framed_returns check r r' :
  framed check -> check r = Returns r' ->
  exists added, check empty_report = Returns added /\ r' = merge_reports r added.
Proof.
  intros Hf H. rewrite (Hf r) in H. destruct (check empty_report) as [a|e]; [|done].
  injection H as <-. by exists a.
Qed.

Ltac count_cases :=
  intros H; unfold mbind, result_bind, Py.bind in H;
  repeat first [ progress simplify_eq/= | case_match ]; unfold findings_count; simpl; lia.

Lemma check_boot_structure_count L d a :
  check_boot_structure L d empty_report = Returns a -> findings_count a = 1.
Proof. unfold check_boot_structure. count_cases. Qed.

Lemma check_delta_enforcement_count L d a :
  check_delta_enforcement L d empty_report = Returns a -> findings_count a <= 2.
Proof. unfold check_delta_enforcement. count_cases. Qed.

Lemma check_gate_wiring_count L d a :
  check_gate_wiring L d empty_report = Returns a -> findings_count a <= 1.
Proof. unfold check_gate_wiring. count_cases. Qed.

Lemma check_schema_usage_count L d a :
  check_schema_usage L d empty_report = Returns a -> findings_count a <= 1.
Proof. unfold check_schema_usage. count_cases. Qed.

Lemma check_ledger_integration_count L d a :
  check_ledger_integration L d empty_report = Returns a -> findings_count a <= 1.
Proof. unfold check_ledger_integration. count_cases. Qed.

Lemma check_index_usage_count L d a :
  check_index_usage L d empty_report = Returns a -> findings_count a = 1.
Proof.
  unfold check_index_usage.
  destruct (negb (exists_ "RUNTIME_INDEX.json" d)); [by intros [= <-]|].
  destruct (json_load L (lookup "RUNTIME_INDEX.json" d)) as [index_data|e];
    cbn [mbind result_bind Py.bind]; [|by destruct e; intros [= <-]].
  destruct (keys index_data) as [top_level_keys|e];
    cbn [mbind result_bind Py.bind]; [by intros [= <-] | by destruct e; intros [= <-]].
Qed.

Lemma check_csrg_presence_count L d a :
  check_csrg_presence L d empty_report = Returns a -> findings_count a = 1.
Proof. unfold check_csrg_presence. count_cases. Qed.

Lemma check_manifest_loading_count L d a :
  check_manifest_loading L d empty_report = Returns a -> findings_count a <= 1.
Proof.
  unfold check_manifest_loading.
  destruct (negb (exists_ "boot_manifest.json" d)); [by intros [= <-]; vm_compute; lia|].
  destruct (json_load L (lookup "boot_manifest.json" d)) as [manifest_data|e];
    cbn [mbind result_bind Py.bind]; [|by destruct e; intros [= <-]; vm_compute; lia].
  destruct (get manifest_data "preflight" (JArr [])) as [preflight|e];
    cbn [mbind result_bind Py.bind]; [|by destruct e; intros [= <-]; vm_compute; lia].
  destruct (exists_ "BOOT_METABLOOMS.py" d); [|by intros [= <-]; vm_compute; lia].
  destruct (new_BootAnalyzer L (lookup "BOOT_METABLOOMS.py" d)) as [analyzer|e];
    cbn [mbind result_bind Py.bind]; [|by destruct e; intros [= <-]; vm_compute; lia].
  destruct (negb (loads_file analyzer "boot_manifest.json")); [|by intros [= <-]; vm_compute; lia].
  destruct (len preflight) as [preflight_count|e];
    cbn [mbind result_bind Py.bind];
    [by intros [= <-]; unfold findings_count; simpl; lia | by destruct e; intros [= <-]; vm_compute; lia].
Qed.

(** X19: a report that a fresh auditor returns holds at least three and
    at most nine findings: the boot-structure, index and CSRG checks add
    exactly one each, the delta check at most two, and each of the
    other four at most one. *)
Theorem run_report_size :
  forall L self report,
    Audit.report self = empty_report ->
    run L self = Returns report ->
    3 <= length (all_findings report) <= 9.
Proof.
  intros L self report Hempty Hrun. unfold run in Hrun.
  apply bind_returns in Hrun as (d & _ & H). rewrite Hempty in H. unfold run_checks in H.
  apply bind_returns in H as (r1 & H1%check_boot_structure_count & H).
  apply bind_returns in H as (r2 & H2 & H).
  apply (framed_returns _ _ _ (check_delta_enforcement_framed L d)) in H2
    as (a2 & H2%check_delta_enforcement_count & ->).
  apply bind_returns in H as (r3 & H3 & H).
  apply (framed_returns _ _ _ (check_gate_wiring_framed L d)) in H3
    as (a3 & H3%check_gate_wiring_count & ->).
  apply bind_returns in H as (r4 & H4 & H).
  apply (framed_returns _ _ _ (check_schema_usage_framed L d)) in H4
    as (a4 & H4%check_schema_usage_count & ->).
  apply bind_returns in H as (r5 & H5 & H).
  apply (framed_returns _ _ _ (check_ledger_integration_framed L d)) in H5
    as (a5 & H5%check_ledger_integration_count & ->).
  apply bind_returns in H as (r6 & H6 & H).
  apply (framed_returns _ _ _ (check_index_usage_framed L d)) in H6
    as (a6 & H6%check_index_usage_count & ->).
  apply bind_returns in H as (r7 & H7 & H).
  apply (framed_returns _ _ _ (check_csrg_presence_framed L d)) in H7
    as (a7 & H7%check_csrg_presence_count & ->).
  apply (framed_returns _ _ _ (check_manifest_loading_framed L d)) in H
    as (a8 & H8%check_manifest_loading_count & ->).
  fold (findings_count (merge_reports (merge_reports (merge_reports (merge_reports (merge_reports (merge_reports (merge_reports r1 a2) a3) a4) a5) a6) a7) a8)).
  rewrite !findings_count_merge. lia.
Qed.

Lemma run_report_size_witness :
  Audit.report (new_MetaBloomsAuditor plain_bundle) = empty_report /\
  run Fixtures.basic_lib (new_MetaBloomsAuditor plain_bundle) = Returns plain_run_report /\
  3 <= length (all_findings plain_run_report) <= 9.
Proof.
  split; [reflexivity|]. split; [exact plain_run|].
  exact (run_report_size Fixtures.basic_lib (new_MetaBloomsAuditor plain_bundle)
           plain_run_report eq_refl plain_run).
Defined.

(** A bundle on which only three checks speak: no boot file, a gate
    file, an empty [schemas] directory, an index and a manifest that are
    empty objects. *)
Definition quiet_bundle : bundle :=
  Returns [{| filename := "x_gate.py"; payload := Returns "" |};
           {| filename := "schemas/"; payload := Returns "" |};
           {| filename := "RUNTIME_INDEX.json"; payload := Returns "{}" |};
           {| filename := "boot_manifest.json"; payload := Returns "{}" |}].

Example quiet_bundle_three_findings :
  (fun r => length (all_findings r)) <$>
    (match run Fixtures.basic_lib (new_MetaBloomsAuditor quiet_bundle) with
     | Returns r => Some r | Raises _ => None end) = Some 3.
Proof. vm_compute. reflexivity. Qed.

(** X20: an unwired manifest finding records the manifest's [preflight]
    value, or the empty list when the manifest has no such key, and its
    count is the length of that value: the number of items of a list,
    of members of an object, or of characters of a string. *)
Theorem manifest_preflight_count :
  forall L d r r' f,
    check_manifest_loading L d r = Returns r' ->
    f ∈ present_but_unwired r' ->
    f ∈ present_but_unwired r \/
    exists members preflight n,
      json_load L (lookup "boot_manifest.json" d) = Returns (JObj members) /\
      preflight = default (JArr []) (assoc "preflight" members) /\
      field "preflight_gates" f = Some (VJson preflight) /\
      field "preflight_count" f = Some (VInt n) /\
      ((exists items, preflight = JArr items /\ n = length items) \/
       (exists entries, preflight = JObj entries /\ n = length entries) \/
       (exists s, preflight = JStr s /\ n = str_len s)).
Proof.
  intros L d r r' f. unfold check_manifest_loading.
  destruct (negb (exists_ "boot_manifest.json" d)); [intros [= <-]; by left|].
  destruct (json_load L (lookup "boot_manifest.json" d)) as [manifest_data|e];
    cbn [mbind result_bind Py.bind]; [|destruct e; intros [= <-]; by left].
  destruct manifest_data as [| | | | | |members];
    try (cbn [get mbind result_bind Py.bind]; by intros [=]).
  cbn [get mbind result_bind Py.bind].
  destruct (exists_ "BOOT_METABLOOMS.py" d); [|intros [= <-]; by left].
  destruct (new_BootAnalyzer L (lookup "BOOT_METABLOOMS.py" d)) as [analyzer|e];
    cbn [mbind result_bind Py.bind]; [|destruct e; intros [= <-]; by left].
  destruct (negb (loads_file analyzer "boot_manifest.json")); [|intros [= <-]; by left].
  destruct (len (default (JArr []) (assoc "preflight" members))) as [n|e] eqn:Hlen;
    cbn [mbind result_bind Py.bind]; [|destruct e; intros [= <-]; by left].
  intros [= <-]. cbn [present_but_unwired append_unwired].
  intros [?| ->%list_elem_of_singleton]%elem_of_app; [by left|]. right.
  exists members, (default (JArr []) (assoc "preflight" members)), n.
  split; [done|]. split; [done|]. split; [done|]. split; [done|].
  destruct (default (JArr []) (assoc "preflight" members)) as [| | | |s|items|entries];
    simpl in Hlen; simplify_eq; eauto.
Qed.

(** The manifest text [{"preflight": "abc"}] with a string where a list
    is expected. *)
Definition string_preflight : string :=
  "{" +:+ dquote +:+ "preflight" +:+ dquote +:+ ": " +:+ dquote +:+ "abc" +:+ dquote +:+ "}".

Definition string_preflight_lib : Lib :=
  Fixtures.table_lib [("", Returns (Module []))]
    [(string_preflight, Returns (JObj [("preflight", JStr "abc")]))] [].

Definition string_preflight_finding : Finding :=
  [("component", VStr "boot_manifest.json");
   ("preflight_count", VInt 3);
   ("preflight_gates", VJson (JStr "abc"));
   ("reason", VStr "Manifest exists with preflight gates, but BOOT_METABLOOMS.py never loads it");
   ("evidence", VStr "Source analysis: 0 references to 'boot_manifest'")].

Lemma manifest_preflight_count_witness :
  check_manifest_loading string_preflight_lib
    [("BOOT_METABLOOMS.py", File ""); ("boot_manifest.json", File string_preflight)] empty_report
    = Returns (append_unwired string_preflight_finding empty_report) /\
  (string_preflight_finding ∈ present_but_unwired empty_report \/
   exists members preflight n,
     json_load string_preflight_lib
       (lookup "boot_manifest.json"
          [("BOOT_METABLOOMS.py", File ""); ("boot_manifest.json", File string_preflight)])
       = Returns (JObj members) /\
     preflight = default (JArr []) (assoc "preflight" members) /\
     field "preflight_gates" string_preflight_finding = Some (VJson preflight) /\
     field "preflight_count" string_preflight_finding = Some (VInt n) /\
     ((exists items, preflight = JArr items /\ n = length items) \/
      (exists entries, preflight = JObj entries /\ n = length entries) \/
      (exists s, preflight = JStr s /\ n = str_len s))).
Proof.
  split; [reflexivity|].
  apply (manifest_preflight_count string_preflight_lib
           [("BOOT_METABLOOMS.py", File ""); ("boot_manifest.json", File string_preflight)]
           empty_report (append_unwired string_preflight_finding empty_report)
           string_preflight_finding).
  - reflexivity.
  - cbn [present_but_unwired append_unwired empty_report app]. by left.
Defined.

(** The two characters of the euro sign followed by an e with acute
    accent are five bytes. *)
Example str_len_characters :
  let text := String (ascii_of_nat 226) (String (ascii_of_nat 130) (String (ascii_of_nat 172)
                (String (ascii_of_nat 195) (String (ascii_of_nat 169) EmptyString)))) in
  String.length text = 5 /\ len (JStr text) = Returns 2 /\ len (JStr "abc") = Returns 3.
Proof. repeat split. Qed.

End RunCount.

Section GlobMore.
Import Audit.

Lemma fnmatch_empty name : fnmatch "" name = true <-> name = "".
Proof. by destruct name. Qed.

(** A star matches any text, the empty one included. *)
Lemma fnmatch_star pat name :
  fnmatch (String "*" pat) name = true <->
  exists skipped rest, name = skipped +:+ rest /\ fnmatch pat rest = true.
Proof.
  cbn [fnmatch]. destruct (ascii_dec "*" "*") as [_|?]; [|done].
  induction name as [|c name IH].
  - rewrite orb_false_r. split.
    + intros H. by exists "", "".
    + intros (skipped & rest & Heq & H). by destruct skipped, rest.
  - rewrite orb_true_iff, IH. split.
    + intros [H|(skipped & rest & -> & H)].
      * by exists "", (String c name).
      * by exists (String c skipped), rest.
    + intros (skipped & rest & Heq & H). destruct skipped as [|c' skipped].
      * left. change ("" +:+ rest) with rest in Heq. by subst rest.
      * right. rewrite append_cons in Heq. injection Heq as -> ->. by exists skipped, rest.
Qed.

(** Any other character of the pattern matches itself. *)
Lemma fnmatch_char c pat name :
  c <> "*"%char ->
  fnmatch (String c pat) name = true <-> exists rest, name = String c rest /\ fnmatch pat rest = true.
Proof.
  intros Hc. cbn [fnmatch]. destruct (ascii_dec c "*") as [?|_]; [done|].
  destruct name as [|c' name]; [split; [done | by intros (? & ? & _)]|].
  destruct (ascii_dec c c') as [<-|Hne].
  - split; [intros H; by exists name | by intros (rest & [= <-] & H)].
  - split; [done | intros (rest & [= ? _] & _); done].
Qed.

Lemma gate_pattern_spec name :
  fnmatch "*gate*.py" name = true <->
  exists before after, name = before +:+ "gate" +:+ after +:+ ".py".
Proof.
  rewrite fnmatch_star. split.
  - intros (before & r0 & -> & H).
    apply fnmatch_char in H as (r1 & -> & H); [|done].
    apply fnmatch_char in H as (r2 & -> & H); [|done].
    apply fnmatch_char in H as (r3 & -> & H); [|done].
    apply fnmatch_char in H as (r4 & -> & H); [|done].
    apply fnmatch_star in H as (after & r5 & -> & H).
    apply fnmatch_char in H as (r6 & -> & H); [|done].
    apply fnmatch_char in H as (r7 & -> & H); [|done].
    apply fnmatch_char in H as (r8 & -> & H); [|done].
    apply fnmatch_empty in H as ->. by exists before, after.
  - intros (before & after & ->). exists before, ("gate" +:+ after +:+ ".py"). split; [done|].
    do 4 (apply fnmatch_char; [done|]; eexists; split; [reflexivity|]).
    apply fnmatch_star. exists after, ".py". split; [done|]. reflexivity.
Qed.

(** X21: the gate files of the gate check are the entries of the bundle
    root, files or directories, whose name is some text, [gate], some
    text, [.py], with the letters in exactly this case; entries of
    sub-directories are not gate files. *)
Theorem gate_files_spec :
  forall d name x,
    (name, x) ∈ glob "*gate*.py" (Some (Dir d)) <->
    (name, x) ∈ d /\ exists before after, name = before +:+ "gate" +:+ after +:+ ".py".
Proof.
  intros d name x. unfold glob. rewrite list_elem_of_filter. cbn [fst].
  rewrite Is_true_true, gate_pattern_spec. tauto.
Qed.

Example gate_files_example :
  map fst (glob "*gate*.py"
             (Some (Dir [("gate.py", File ""); ("CSRG_GATE.py", File ""); ("csrg_gate_v2.py", Dir []);
                         ("gate.pyc", File ""); ("pkg", Dir [("inner_gate.py", File "")])])))
  = ["gate.py"; "csrg_gate_v2.py"].
Proof. vm_compute. reflexivity. Qed.

End GlobMore.

Section ExtractionMore.
Import Audit.

Lemma extract_members_app zf members name d :
  extract_members zf (members ++ [name]) d
  = extract_members zf members d ≫=
      (fun d' => match getinfo zf name with
                 | Some member => extract_member member d'
                 | None => Raises (OtherError "KeyError")
                 end).
Proof.
  revert d. induction members as [|n members IH]; intros d; simpl.
  - destruct (getinfo zf name); [|done]. by destruct (extract_member _ d).
  - destruct (getinfo zf n); [|done].
    destruct (extract_member _ d) as [d1|e]; simpl; [apply IH | done].
Qed.

(** X22: when extraction succeeds, the file member that comes last in
    the archive is found in the extracted tree at its sanitised path,
    with its own content, whatever earlier members were written
    there. *)
Theorem last_member_is_extracted :
  forall members member d,
    is_dir member = false ->
    extractall (Returns (members ++ [member])) = Returns d ->
    exists data,
      payload member = Returns data /\ lookup_path (arcname member) d = Some (File data).
Proof.
  intros members member d Hdir H. unfold extractall in H.
  cbn [mbind result_bind Py.bind] in H.
  unfold namelist in H. rewrite fmap_app in H. cbn [fmap list_fmap] in H.
  rewrite extract_members_app in H.
  apply bind_returns in H as (d0 & _ & H). rewrite getinfo_last in H.
  unfold extract_member in H. by eapply extract_at_file.
Qed.

Lemma last_member_is_extracted_witness :
  exists data,
    payload {| filename := "./lib//util.py"; payload := Returns "new" |} = Returns data /\
    lookup_path (arcname {| filename := "./lib//util.py"; payload := Returns "new" |})
      [("lib", Dir [("util.py", File "new"); ("gate.py", File "g")])] = Some (File data).
Proof.
  apply (last_member_is_extracted
           [{| filename := "lib/util.py"; payload := Returns "old" |};
            {| filename := "lib/gate.py"; payload := Returns "g" |}]
           {| filename := "./lib//util.py"; payload := Returns "new" |}
           [("lib", Dir [("util.py", File "new"); ("gate.py", File "g")])]);
    vm_compute; reflexivity.
Defined.

End ExtractionMore.

(** ** The auditor: the keyword checks *)

Section KeywordFacts.
Import Audit.

(** [needle] occurs in [text]. *)
Definition occurs (needle text : string) : Prop :=
  exists before after, text = before +:+ needle +:+ after.

(** [word] spells [keyword] up to the case of its letters: each of its
    characters is the one of the keyword, or the capital of it. *)
Fixpoint spelled (keyword word : string) : Prop :=
  match keyword, word with
  | EmptyString, EmptyString => True
  | String k keyword', String c word' =>
      (c = k \/ c = ascii_of_nat (nat_of_ascii k - 32)) /\ spelled keyword' word'
  | _, _ => False
  end.

Fixpoint small_letters (s : string) : bool :=
  match s with
  | EmptyString => true
  | String c r => is_ascii_lower c && small_letters r
  end.

Lemma lower_app a b : lower (a +:+ b) = lower a +:+ lower b.
Proof. induction a as [|c a IH]; [done|]. rewrite append_cons. simpl. by rewrite IH. Qed.

Lemma lower_app_inv s : forall a b,
  lower s = a +:+ b -> exists s1 s2, s = s1 +:+ s2 /\ lower s1 = a /\ lower s2 = b.
Proof.
  induction s as [|c s IH]; intros a b H.
  - destruct a; [|done]. exists "", "". by destruct b.
  - destruct a as [|x a].
    + exists "", (String c s). split; [done|]. split; [done | exact H].
    + rewrite append_cons in H. simpl in H. injection H as Hx H.
      destruct (IH a b H) as (s1 & s2 & -> & <- & <-).
      exists (String c s1), s2. split; [done|]. split; [|done]. simpl. by rewrite Hx.
Qed.

(** What [lower_char] sends to a small letter: the letter and its
    capital. *)
Lemma lower_char_small c k :
  is_ascii_lower k = true ->
  lower_char c = k <-> c = k \/ c = ascii_of_nat (nat_of_ascii k - 32).
Proof.
  unfold is_ascii_lower, lower_char, is_ascii_upper. intros Hk.
  apply andb_prop in Hk as [Hk1%Nat.leb_le Hk2%Nat.leb_le].
  pose proof (nat_ascii_bounded c) as Hc.
  destruct ((65 <=? nat_of_ascii c)%nat && (nat_of_ascii c <=? 90)%nat) eqn:Hup.
  - apply andb_prop in Hup as [Hc1%Nat.leb_le Hc2%Nat.leb_le]. split.
    + intros H. right. apply (f_equal nat_of_ascii) in H.
      rewrite nat_ascii_embedding in H by lia. rewrite <- H.
      replace (nat_of_ascii c + 32 - 32)%nat with (nat_of_ascii c) by lia.
      by rewrite ascii_nat_embedding.
    + intros [->|H]; [lia|]. apply (f_equal nat_of_ascii) in H.
      rewrite nat_ascii_embedding in H by lia. rewrite H.
      replace (nat_of_ascii k - 32 + 32)%nat with (nat_of_ascii k) by lia.
      apply ascii_nat_embedding.
  - split; [by left|]. intros [?|H]; [done|]. apply (f_equal nat_of_ascii) in H.
    rewrite nat_ascii_embedding in H by lia.
    apply andb_false_iff in Hup as [Hup%Nat.leb_gt|Hup%Nat.leb_gt]; lia.
Qed.

Lemma lower_spelled keyword : forall word,
  small_letters keyword = true -> lower word = keyword <-> spelled keyword word.
Proof.
  induction keyword as [|k keyword IH]; intros [|c word] Hsmall; simpl; try done.
  apply andb_prop in Hsmall as [Hk Hsmall].
  rewrite <- (IH word Hsmall), <- (lower_char_small c k Hk). split.
  - by intros [= -> ->].
  - by intros [-> ->].
Qed.

(** A search for a keyword of small letters in lower-cased text finds
    the keyword in any case. *)
Lemma contains_lower_spec keyword text :
  small_letters keyword = true ->
  contains keyword (lower text) = true <->
  exists before word after, text = before +:+ word +:+ after /\ spelled keyword word.
Proof.
  intros Hsmall. rewrite contains_spec. split.
  - intros (pre & post & H).
    apply lower_app_inv in H as (before & rest & -> & _ & H).
    apply lower_app_inv in H as (word & after & -> & H & _).
    exists before, word, after. split; [done|]. by apply lower_spelled.
  - intros (before & word & after & -> & H). apply lower_spelled in H; [|done].
    exists (lower before), (lower after). by rewrite !lower_app, H.
Qed.

(** The text holds the letters c, s, r, g in a row, each in either
    case. *)
Definition csrg_any_case (text : string) : Prop :=
  exists before c s r g after,
    text = before +:+ String c (String s (String r (String g after))) /\
    (c = "c" \/ c = "C")%char /\ (s = "s" \/ s = "S")%char /\
    (r = "r" \/ r = "R")%char /\ (g = "g" \/ g = "G")%char.

Lemma contains_csrg text : contains "csrg" (lower text) = true <-> csrg_any_case text.
Proof.
  rewrite contains_lower_spec by done. split.
  - intros (before & word & after & -> & H).
    destruct word as [|c [|s [|r [|g [|? ?]]]]]; simpl in H; try tauto.
    exists before, c, s, r, g, after. rewrite !append_cons. tauto.
  - intros (before & c & s & r & g & after & -> & ? & ? & ? & ?).
    exists before, (String c (String s (String r (String g "")))), after.
    rewrite !append_cons. simpl. tauto.
Qed.

(** The text holds the letters l, e, d, g, e, r in a row, each in either
    case. *)
Definition ledger_any_case (text : string) : Prop :=
  exists before l e d g e' r after,
    text = before +:+ String l (String e (String d (String g (String e' (String r after))))) /\
    (l = "l" \/ l = "L")%char /\ (e = "e" \/ e = "E")%char /\ (d = "d" \/ d = "D")%char /\
    (g = "g" \/ g = "G")%char /\ (e' = "e" \/ e' = "E")%char /\ (r = "r" \/ r = "R")%char.

Lemma contains_ledger text : contains "ledger" (lower text) = true <-> ledger_any_case text.
Proof.
  rewrite contains_lower_spec by done. split.
  - intros (before & word & after & -> & H).
    destruct word as [|l [|e [|d [|g [|e' [|r [|? ?]]]]]]]; simpl in H; try tauto.
    exists before, l, e, d, g, e', r, after. rewrite !append_cons. tauto.
  - intros (before & l & e & d & g & e' & r & after & -> & ? & ? & ? & ? & ? & ?).
    exists before, (String l (String e (String d (String g (String e' (String r "")))))), after.
    rewrite !append_cons. simpl. tauto.
Qed.

(** *** Files at any depth *)

Lemma fsnode_nested_ind (P : fsnode -> Prop) :
  (forall data, P (File data)) ->
  (forall entries, Forall (fun e => P e.2) entries -> P (Dir entries)) ->
  forall x, P x.
Proof.
  intros Hfile Hdir.
  exact (fix go (x : fsnode) : P x :=
           match x with
           | File data => Hfile data
           | Dir entries =>
               Hdir entries
                 ((fix all (es : directory) : Forall (fun e => P e.2) es :=
                     match es with
                     | [] => @List.Forall_nil _ _
                     | e :: r => @List.Forall_cons _ _ e r (go e.2) (all r)
                     end) entries)
           end).
Qed.

(** The entry [name] lies in the directory, or in a directory below it:
    [dirs] are the directories on the way down. *)
Inductive entry_at : directory -> list string -> string -> fsnode -> Prop :=
| entry_here d name x : (name, x) ∈ d -> entry_at d [] name x
| entry_below d dir sub dirs name x :
    (dir, Dir sub) ∈ d -> entry_at sub dirs name x -> entry_at d (dir :: dirs) name x.

Lemma rglob_Dir pattern entries :
  rglob pattern (Dir entries)
  = filter (fun e => fnmatch pattern e.1) entries ++ flat_map (fun e => rglob pattern e.2) entries.
Proof.
  cbn [rglob]. f_equal. induction entries as [|[n sub] es IH]; [done|].
  cbn [flat_map snd]. by rewrite <- IH.
Qed.

(** The recursive glob yields the entries, at any depth, whose name
    matches the pattern. *)
Lemma rglob_spec pattern d name x :
  (name, x) ∈ rglob pattern (Dir d) <->
  (exists dirs, entry_at d dirs name x) /\ fnmatch pattern name = true.
Proof.
  revert name x.
  change (forall name x,
            (name, x) ∈ rglob pattern (Dir d) <->
            match Dir d with
            | File _ => False
            | Dir d => (exists dirs, entry_at d dirs name x) /\ fnmatch pattern name = true
            end).
  generalize (Dir d). clear d. intros y.
  induction y as [data|entries IH] using fsnode_nested_ind; intros name x.
  - simpl. split; [by intros ?%elem_of_nil | done].
  - rewrite rglob_Dir, elem_of_app, list_elem_of_filter, elem_of_flat_map.
    cbn [fst]. rewrite Is_true_true. split.
    + intros [[? ?]|([dir sub] & Hin & Hsub)].
      * split; [|done]. exists []. by constructor.
      * apply (proj1 (Forall_forall _ _) IH _ Hin) in Hsub. cbn [snd] in Hsub.
        destruct sub as [|sub]; [done|]. destruct Hsub as [[dirs Hat] Hm].
        split; [|done]. exists (dir :: dirs). by econstructor.
    + intros [[dirs Hat] Hm]. inversion Hat as [? ? ? Hin|? dir sub dirs' ? ? Hin Hsub]; subst.
      * by left.
      * right. exists (dir, Dir sub). split; [done|].
        apply (proj1 (Forall_forall _ _) IH _ Hin). cbn [snd]. eauto.
Qed.

Lemma py_pattern_spec name :
  fnmatch "*.py" name = true <-> exists stem, name = stem +:+ ".py".
Proof.
  rewrite fnmatch_star. split.
  - intros (stem & r0 & -> & H).
    apply fnmatch_char in H as (r1 & -> & H); [|done].
    apply fnmatch_char in H as (r2 & -> & H); [|done].
    apply fnmatch_char in H as (r3 & -> & H); [|done].
    apply fnmatch_empty in H as ->. by exists stem.
  - intros (stem & ->). exists stem, ".py". split; [done | reflexivity].
Qed.

(** *** The CSRG keyword check *)

(** A file of the bundle, at any depth, whose name ends in [.py] and
    whose bytes decode to a text that holds the keyword in some case. *)
Definition csrg_file (L : Lib) (d : directory) (name : string) : Prop :=
  exists dirs stem data source,
    entry_at d dirs name (File data) /\ name = stem +:+ ".py" /\
    decode L data = Returns source /\ csrg_any_case source.

Lemma csrg_files_spec L d name :
  name ∈ csrg_files L (rglob "*.py" (Dir d)) <-> csrg_file L d name.
Proof.
  rewrite csrg_files_filter, list_elem_of_fmap. split.
  - intros ([n x] & -> & [Hm Hin]%list_elem_of_filter). cbn [fst].
    apply rglob_spec in Hin as [[dirs Hat] [stem Hpy]%py_pattern_spec].
    apply Is_true_true in Hm. unfold mentions_csrg in Hm. cbn [snd] in Hm.
    destruct x as [data|sub]; [|done]. simpl in Hm.
    destruct (decode L data) as [source|e] eqn:Hdec; [|done].
    apply contains_csrg in Hm. by exists dirs, stem, data, source.
  - intros (dirs & stem & data & source & Hat & Hpy & Hdec & Hm).
    exists (name, File data). split; [done|]. apply list_elem_of_filter. split.
    + apply Is_true_true. unfold mentions_csrg. simpl. rewrite Hdec. by apply contains_csrg.
    + apply rglob_spec. split; [eauto|]. apply py_pattern_spec. eauto.
Qed.

(** C4: the CSRG check returns and leaves [verified_implementations] as
    it is.  When some [.py] file of the bundle, at any depth, decodes to
    a text that holds the keyword in any case, the check appends one
    unverifiable finding whose file list holds the names of exactly
    these files; when no file does, it appends one missing finding. *)
Theorem check_csrg_presence_lists_matches :
  forall L d r,
    exists r',
      check_csrg_presence L d r = Returns r' /\
      verified_implementations r' = verified_implementations r /\
      ((exists name, csrg_file L d name) ->
         exists files,
           r' = append_unverifiable
                  [("component", VStr "CSRG gate");
                   ("reason", VStr "Files mention CSRG but wiring unclear without execution");
                   ("files", VList files)] r /\
           forall name, name ∈ files <-> csrg_file L d name) /\
      ((~ exists name, csrg_file L d name) ->
         exists searched : nat,
           r' = append_missing
                  [("component", VStr "CSRG gate");
                   ("reason", VStr "No files contain 'csrg' or 'CSRG'");
                   ("evidence", VStr ("Searched " +:+ pretty searched
                                        +:+ " Python files, 0 matches"))] r).
Proof.
  intros L d r. pose proof (csrg_files_spec L d) as Hspec.
  unfold check_csrg_presence.
  destruct (csrg_files L (rglob "*.py" (Dir d))) as [|file files].
  - eexists. split; [reflexivity|]. split; [done|]. split.
    + intros [name Hname]. apply Hspec in Hname. by apply elem_of_nil in Hname.
    + intros _. by eexists.
  - eexists. split; [reflexivity|]. split; [done|]. split.
    + intros _. by exists (file :: files).
    + intros Hnone. destruct Hnone. exists file. apply Hspec. by left.
Qed.

(** The keyword in mixed case in a file of a sub-directory, and in small
    letters in a file that is no Python file. *)
Definition csrg_bundle : directory :=
  [("a.py", File "x = 1");
   ("pkg", Dir [("g.py", File "import CsRg_gate"); ("notes.txt", File "csrg")])].

Lemma check_csrg_presence_lists_matches_witness :
  exists files,
    check_csrg_presence Fixtures.basic_lib csrg_bundle empty_report
    = Returns (append_unverifiable
        [("component", VStr "CSRG gate");
         ("reason", VStr "Files mention CSRG but wiring unclear without execution");
         ("files", VList files)] empty_report) /\
    "g.py" ∈ files /\
    (forall name, name ∈ files <-> csrg_file Fixtures.basic_lib csrg_bundle name).
Proof.
  assert (Hfile : csrg_file Fixtures.basic_lib csrg_bundle "g.py").
  { exists ["pkg"], "g", "import CsRg_gate", "import CsRg_gate". split.
    - apply (entry_below _ "pkg" [("g.py", File "import CsRg_gate"); ("notes.txt", File "csrg")]).
      + right. left.
      + constructor. left.
    - split; [reflexivity|]. split; [reflexivity|].
      exists "import ", "C"%char, "s"%char, "R"%char, "g"%char, "_gate".
      split; [reflexivity|]. tauto. }
  destruct (check_csrg_presence_lists_matches Fixtures.basic_lib csrg_bundle empty_report)
    as (r' & Hcheck & _ & Hsome & _).
  destruct (Hsome (ex_intro _ "g.py" Hfile)) as (files & -> & Hfiles).
  exists files. split; [exact Hcheck|]. split; [by apply Hfiles | exact Hfiles].
Defined.

Example csrg_in_subdirectory :
  check_csrg_presence Fixtures.basic_lib csrg_bundle empty_report
  = Returns (append_unverifiable
      [("component", VStr "CSRG gate");
       ("reason", VStr "Files mention CSRG but wiring unclear without execution");
       ("files", VList ["g.py"])] empty_report).
Proof. vm_compute. reflexivity. Qed.

(** *** The ledger check *)

(** What the check takes for a ledger write in append mode. *)
Definition ledger_evidence (source : string) : Prop :=
  ledger_any_case source /\
  (occurs "open(" source \/ occurs ".write(" source) /\
  (occurs (dquote +:+ "a" +:+ dquote) source \/ occurs "'a'" source).

Lemma ledger_evidence_spec source :
  mentions_ledger source && has_write_pattern source && has_append_literal source = true
  <-> ledger_evidence source.
Proof.
  unfold mentions_ledger, has_write_pattern, has_append_literal, ledger_evidence, occurs.
  rewrite !andb_true_iff, !orb_true_iff, contains_ledger, !contains_spec. tauto.
Qed.

(** C6 (as the code has it): for a bundle with an entry
    [BOOT_METABLOOMS.py].  When its text can be read, the ledger check
    appends a verified finding exactly when the text holds [ledger] in
    any case, holds [open(] or [.write(], and holds an append-mode
    literal, [a] in double or in single quotes; the path of the finding
    is group 1 of the [LEDGER_PATH] pattern of line 274, or the default
    path when the pattern does not match.  Otherwise it appends a
    missing finding, as it does for a text with neither [write(] nor
    [open(].  When the text cannot be read, the check raises the
    exception of the read and appends nothing. *)
Theorem check_ledger_integration_readable :
  forall L d r,
    exists_ "BOOT_METABLOOMS.py" d = true ->
    (forall source,
       read_text L (lookup "BOOT_METABLOOMS.py" d) = Returns source ->
       (ledger_evidence source ->
          check_ledger_integration L d r =
            Returns (append_verified
              [("component", VStr "Ledger integration");
               ("detail", VStr "Boot writes to ledger in append mode");
               ("path", VStr
                  match re_search_group1 L
                          ("LEDGER_PATH\s*=\s*.+?[" +:+ dquote +:+ "\'](.+?)[" +:+ dquote +:+ "\']")
                          source with
                  | Some group1 => group1
                  | None => "governance/epistemic_ledger.ndjson"
                  end);
               ("evidence", VStr "Source contains ledger open in append mode")] r)) /\
       (~ ledger_evidence source ->
          check_ledger_integration L d r =
            Returns (append_missing
              [("component", VStr "Ledger integration");
               ("reason", VStr "No evidence of ledger writes in boot")] r)) /\
       (~ occurs "write(" source -> ~ occurs "open(" source ->
          check_ledger_integration L d r =
            Returns (append_missing
              [("component", VStr "Ledger integration");
               ("reason", VStr "No evidence of ledger writes in boot")] r))) /\
    (forall e,
       read_text L (lookup "BOOT_METABLOOMS.py" d) = Raises e ->
       check_ledger_integration L d r = Raises e).
Proof.
  intros L d r Hexists. split.
  - intros source Hread. rewrite (check_ledger_integration_eq L d r source Hread).
    pose proof (ledger_evidence_spec source) as Hspec.
    destruct (mentions_ledger source && has_write_pattern source && has_append_literal source).
    + split; [intros _|split].
      * unfold ledger_verified, ledger_path_pattern.
        by destruct (re_search_group1 L _ source).
      * intros Hno. destruct Hno. by apply Hspec.
      * intros Hw Ho. destruct (proj1 Hspec eq_refl) as (_ & [?|Hdot] & _); [done|].
        destruct Hw. destruct Hdot as (before & after & ->).
        exists (before +:+ "."), after. by rewrite !string_app_assoc.
    + split; [|by split]. intros Hev. apply Hspec in Hev. discriminate Hev.
  - intros e Hread. unfold check_ledger_integration. by rewrite Hexists, Hread.
Qed.

(** A boot file that assigns [LEDGER_PATH] and opens it in append mode;
    [re.search] is tabulated at its text. *)
Definition ledger_wired_source : string :=
  "LEDGER_PATH = ROOT / 'l.ndjson'; open(LEDGER_PATH, 'a')".

Lemma check_ledger_integration_readable_witness :
  exists_ "BOOT_METABLOOMS.py" [("BOOT_METABLOOMS.py", File ledger_wired_source)] = true /\
  ledger_evidence ledger_wired_source /\
  check_ledger_integration
    (Fixtures.table_lib [] [] [(ledger_wired_source, "l.ndjson")])
    [("BOOT_METABLOOMS.py", File ledger_wired_source)] empty_report
  = Returns (append_verified
      [("component", VStr "Ledger integration");
       ("detail", VStr "Boot writes to ledger in append mode");
       ("path", VStr "l.ndjson");
       ("evidence", VStr "Source contains ledger open in append mode")] empty_report).
Proof.
  assert (Hev : ledger_evidence ledger_wired_source).
  { split; [|split].
    - exists "", "L"%char, "E"%char, "D"%char, "G"%char, "E"%char, "R"%char,
        "_PATH = ROOT / 'l.ndjson'; open(LEDGER_PATH, 'a')".
      split; [reflexivity|]. tauto.
    - left. by exists "LEDGER_PATH = ROOT / 'l.ndjson'; ", "LEDGER_PATH, 'a')".
    - right. by exists "LEDGER_PATH = ROOT / 'l.ndjson'; open(LEDGER_PATH, ", ")". }
  split; [reflexivity|]. split; [exact Hev|].
  destruct (check_ledger_integration_readable
              (Fixtures.table_lib [] [] [(ledger_wired_source, "l.ndjson")])
              [("BOOT_METABLOOMS.py", File ledger_wired_source)] empty_report eq_refl)
    as [Hread _].
  destruct (Hread ledger_wired_source eq_refl) as [Hverified _].
  exact (Hverified Hev).
Defined.

(** A boot file that mentions the ledger and an append mode but neither
    writes nor opens. *)
Definition ledger_mention_only : directory :=
  [("BOOT_METABLOOMS.py", File "# the ledger is kept in mode 'a'")].

Example ledger_mention_only_missing :
  check_ledger_integration Fixtures.basic_lib ledger_mention_only empty_report
  = Returns (append_missing
      [("component", VStr "Ledger integration");
       ("reason", VStr "No evidence of ledger writes in boot")] empty_report).
Proof. reflexivity. Qed.

(** The pattern of line 274 needs a character between the equals sign
    and the opening quote: for [LEDGER_PATH = 'l.ndjson'; open(LEDGER_PATH, 'a')]
    group 1 of [re.search] is the text between the second and the third
    quote, and that is the path reported. *)
Example ledger_path_between_quotes :
  check_ledger_integration
    (Fixtures.table_lib [] []
       [("LEDGER_PATH = 'l.ndjson'; open(LEDGER_PATH, 'a')", "; open(LEDGER_PATH, ")])
    [("BOOT_METABLOOMS.py", File "LEDGER_PATH = 'l.ndjson'; open(LEDGER_PATH, 'a')")] empty_report
  = Returns (append_verified
      [("component", VStr "Ledger integration");
       ("detail", VStr "Boot writes to ledger in append mode");
       ("path", VStr "; open(LEDGER_PATH, ");
       ("evidence", VStr "Source contains ledger open in append mode")] empty_report).
Proof. vm_compute. reflexivity. Qed.

(** A boot file whose first byte is no ASCII character and starts no
    UTF-8 character, and a directory in the place of the boot file. *)
Definition undecodable_boot : directory :=
  [("BOOT_METABLOOMS.py", File (String (ascii_of_nat 255) "ledger open( 'a'"))].

Definition directory_boot : directory := [("BOOT_METABLOOMS.py", Dir [])].

(** C6, counterexample: the bundle holds [BOOT_METABLOOMS.py], with
    bytes that do not decode, or as a directory.  The ledger check
    raises the exception of the read; it returns no report, so no
    missing finding is appended. *)
Lemma unreadable_boot_escapes_ledger_check :
  exists_ "BOOT_METABLOOMS.py" undecodable_boot = true /\
  check_ledger_integration Fixtures.basic_lib undecodable_boot empty_report
    = Raises UnicodeDecodeError /\
  exists_ "BOOT_METABLOOMS.py" directory_boot = true /\
  extractall (Returns [{| filename := "BOOT_METABLOOMS.py/"; payload := Returns "" |}])
    = Returns directory_boot /\
  check_ledger_integration Fixtures.basic_lib directory_boot empty_report
    = Raises IsADirectoryError.
Proof. repeat split. Qed.

End KeywordFacts.
